(** * AeroBeat Assembly: the development-environment setup script

    A shallow embedding of [setup_dev.py] and the properties of its four
    phases.  The script is glue code around three kinds of effects:

    - the filesystem below the working directory ([os.path.exists],
      [os.makedirs], [open]/[read]/[write]);
    - the standard output and error streams ([print]);
    - an external command run through the shell ([subprocess.run]).

    The first two are modelled concretely.  The third is a parameter of the
    development: what a shell command does to the filesystem and to the
    rest of the machine, and what it reports, is not decided by the script.

    A file holds bytes, and a command writes bytes; a string of the model
    is a sequence of bytes.  The text the script sees is what the UTF-8
    codec, the encoding of the locale, makes of them, and bytes that do
    not decode make the read raise [UnicodeDecodeError].  A text is kept
    as its UTF-8 bytes.

    What the model leaves out: text is written as on a POSIX system (a
    line feed stays a line feed); a path is a relative path made of names
    and names a regular file or a directory (no links, no permissions, no
    [.] or [..]); the limits of the system (the length of a command line,
    the space on the disk) are never reached; and [print] always succeeds,
    whatever the encoding of the two output streams.  A run is observed
    through its trace, which records, besides the output and the commands,
    the entry into each function of the script. *)

From Stdlib Require Import ZArith String Ascii List Bool Lia.
From stdpp Require Import gmap strings list.

Open Scope string_scope.
Open Scope list_scope.

(** ** Text *)

Module Text.

Definition LF : ascii := "010"%char.
Definition CR : ascii := "013"%char.
Definition NUL : ascii := "000"%char.

(** One-character strings that cannot be written inside a literal. *)
Definition nl : string := String LF "".
Definition dq : string := String "034"%char "".

(** [s.startswith(p)] *)
Fixpoint startswith (p s : string) : bool :=
  match p, s with
  | EmptyString, _ => true
  | String _ _, EmptyString => false
  | String a p', String b s' => if Ascii.eqb a b then startswith p' s' else false
  end.

(** [m in s] on Python strings: [m] occurs in [s] as a contiguous
    substring. *)
Fixpoint contains (m s : string) : bool :=
  startswith m s ||
  match s with
  | EmptyString => false
  | String _ s' => contains m s'
  end.

(** Truthiness of a string: [if s:] holds for the non-empty strings. *)
Definition truthy (s : string) : bool :=
  match s with EmptyString => false | String _ _ => true end.

(** What text-mode reading (the default [newline=None]) does to line
    ends: a carriage return, with or without a line feed after it,
    is read as one line feed. *)
Fixpoint universal_newlines (s : string) : string :=
  match s with
  | EmptyString => EmptyString
  | String c s' =>
      if Ascii.eqb c CR then
        match s' with
        | String d s'' =>
            if Ascii.eqb d LF then String LF (universal_newlines s'')
            else String LF (universal_newlines s')
        | EmptyString => String LF EmptyString
        end
      else String c (universal_newlines s')
  end.

(** [sep.join(l)] *)
Fixpoint join (sep : string) (l : list string) : string :=
  match l with
  | [] => ""
  | [x] => x
  | x :: rest => x +:+ sep +:+ join sep rest
  end.

(** Does the character [c] occur in [s]? *)
Fixpoint has_char (c : ascii) (s : string) : bool :=
  match s with
  | EmptyString => false
  | String d s' => Ascii.eqb c d || has_char c s'
  end.

(** *** Decoding

    [bytes.decode("utf-8")] with [errors="strict"], as text-mode reading
    applies it: a finite automaton over the bytes.  Between two characters
    it expects [nothing]; after the first byte of a character of several
    bytes it expects the continuation bytes, of which the first is
    restricted after [E0] (no overlong form), [ED] (no surrogate), [F0]
    (no overlong form) and [F4] (nothing above U+10FFFF). *)
Inductive expecting : Type :=
| nothing
| one_more
| two_more
| three_more
| after_E0
| after_ED
| after_F0
| after_F4.

Definition between (lo hi b : N) : bool := ((lo <=? b) && (b <=? hi))%N.

Definition utf8_step (e : expecting) (b : N) : option expecting :=
  match e with
  | nothing =>
      if (b <=? 0x7f)%N then Some nothing
      else if between 0xc2 0xdf b then Some one_more
      else if (b =? 0xe0)%N then Some after_E0
      else if (b =? 0xed)%N then Some after_ED
      else if between 0xe1 0xef b then Some two_more
      else if (b =? 0xf0)%N then Some after_F0
      else if between 0xf1 0xf3 b then Some three_more
      else if (b =? 0xf4)%N then Some after_F4
      else None
  | one_more => if between 0x80 0xbf b then Some nothing else None
  | two_more => if between 0x80 0xbf b then Some one_more else None
  | three_more => if between 0x80 0xbf b then Some two_more else None
  | after_E0 => if between 0xa0 0xbf b then Some one_more else None
  | after_ED => if between 0x80 0x9f b then Some one_more else None
  | after_F0 => if between 0x90 0xbf b then Some two_more else None
  | after_F4 => if between 0x80 0x8f b then Some two_more else None
  end.

Fixpoint utf8_run (e : expecting) (s : string) : bool :=
  match s with
  | EmptyString => match e with nothing => true | _ => false end
  | String c s' =>
      match utf8_step e (N_of_ascii c) with
      | Some e' => utf8_run e' s'
      | None => false
      end
  end.

(** Do the bytes [s] decode? *)
Definition decodes (s : string) : bool := utf8_run nothing s.

End Text.

(** ** Paths and the filesystem *)

(** A path is kept as the list of its components, relative to the working
    directory of the script. *)
Abbreviation path := (list string).

Module Path.

(** The pieces of [s] between slashes. *)
Fixpoint split_slash (s : string) : list string :=
  match s with
  | EmptyString => [EmptyString]
  | String c s' =>
      if Ascii.eqb c "/"%char then EmptyString :: split_slash s'
      else match split_slash s' with
           | [] => [String c EmptyString]
           | h :: t => String c h :: t
           end
  end.

(** Path resolution ignores empty pieces (doubled or trailing slashes). *)
Definition components (s : string) : path :=
  List.filter Text.truthy (split_slash s).

End Path.

(** What a path names: a regular file with the bytes it holds, or a
    directory. *)
Inductive node : Type :=
| File (content : string)
| Dir.

#[global] Instance node_eq_dec : EqDecision node.
Proof. solve_decision. Defined.

Abbreviation filesystem := (gmap path node).

(** The exceptions the library calls of the script can raise. *)
Inductive exn : Type :=
| FileExistsError
| FileNotFoundError
| NotADirectoryError
| IsADirectoryError
| UnicodeDecodeError
| ValueError.

Module OS.

(** [os.path.exists(p)] *)
Definition exists_ (f : filesystem) (p : path) : bool :=
  match f !! p with Some _ => true | None => false end.

(** [os.path.isdir(p)] *)
Definition isdir (f : filesystem) (p : path) : bool :=
  match f !! p with Some Dir => true | _ => false end.

(** [os.makedirs(p, exist_ok=...)], walking down from the directory
    [pre] through the components [rest]: a missing directory is created,
    an existing one is entered, and a regular file in the way raises.
    The directories created before an exception stay. *)
Fixpoint makedirs_from (exist_ok : bool) (pre : path) (rest : list string)
    (f : filesystem) : (exn + unit) * filesystem :=
  match rest with
  | [] => (inr tt, f)
  | c :: rest' =>
      let p := (pre ++ [c]) in
      match f !! p with
      | None => makedirs_from exist_ok p rest' (<[p := Dir]> f)
      | Some Dir =>
          match rest' with
          | [] => if exist_ok then (inr tt, f) else (inl FileExistsError, f)
          | _ :: _ => makedirs_from exist_ok p rest' f
          end
      | Some (File _) =>
          match rest' with
          | [] => (inl FileExistsError, f)
          | _ :: _ => (inl NotADirectoryError, f)
          end
      end
  end.

Definition makedirs (exist_ok : bool) (p : path) (f : filesystem) : (exn + unit) * filesystem :=
  makedirs_from exist_ok [] p f.

(** [open(p, "r").read()]: the bytes of the file are decoded, then the
    line ends are translated. *)
Definition read_text (f : filesystem) (p : path) : exn + string :=
  match f !! p with
  | Some (File c) =>
      if Text.decodes c then inr (Text.universal_newlines c)
      else inl UnicodeDecodeError
  | Some Dir => inl IsADirectoryError
  | None => inl FileNotFoundError
  end.

(** Is the directory that holds [p] there? *)
Definition parent_ok (f : filesystem) (p : path) : bool :=
  match removelast p with
  | [] => true
  | d => isdir f d
  end.

(** [open(p, "a").write(s)]: the text goes after what the file holds;
    a file that is not there is created. *)
Definition append_text (f : filesystem) (p : path) (s : string) : (exn + unit) * filesystem :=
  match f !! p with
  | Some (File c) => (inr tt, <[p := File (c +:+ s)]> f)
  | Some Dir => (inl IsADirectoryError, f)
  | None =>
      if parent_ok f p then (inr tt, <[p := File s]> f)
      else (inl FileNotFoundError, f)
  end.

(** What keeps [subprocess.run] from starting the command [cmd] in the
    directory [cwd], if anything does: a null byte in one of the two, or a
    directory that cannot be entered.  [None] for [cwd] is the working
    directory of the script. *)
Definition spawn_error (f : filesystem) (cmd : string) (cwd : option string) : option exn :=
  if Text.has_char Text.NUL cmd then Some ValueError
  else match cwd with
       | None => None
       | Some d =>
           if Text.has_char Text.NUL d then Some ValueError
           else match f !! Path.components d with
                | Some Dir => None
                | Some (File _) => Some NotADirectoryError
                | None => Some FileNotFoundError
                end
       end.

End OS.

(** ** The world the script runs in *)

(** A command that has run: its exit status and what was captured from
    its two output streams.  The shell hands back the bytes the command
    wrote; [subprocess.run(..., capture_output=True, text=True)] hands
    back the text they decode to. *)
Record CompletedProcess : Type := {
  returncode : Z;
  stdout : string;
  stderr : string
}.

(** Do both captured outputs decode? *)
Definition decodable (r : CompletedProcess) : bool :=
  Text.decodes (stdout r) && Text.decodes (stderr r).

(** What [text=True] makes of the captured bytes once they are decoded:
    the line ends are translated, as in text-mode reading. *)
Definition as_text (r : CompletedProcess) : CompletedProcess :=
  {| returncode := returncode r;
     stdout := Text.universal_newlines (stdout r);
     stderr := Text.universal_newlines (stderr r) |}.

(** The functions of the script. *)
Inductive func : Type :=
| f_run_command
| f_setup_submodules
| f_verify_structure
| f_create_directories
| f_update_project_plugins
| f_main.

#[global] Instance func_eq_dec : EqDecision func.
Proof. solve_decision. Defined.

(** What an observer of a run sees, in the order it happens: a function of
    the script is entered, a line goes to one of the two output streams, a
    command is handed to the shell. *)
Inductive event : Type :=
| Call (f : func)
| Stdout (line : string)
| Stderr (line : string)
| Exec (cmd : string) (cwd : option string).

Section Script.

(** Everything outside the working directory that a shell command can
    read or change (sibling repositories, the network, the clock). *)
Context {Ext : Type}.

(** The shell: a command line and a working directory, run on the
    filesystem and the outside world, leave both changed and report
    back, in bytes. *)
Variable shell : string -> option string -> filesystem -> Ext -> filesystem * Ext * CompletedProcess.

Record World : Type := {
  fs : filesystem;
  ext : Ext;
  trace : list event
}.

(** A computation returns a value or raises, and leaves a world either
    way. *)
Definition M (A : Type) : Type := World -> (exn + A) * World.

#[global] Instance M_ret : MRet M := fun A a w => (inr a, w).

#[global] Instance M_bind : MBind M := fun A B k m w =>
  match m w with
  | (inr a, w') => k a w'
  | (inl e, w') => (inl e, w')
  end.

Definition emit (e : event) : M unit := fun w =>
  (inr tt, {| fs := fs w; ext := ext w; trace := trace w ++ [e] |}).

Definition enter (f : func) : M unit := emit (Call f).

(** [print(s)] and [print(s, file=sys.stderr)] *)
Definition print (s : string) : M unit := emit (Stdout s).
Definition eprint (s : string) : M unit := emit (Stderr s).

(** Lift a filesystem call that only reads. *)
Definition ask {A} (q : filesystem -> A) : M A := fun w => (inr (q (fs w)), w).

(** Lift a filesystem call that can raise and can write. *)
Definition act {A} (op : filesystem -> (exn + A) * filesystem) : M A := fun w =>
  let '(r, f') := op (fs w) in
  (r, {| fs := f'; ext := ext w; trace := trace w |}).

Definition os_path_exists (p : string) : M bool :=
  ask (fun f => OS.exists_ f (Path.components p)).

Definition os_makedirs (p : string) (exist_ok : bool) : M unit :=
  act (OS.makedirs exist_ok (Path.components p)).

Definition read_file (p : string) : M string :=
  act (fun f => (OS.read_text f (Path.components p), f)).

Definition append_file (p : string) (s : string) : M unit :=
  act (fun f => OS.append_text f (Path.components p) s).

(** [subprocess.run(cmd, shell=True, cwd=cwd, capture_output=True,
    text=True)]: a command that cannot be started raises and nothing has
    run; otherwise the command runs to its end, and only then is what it
    wrote decoded, so that output that does not decode raises after the
    command has had its effect. *)
Definition subprocess_run (cmd : string) (cwd : option string) : M CompletedProcess :=
  fun w =>
    match OS.spawn_error (fs w) cmd cwd with
    | Some e => (inl e, w)
    | None =>
        let '(f', x', r) := shell cmd cwd (fs w) (ext w) in
        let w' := {| fs := f'; ext := x'; trace := trace w ++ [Exec cmd cwd] |} in
        if decodable r then (inr (as_text r), w') else (inl UnicodeDecodeError, w')
    end.

(** [if c: body] *)
Definition when (c : bool) (body : M unit) : M unit :=
  if c then body else mret tt.

(** *** The script *)

Definition run_command (cmd : string) (cwd : option string) : M bool :=
  enter f_run_command;;
  print (">>> " +:+ cmd);;
  result ← subprocess_run cmd cwd;
  when (Text.truthy (stdout result)) (print (stdout result));;
  when (Text.truthy (stderr result)) (eprint (stderr result));;
  mret (returncode result =? 0)%Z.

Definition submodules : list (string * string) :=
  [ ("../aerobeat-core", "addons/aerobeat-core");
    ("../aerobeat-input-mediapipe-python", "addons/aerobeat-input-mediapipe") ].

Definition add_command (source dest : string) : string :=
  "git submodule add " +:+ Text.dq +:+ source +:+ Text.dq +:+ " "
    +:+ Text.dq +:+ dest +:+ Text.dq.

Definition update_command : string := "git submodule update --init --recursive".

(** The [for source, dest in submodules] loop.  Its result tells whether
    the loop ran to its end ([true]) or left the function through
    [return False] ([false]). *)
Fixpoint add_missing (subs : list (string * string)) : M bool :=
  match subs with
  | [] => mret true
  | (source, dest) :: rest =>
      there ← os_path_exists dest;
      if negb there then
        print ("Adding submodule: " +:+ source +:+ " -> " +:+ dest);;
        ok ← run_command (add_command source dest) None;
        if negb ok then
          print ("Failed to add submodule " +:+ source);;
          mret false
        else add_missing rest
      else add_missing rest
  end.

Definition setup_submodules : M bool :=
  enter f_setup_submodules;;
  print "Setting up git submodules...";;
  git ← os_path_exists ".git";
  if negb git then
    print "Warning: Not a git repository. Submodules may not work correctly.";;
    mret false
  else
    looped ← add_missing submodules;
    if negb looped then mret false
    else
      ok ← run_command update_command None;
      if negb ok then
        print "Failed to update submodules";;
        mret false
      else
        print "Submodules configured successfully";;
        mret true.

Definition required_paths : list string :=
  [ "addons/aerobeat-core/src/interfaces/input_provider.gd";
    "addons/aerobeat-input-mediapipe/src/providers/mediapipe_provider.gd";
    "src";
    "scenes";
    "test" ].

(** The [for path in required_paths] loop, with the flag it updates. *)
Fixpoint check_paths (paths : list string) (all_exist : bool) : M bool :=
  match paths with
  | [] => mret all_exist
  | p :: rest =>
      there ← os_path_exists p;
      if (there : bool) then
        print ("  ✓ " +:+ p);;
        check_paths rest all_exist
      else
        print ("  ✗ " +:+ p +:+ " (will be created)");;
        check_paths rest false
  end.

Definition verify_structure : M bool :=
  enter f_verify_structure;;
  print "Verifying directory structure...";;
  check_paths required_paths true.

Definition dirs : list string := ["src"; "scenes"; "test/unit"; "test/integration"].

(** The [for d in dirs] loop. *)
Fixpoint make_each (ds : list string) : M unit :=
  match ds with
  | [] => mret tt
  | d :: rest =>
      os_makedirs d true;;
      print ("Created: " +:+ d);;
      make_each rest
  end.

Definition create_directories : M unit :=
  enter f_create_directories;;
  make_each dirs.

Definition plugin_section : string :=
  Text.nl +:+ "[editor_plugins]" +:+ Text.nl +:+
  "enabled=PackedStringArray(" +:+
    Text.dq +:+ "res://addons/aerobeat-core/plugin.cfg" +:+ Text.dq +:+ ", " +:+
    Text.dq +:+ "res://addons/aerobeat-input-mediapipe/plugin.cfg" +:+ Text.dq +:+
  ")" +:+ Text.nl.

Definition project_file : string := "project.godot".

Definition marker : string := "[editor_plugins]".

Definition update_project_plugins : M bool :=
  enter f_update_project_plugins;;
  print "Updating project.godot plugin configuration...";;
  there ← os_path_exists project_file;
  if negb there then
    print ("Error: " +:+ project_file +:+ " not found");;
    mret false
  else
    content ← read_file project_file;
    if Text.contains marker content then
      print "Plugin configuration already exists";;
      mret true
    else
      append_file project_file plugin_section;;
      print "Plugin configuration added";;
      mret true.

Definition main : M unit :=
  enter f_main;;
  print ("=== AeroBeat Assembly Setup ===" +:+ Text.nl);;
  create_directories;;
  ok ← setup_submodules;
  when (negb ok)
    (print (Text.nl +:+ "Warning: Submodule setup had issues. You may need to configure manually."));;
  verify_structure;;
  update_project_plugins;;
  print (Text.nl +:+ "=== Setup complete ===");;
  print "Next steps:";;
  print "1. Open this project in Godot 4.6";;
  print "2. Install Python dependencies: cd addons/aerobeat-input-mediapipe && ./install_deps.sh";;
  print "3. Run the project!".

End Script.

(** ** Vocabulary of the statements *)

Arguments World : clear implicits.
Arguments M : clear implicits.

(** The world [w] after the events [evs] have been observed. *)
Definition log {Ext} (evs : list event) (w : World Ext) : World Ext :=
  {| fs := fs w; ext := ext w; trace := trace w ++ evs |}.

(** The command lines handed to the shell, in order. *)
Fixpoint commands (t : list event) : list string :=
  match t with
  | [] => []
  | Exec c _ :: t' => c :: commands t'
  | _ :: t' => commands t'
  end.

(** The four phases of [main]. *)
Definition is_phase (f : func) : bool :=
  match f with
  | f_create_directories | f_setup_submodules
  | f_verify_structure | f_update_project_plugins => true
  | f_run_command | f_main => false
  end.

(** The phases entered, in order. *)
Fixpoint phases (t : list event) : list func :=
  match t with
  | [] => []
  | Call f :: t' => if is_phase f then f :: phases t' else phases t'
  | _ :: t' => phases t'
  end.

(** Where [project.godot] lives. *)
Definition project_path : path := Path.components project_file.

(** The pieces of [s] enclosed in double quotes, in order. *)
Fixpoint quoted_from (inside : bool) (cur : string) (s : string) : list string :=
  match s with
  | EmptyString => []
  | String c s' =>
      if Ascii.eqb c "034"%char then
        if inside then String.rev cur :: quoted_from false "" s'
        else quoted_from true "" s'
      else if inside then quoted_from true (String c cur) s'
      else quoted_from false "" s'
  end.

Definition quoted (s : string) : list string := quoted_from false "" s.

(** The two plugins the block enables, and the block as the project
    file format writes a section with one list of strings. *)
Definition enabled_plugins : list string :=
  [ "res://addons/aerobeat-core/plugin.cfg";
    "res://addons/aerobeat-input-mediapipe/plugin.cfg" ].

Definition quote (s : string) : string := Text.dq +:+ s +:+ Text.dq.

Definition section_of (header : string) (values : list string) : string :=
  Text.nl +:+ header +:+ Text.nl +:+
  "enabled=PackedStringArray(" +:+ Text.join ", " (map quote values) +:+ ")" +:+ Text.nl.

(** What an observer sees of one [run_command] up to the moment the
    command has run: the call, the command line echoed, the command
    run. *)
Definition attempt (cmd : string) (cwd : option string) : list event :=
  [Call f_run_command; Stdout (">>> " +:+ cmd); Exec cmd cwd].

(** What an observer sees of one [run_command] that returns: the above,
    and the text [r] of what the command wrote to either stream. *)
Definition echo (cmd : string) (cwd : option string) (r : CompletedProcess) : list event :=
  attempt cmd cwd
    ++ (if Text.truthy (stdout r) then [Stdout (stdout r)] else [])
    ++ (if Text.truthy (stderr r) then [Stderr (stderr r)] else []).

(** What an observer sees of one [run_command], in the working directory
    of the script, on a command that has run and left [r]: all of it when
    what the command wrote decodes, and no more than the attempt when it
    does not. *)
Definition seen (cmd : string) (r : CompletedProcess) : list event :=
  if decodable r then echo cmd None (as_text r) else attempt cmd None.

(** The command lines the script can hand to the shell. *)
Definition script_commands : list string :=
  map (fun sd => add_command (fst sd) (snd sd)) submodules ++ [update_command].

(** The line [verify_structure] prints for the path [p] on the
    filesystem [f]. *)
Definition report (f : filesystem) (p : string) : event :=
  Stdout (if OS.exists_ f (Path.components p)
          then "  ✓ " +:+ p
          else "  ✗ " +:+ p +:+ " (will be created)").

(** The directories [os.makedirs] goes through on its way from [pre] down
    the components [rest]. *)
Fixpoint walked (pre : path) (rest : list string) : list path :=
  match rest with
  | [] => []
  | c :: rest' => (pre ++ [c]) :: walked (pre ++ [c]) rest'
  end.

(** All the directories gone through to make each of [ds]. *)
Definition ways (ds : list string) : list path :=
  concat (map (fun d => walked [] (Path.components d)) ds).

(** No regular file stands on the way to one of the directories [ds]. *)
Definition clear_way (f : filesystem) (ds : list string) : Prop :=
  forall p, p ∈ ways ds -> forall c, f !! p <> Some (File c).

(** A filesystem grows into another by new directories, at the paths [ps]
    only; everything that was there stays as it was. *)
Definition grows (ps : list path) (f f' : filesystem) : Prop :=
  forall p, f' !! p = f !! p \/ (f !! p = None /\ f' !! p = Some Dir /\ p ∈ ps).

(** The filesystem after each of [ds] has been made in turn. *)
Definition make_all (ds : list string) (f : filesystem) : filesystem :=
  fold_left (fun g d => snd (OS.makedirs true (Path.components d) g)) ds f.

(** The lines [create_directories] prints for the directories [ds]. *)
Definition created_lines (ds : list string) : list event :=
  map (fun d => Stdout ("Created: " +:+ d)) ds.

(** The line [main] prints when the submodule phase reports failure. *)
Definition setup_warning : string :=
  Text.nl +:+ "Warning: Submodule setup had issues. You may need to configure manually.".

(** The four phases in the order of [main]. *)
Definition the_phases : list func :=
  [f_create_directories; f_setup_submodules; f_verify_structure; f_update_project_plugins].

(** The directories that hold the sources, the scenes and the tests of the
    project. *)
Definition project_dirs : list path :=
  [ ["src"]; ["scenes"]; ["test"]; ["test"; "unit"]; ["test"; "integration"] ].

(** No regular file stands where one of the project directories goes. *)
Definition creatable (f : filesystem) : Prop :=
  forall p, p ∈ project_dirs -> forall c, f !! p <> Some (File c).

(** *** The submodule phase as the specification words it

    For each of the two submodules in turn, the add command is run only
    when its destination is not there; a failed add ends the phase with
    [false]; after the adds, one recursive update is run, and its success
    is the result.  A command whose output does not decode ends the
    phase with [UnicodeDecodeError], whatever its exit status.  A plan is
    the filesystem and the outside world the phase leaves, the commands
    it ran, and its outcome. *)

Section Plan.

Context {Ext : Type}.
Variable shell : string -> option string -> filesystem -> Ext -> filesystem * Ext * CompletedProcess.

(** The outcome of a command that has run. *)
Definition verdict (r : CompletedProcess) : exn + bool :=
  if decodable r then inr (returncode r =? 0)%Z else inl UnicodeDecodeError.

Fixpoint add_plan (subs : list (string * string)) (f : filesystem) (x : Ext)
    : filesystem * Ext * list string * (exn + bool) :=
  match subs with
  | [] => (f, x, [], inr true)
  | (source, dest) :: rest =>
      if OS.exists_ f (Path.components dest) then add_plan rest f x
      else
        let '(f', x', r) := shell (add_command source dest) None f x in
        match verdict r with
        | inr true =>
            let '(f'', x'', cmds, o) := add_plan rest f' x' in
            (f'', x'', add_command source dest :: cmds, o)
        | o => (f', x', [add_command source dest], o)
        end
  end.

Definition setup_plan (f : filesystem) (x : Ext)
    : filesystem * Ext * list string * (exn + bool) :=
  if OS.exists_ f [".git"] then
    let '(f1, x1, cmds, o) := add_plan submodules f x in
    match o with
    | inr true =>
        let '(f2, x2, r) := shell update_command None f1 x1 in
        (f2, x2, cmds ++ [update_command], verdict r)
    | _ => (f1, x1, cmds, o)
    end
  else (f, x, [], inr false).

(** None of the commands of the script turns one of the paths of [keep]
    from a directory into something else. *)
Definition keeps_dirs (keep : list path) : Prop :=
  forall cmd f x p, cmd ∈ script_commands -> p ∈ keep ->
    f !! p = Some Dir -> fst (fst (shell cmd None f x)) !! p = Some Dir.

End Plan.

(** ** Shells and checkouts to run the script against *)

Definition exit_ok : CompletedProcess :=
  {| returncode := 0; stdout := ""; stderr := "" |}.

Definition exit_with (code : Z) (err : string) : CompletedProcess :=
  {| returncode := code; stdout := ""; stderr := err |}.

(** A machine without the version-control tool: the shell reports that
    the command is not found, and nothing changes. *)
Definition no_git (cmd : string) (cwd : option string) (f : filesystem) (x : unit)
    : filesystem * unit * CompletedProcess :=
  (f, x, exit_with 127 "/bin/sh: 1: git: not found").

(** The destination of the submodule that [cmd] adds, when [cmd] is one of
    the two add commands of the script. *)
Definition added_dest (cmd : string) : option string :=
  match List.find (fun sd => String.eqb cmd (add_command (fst sd) (snd sd))) submodules with
  | Some (_, dest) => Some dest
  | None => None
  end.

(** A tool that does what the script expects: an add creates the
    destination directory, an update of what is already there changes
    nothing, anything else is refused. *)
Definition mock_git (cmd : string) (cwd : option string) (f : filesystem) (x : unit)
    : filesystem * unit * CompletedProcess :=
  match added_dest cmd with
  | Some dest => (snd (OS.makedirs true (Path.components dest) f), x, exit_ok)
  | None =>
      if String.eqb cmd update_command then (f, x, exit_ok)
      else (f, x, exit_with 1 "git: unknown command")
  end.

(** A repository whose update step has an effect of its own each time it
    runs (as with a custom update command set for a submodule): here it
    writes a line to a journal below [.git]. *)
Definition update_journal : path := [".git"; "update.log"].

Definition noisy_git (cmd : string) (cwd : option string) (f : filesystem) (x : unit)
    : filesystem * unit * CompletedProcess :=
  if String.eqb cmd update_command then
    (snd (OS.append_text f update_journal ("updated" +:+ Text.nl)), x, exit_ok)
  else mock_git cmd cwd f x.

(** A tool that cannot do its work and says why, quoting a file name
    that is not UTF-8 (here [caf] and the byte [E9], Latin-1 for an
    accented e). *)
Definition latin1_name : string := "caf" +:+ String "233"%char "".

Definition latin1_git (cmd : string) (cwd : option string) (f : filesystem) (x : unit)
    : filesystem * unit * CompletedProcess :=
  (f, x, exit_with 128 ("fatal: unable to read " +:+ latin1_name)).

(** A repository whose update step cleans the work tree (as with a custom
    update command set for a submodule): it removes the empty directories
    [test/unit], [test/integration] and [test]. *)
Definition sweeping_git (cmd : string) (cwd : option string) (f : filesystem) (x : unit)
    : filesystem * unit * CompletedProcess :=
  if String.eqb cmd update_command then
    (delete ["test"] (delete ["test"; "integration"] (delete ["test"; "unit"] f)), x, exit_ok)
  else mock_git cmd cwd f x.

(** An empty directory. *)
Definition empty_directory : filesystem := ∅.

(** A fresh clone of a repository: nothing but [.git] and the project
    file. *)
Definition fresh_clone : filesystem :=
  {[ [".git"] := Dir; ["project.godot"] := File ("config_version=5" +:+ Text.nl) ]}.

(** A checkout in which both submodules are already in place. *)
Definition configured : filesystem :=
  {[ [".git"] := Dir;
     ["addons"] := Dir;
     ["addons"; "aerobeat-core"] := Dir;
     ["addons"; "aerobeat-input-mediapipe"] := Dir;
     ["project.godot"] := File ("config_version=5" +:+ Text.nl) ]}.

(** A checkout whose project file was saved in Latin-1 and names the
    project with an accented letter. *)
Definition latin1_project : filesystem :=
  {[ [".git"] := Dir;
     ["project.godot"] := File ("config/name=" +:+ latin1_name +:+ Text.nl) ]}.

(** A directory in which a regular file is called [src]. *)
Definition src_is_a_file : filesystem :=
  {[ [".git"] := Dir; ["src"] := File "notes";
     ["project.godot"] := File ("config_version=5" +:+ Text.nl) ]}.

Definition start (f : filesystem) : World unit := {| fs := f; ext := tt; trace := [] |}.

(** ** Running the monad in proofs *)

Ltac unfold_m :=
  unfold os_path_exists, read_file, append_file, os_makedirs, enter, print, eprint, when;
  unfold emit, ask, act, mbind, M_bind, mret, M_ret.
Ltac unfold_m_in H :=
  unfold os_path_exists, read_file, append_file, os_makedirs, enter, print, eprint, when in H;
  unfold emit, ask, act, mbind, M_bind, mret, M_ret in H.
Ltac finish_log := unfold log; cbn [fs ext trace]; rewrite <- ?app_assoc; reflexivity.

(** Settle the side conditions of a case of the plugin phase. *)
Ltac settle :=
  repeat split; try reflexivity; try discriminate; eauto;
  try (intros ? H; discriminate H);
  try (intros (c0 & H1 & H2); first [discriminate H1 | injection H1 as <-; congruence]);
  try (intros H; discriminate H).

(** The submodule phase ends with the command run last. *)
Ltac ends :=
  cbn [last];
  match goal with
  | Hsh : ?sh ?cmd None ?f ?x = (?f2, ?x2, ?r)
    |- exists _ _ _, _ /\ _ = (?f2, ?x2, _) /\ _ =>
      exists cmd, f, x; rewrite Hsh; cbn [snd];
      split; [reflexivity|]; split; [reflexivity|];
      first
        [ match goal with
          | Hv : verdict r = _, Hverdict : forall r0, _ |- _ =>
              let Hvr := fresh in
              pose proof (Hverdict r) as Hvr; rewrite Hv in Hvr |- *;
              split; [reflexivity|exact Hvr]
          end
        | match goal with
          | Hverdict : forall r0, _ |- _ => split; [reflexivity|apply Hverdict]
          end ]
  end.

(** ** More vocabulary *)

(** The lines written to standard output, and those written to standard
    error, in order. *)
Fixpoint out_lines (t : list event) : list string :=
  match t with
  | [] => []
  | Stdout s :: t' => s :: out_lines t'
  | _ :: t' => out_lines t'
  end.

Fixpoint err_lines (t : list event) : list string :=
  match t with
  | [] => []
  | Stderr s :: t' => s :: err_lines t'
  | _ :: t' => err_lines t'
  end.

(** The commands run, each with the working directory it was given. *)
Fixpoint executions (t : list event) : list (string * option string) :=
  match t with
  | [] => []
  | Exec c cwd :: t' => (c, cwd) :: executions t'
  | _ :: t' => executions t'
  end.

(** [s] when it is not empty, as [if s: print(s)] prints. *)
Definition nonempty (s : string) : list string :=
  if Text.truthy s then [s] else [].

Section Discipline.

Context {Ext : Type}.
Variable shell : string -> option string -> filesystem -> Ext -> filesystem * Ext * CompletedProcess.

(** What the script lets through to the trace: a command is one of its
    own, run in the working directory of the script; a line on standard
    error is the text of what one of these commands wrote there. *)
Definition disciplined (e : event) : Prop :=
  match e with
  | Exec c cwd => cwd = None /\ c ∈ script_commands
  | Stderr s =>
      Text.truthy s = true /\
      exists c f x, c ∈ script_commands /\
        stderr (as_text (snd (shell c None f x))) = s
  | Call _ | Stdout _ => True
  end.

(** The commands of the script leave the filesystem as it is. *)
Definition inert : Prop :=
  forall cmd f x, cmd ∈ script_commands -> fst (fst (shell cmd None f x)) = f.

(** Every command of the script fails. *)
Definition failing : Prop :=
  forall cmd f x, cmd ∈ script_commands -> returncode (snd (shell cmd None f x)) <> 0%Z.

(** What the commands of the script write decodes. *)
Definition legible : Prop :=
  forall cmd f x, cmd ∈ script_commands -> decodable (snd (shell cmd None f x)) = true.

End Discipline.

(** The world after [n] runs of [m] in a row, whatever they return. *)
Fixpoint rerun {Ext A} (m : M Ext A) (n : nat) (w : World Ext) : World Ext :=
  match n with
  | O => w
  | S n' => rerun m n' (snd (m w))
  end.

(** What [update_project_plugins] leaves stable: there is no project
    file, or it is a directory, or it holds bytes that do not decode, or
    it holds the marker. *)
Definition settled (f : filesystem) : Prop :=
  f !! project_path = None \/ f !! project_path = Some Dir \/
  (exists c, f !! project_path = Some (File c) /\ Text.decodes c = false) \/
  (exists c, f !! project_path = Some (File c) /\ Text.decodes c = true /\
     Text.contains marker c = true).

(** The section header of the plugin block on a line of its own. *)
Definition header_line : string := Text.nl +:+ marker +:+ Text.nl.

(** The lines [main] prints last. *)
Definition closing_lines : list event :=
  [ Stdout (Text.nl +:+ "=== Setup complete ===");
    Stdout "Next steps:";
    Stdout "1. Open this project in Godot 4.6";
    Stdout "2. Install Python dependencies: cd addons/aerobeat-input-mediapipe && ./install_deps.sh";
    Stdout "3. Run the project!" ].

(** The two files of the submodules that [verify_structure] looks for. *)
Definition addon_files : list string :=
  [ "addons/aerobeat-core/src/interfaces/input_provider.gd";
    "addons/aerobeat-input-mediapipe/src/providers/mediapipe_provider.gd" ].

(** What an observer sees of a run of [main] once the submodule phase has
    returned [ok]: the warning if it failed; the report on the filesystem
    [f2] that phase left; the events [evs4] of the plugin phase, whose
    outcome was [r4]; the closing lines if that phase returned. *)
Definition late_events {A : Type} (f2 : filesystem) (ok : bool) (evs4 : list event)
    (r4 : exn + A) : list event :=
  (if ok then [] else [Stdout setup_warning])
    ++ (Call f_verify_structure :: Stdout "Verifying directory structure..."
          :: map (report f2) required_paths)
    ++ evs4
    ++ (match r4 with inl _ => [] | inr _ => closing_lines end).

(** What an observer sees of a run of [main] that gets past
    [create_directories]: the events [evs2] of the submodule phase, whose
    outcome was [o2], and, unless it raised, the above. *)
Definition main_events {A : Type} (f2 : filesystem) (o2 : exn + bool) (evs2 evs4 : list event)
    (r4 : exn + A) : list event :=
  [Call f_main; Stdout ("=== AeroBeat Assembly Setup ===" +:+ Text.nl)]
    ++ (Call f_create_directories :: created_lines dirs)
    ++ evs2
    ++ (match o2 with
        | inl _ => []
        | inr ok => late_events f2 ok evs4 r4
        end).

(** How [main] ends when the submodule phase ended with [o2] and the
    plugin phase, if it was reached, with [r4]. *)
Definition main_outcome {A : Type} (o2 : exn + bool) (r4 : exn + A) : exn + unit :=
  match o2 with
  | inl e => inl e
  | inr _ => match r4 with inl e => inl e | inr _ => inr tt end
  end.

Section Contract.

Context {Ext : Type}.
Variable shell : string -> option string -> filesystem -> Ext -> filesystem * Ext * CompletedProcess.

(** An add command that succeeds leaves its destination in place. *)
Definition adds_create : Prop :=
  forall source dest f x,
    (source, dest) ∈ submodules ->
    returncode (snd (shell (add_command source dest) None f x)) = 0%Z ->
    OS.exists_ (fst (fst (shell (add_command source dest) None f x)))
      (Path.components dest) = true.

(** No command of the script removes one of the paths [ps]. *)
Definition keeps_paths (ps : list path) : Prop :=
  forall cmd f x p, cmd ∈ script_commands -> p ∈ ps ->
    OS.exists_ f p = true -> OS.exists_ (fst (fst (shell cmd None f x))) p = true.

End Contract.

(** The lines with which [setup_submodules] accounts for a [False]. *)
Definition failure_lines : list string :=
  "Warning: Not a git repository. Submodules may not work correctly."
    :: map (fun sd => "Failed to add submodule " +:+ fst sd) submodules
    ++ ["Failed to update submodules"].

(** A tool that reports what it did: an add that cannot make its
    destination fails and changes nothing. *)
Definition careful_git (cmd : string) (cwd : option string) (f : filesystem) (x : unit)
    : filesystem * unit * CompletedProcess :=
  match added_dest cmd with
  | Some dest =>
      match OS.makedirs true (Path.components dest) f with
      | (inr _, f') => (f', x, exit_ok)
      | (inl _, _) => (f, x, exit_with 128 "fatal: destination path is not a directory")
      end
  | None =>
      if String.eqb cmd update_command then (f, x, exit_ok)
      else (f, x, exit_with 1 "git: unknown command")
  end.

(** The same project file with the two conventions for line ends. *)
Definition project_with (text : string) : filesystem :=
  {[ ["project.godot"] := File text ]}.

Definition unix_text : string :=
  "config_version=5" +:+ Text.nl +:+ "[application]" +:+ Text.nl.

Definition dos_text : string :=
  "config_version=5" +:+ String Text.CR Text.nl +:+ "[application]" +:+ String Text.CR Text.nl.

(** ** Facts about text *)

Module TextFacts.
Import Text.

Lemma startswith_universal_newlines m :
  has_char CR m = false -> has_char LF m = false ->
  forall s, startswith m (universal_newlines s) = startswith m s.
Proof.
  induction m as [|a m IH]; intros Hcr Hlf s; [now destruct s|].
  cbn [has_char] in Hcr, Hlf.
  apply orb_false_elim in Hcr as [Hcr Hcr'], Hlf as [Hlf Hlf'].
  rewrite Ascii.eqb_sym in Hcr. rewrite Ascii.eqb_sym in Hlf.
  destruct s as [|c s]; [reflexivity|].
  cbn [universal_newlines].
  destruct (Ascii.eqb c CR) eqn:Hc.
  - apply Ascii.eqb_eq in Hc. subst c.
    cbn [startswith]. rewrite Hcr.
    destruct s as [|d s]; [cbn; now rewrite Hlf|].
    destruct (Ascii.eqb d LF); cbn [startswith]; now rewrite Hlf.
  - cbn [startswith]. destruct (Ascii.eqb a c); [now apply IH|reflexivity].
Qed.

Lemma contains_cons m c s :
  contains m (String c s) = startswith m (String c s) || contains m s.
Proof. reflexivity. Qed.

Lemma universal_newlines_crlf s :
  universal_newlines (String CR (String LF s)) = String LF (universal_newlines s).
Proof. reflexivity. Qed.

Lemma universal_newlines_cr d s :
  Ascii.eqb d LF = false ->
  universal_newlines (String CR (String d s)) = String LF (universal_newlines (String d s)).
Proof. intros H. cbn [universal_newlines]. rewrite Ascii.eqb_refl. now rewrite H. Qed.

Lemma universal_newlines_keep c s :
  Ascii.eqb c CR = false ->
  universal_newlines (String c s) = String c (universal_newlines s).
Proof. intros H. cbn [universal_newlines]. now rewrite H. Qed.

Lemma contains_universal_newlines_le m n :
  has_char CR m = false -> has_char LF m = false -> truthy m = true ->
  forall s, String.length s <= n ->
    contains m (universal_newlines s) = contains m s.
Proof.
  intros Hcr Hlf Hne.
  destruct m as [|a m]; [discriminate|].
  assert (Ha : Ascii.eqb a LF = false /\ Ascii.eqb a CR = false).
  { cbn [has_char] in Hcr, Hlf. apply orb_false_elim in Hcr as [Hcr _], Hlf as [Hlf _].
    rewrite Ascii.eqb_sym in Hcr. rewrite Ascii.eqb_sym in Hlf. now split. }
  destruct Ha as [HaLF HaCR].
  induction n as [|n IH]; intros s Hlen.
  - destruct s; [reflexivity|simpl in Hlen; lia].
  - destruct s as [|c s]; [reflexivity|].
    simpl in Hlen.
    destruct (Ascii.eqb c CR) eqn:Hc.
    + apply Ascii.eqb_eq in Hc. subst c.
      destruct s as [|d s].
      * cbn. now rewrite HaLF, HaCR.
      * simpl in Hlen.
        destruct (Ascii.eqb d LF) eqn:Hd.
        -- apply Ascii.eqb_eq in Hd. subst d.
           rewrite universal_newlines_crlf, !contains_cons.
           cbn [startswith]. rewrite HaLF, HaCR. cbn [orb].
           apply IH. lia.
        -- rewrite universal_newlines_cr by exact Hd.
           rewrite (contains_cons _ LF), (contains_cons _ CR).
           cbn [startswith]. rewrite HaLF, HaCR. cbn [orb].
           apply IH. simpl. lia.
    + rewrite universal_newlines_keep by exact Hc.
      rewrite !contains_cons, IH by lia. f_equal.
      cbn [startswith]. destruct (Ascii.eqb a c); [|reflexivity].
      apply startswith_universal_newlines.
      * cbn [has_char] in Hcr. now apply orb_false_elim in Hcr as [_ ?].
      * cbn [has_char] in Hlf. now apply orb_false_elim in Hlf as [_ ?].
Qed.

Lemma contains_universal_newlines m s :
  has_char CR m = false -> has_char LF m = false -> truthy m = true ->
  contains m (universal_newlines s) = contains m s.
Proof. intros. now apply (contains_universal_newlines_le m (String.length s)). Qed.

Lemma contains_app_r m a b :
  contains m b = true -> contains m (a +:+ b) = true.
Proof.
  intros H. induction a as [|c a IH]; [exact H|].
  change (String c a +:+ b) with (String c (a +:+ b)).
  cbn [contains]. rewrite IH. apply orb_true_r.
Qed.

Lemma append_truthy_neq a b : truthy b = true -> a +:+ b <> a.
Proof.
  intros Hb. induction a as [|c a IH]; cbn.
  - destruct b; [discriminate|]. discriminate.
  - intros [= H]. now apply IH.
Qed.

Lemma startswith_app a b : startswith a (a +:+ b) = true.
Proof.
  induction a as [|c a IH]; [reflexivity|].
  change (String c a +:+ b) with (String c (a +:+ b)).
  cbn [startswith]. now rewrite Ascii.eqb_refl.
Qed.
(** Decoding goes byte by byte, so what has decoded stays decoded when
    more follows. *)
Lemma utf8_run_app a b : forall e,
  utf8_run e a = true -> utf8_run e (a +:+ b) = utf8_run nothing b.
Proof.
  induction a as [|c a IH]; intros e H.
  - destruct e; try discriminate H. reflexivity.
  - change (String c a +:+ b) with (String c (a +:+ b)).
    cbn [utf8_run] in H |- *.
    destruct (utf8_step e (N_of_ascii c)) as [e'|]; [now apply IH|discriminate H].
Qed.

Lemma decodes_app a b : decodes a = true -> decodes (a +:+ b) = decodes b.
Proof. apply utf8_run_app. Qed.

(** The two line ends are bytes of the same kind for the decoder. *)
Lemma utf8_step_newline e :
  utf8_step e (N_of_ascii CR) = utf8_step e (N_of_ascii LF) /\
  (utf8_step e (N_of_ascii LF) = None \/
   e = nothing /\ utf8_step e (N_of_ascii LF) = Some nothing).
Proof. destruct e; split; try reflexivity; auto. Qed.

Lemma utf8_run_universal_newlines_le n : forall s e,
  String.length s <= n -> utf8_run e (universal_newlines s) = utf8_run e s.
Proof.
  induction n as [|n IH]; intros s e Hlen.
  - destruct s; [reflexivity|simpl in Hlen; lia].
  - destruct s as [|c s]; [reflexivity|]. simpl in Hlen.
    destruct (Ascii.eqb c CR) eqn:Hc.
    + apply Ascii.eqb_eq in Hc. subst c.
      destruct (utf8_step_newline e) as [Hsame Hline].
      destruct s as [|d s].
      * cbn [universal_newlines utf8_run]. rewrite Ascii.eqb_refl.
        cbn [utf8_run]. now rewrite Hsame.
      * simpl in Hlen. destruct (Ascii.eqb d LF) eqn:Hd.
        -- apply Ascii.eqb_eq in Hd. subst d.
           rewrite universal_newlines_crlf. cbn [utf8_run]. rewrite Hsame.
           destruct Hline as [->|[-> ->]]; [reflexivity|].
           change (utf8_step nothing (N_of_ascii LF)) with (Some nothing).
           apply IH. lia.
        -- rewrite universal_newlines_cr by exact Hd.
           cbn [utf8_run]. rewrite Hsame.
           destruct (utf8_step e (N_of_ascii LF)) as [e'|]; [|reflexivity].
           apply (IH (String d s)). simpl. lia.
    + rewrite universal_newlines_keep by exact Hc. cbn [utf8_run].
      destruct (utf8_step e (N_of_ascii c)) as [e'|]; [|reflexivity].
      apply IH. lia.
Qed.

(** Translating the line ends does not change whether the bytes decode. *)
Lemma decodes_universal_newlines s : decodes (universal_newlines s) = decodes s.
Proof. apply (utf8_run_universal_newlines_le (String.length s)). lia. Qed.

Lemma startswith_refl s : startswith s s = true.
Proof.
  induction s as [|c s IH]; [reflexivity|].
  cbn [startswith]. now rewrite Ascii.eqb_refl.
Qed.
End TextFacts.

(** ** Traces and the read-only phase *)

Import TextFacts.

Lemma commands_app a b : commands (a ++ b) = commands a ++ commands b.
Proof. induction a as [|[] a IH]; cbn; congruence. Qed.

Lemma phases_app a b : phases (a ++ b) = phases a ++ phases b.
Proof.
  induction a as [|[f| | |] a IH]; cbn; try congruence.
  destruct (is_phase f); cbn; congruence.
Qed.

Lemma executions_app a b : executions (a ++ b) = executions a ++ executions b.
Proof. induction a as [|[] a IH]; cbn; congruence. Qed.

Lemma out_lines_app a b : out_lines (a ++ b) = out_lines a ++ out_lines b.
Proof. induction a as [|[] a IH]; cbn; congruence. Qed.

Lemma err_lines_app a b : err_lines (a ++ b) = err_lines a ++ err_lines b.
Proof. induction a as [|[] a IH]; cbn; congruence. Qed.

Lemma commands_executions evs : commands evs = map fst (executions evs).
Proof. induction evs as [|[] evs IH]; cbn; congruence. Qed.

Lemma executions_commands_nil evs : commands evs = [] -> executions evs = [].
Proof. rewrite commands_executions. now destruct (executions evs). Qed.

Section Verify.
Context {Ext : Type}.
Implicit Types w : World Ext.

Lemma check_paths_spec paths : forall all_exist w,
  check_paths paths all_exist w =
    (inr (all_exist && forallb (fun p => OS.exists_ (fs w) (Path.components p)) paths),
     log (map (report (fs w)) paths) w).
Proof.
  induction paths as [|p paths IH]; intros acc w.
  - cbn [check_paths map forallb]. unfold mret, M_ret, log.
    rewrite app_nil_r, andb_true_r. destruct w; reflexivity.
  - cbn [check_paths]. unfold_m. cbv beta iota.
    cbn [forallb map]. unfold report.
    destruct (OS.exists_ (fs w) (Path.components p)) eqn:Hp;
      rewrite IH; cbn [fs]; rewrite ?andb_false_r; f_equal;
      unfold log, report; cbn [fs ext trace]; now rewrite <- app_assoc.
Qed.

Lemma verify_structure_spec w :
  verify_structure w =
    (inr (forallb (fun p => OS.exists_ (fs w) (Path.components p)) required_paths),
     log (Call f_verify_structure :: Stdout "Verifying directory structure..."
            :: map (report (fs w)) required_paths) w).
Proof.
  unfold verify_structure. unfold_m. cbv beta iota.
  rewrite check_paths_spec. cbn [fs andb]. f_equal.
  unfold log. cbn [fs ext trace]. now rewrite <- !app_assoc.
Qed.
End Verify.

Section Plugins.
Context {Ext : Type}.
Implicit Types w : World Ext.

Lemma marker_in_text content :
  Text.contains marker (Text.universal_newlines content) = Text.contains marker content.
Proof. now apply contains_universal_newlines. Qed.

Lemma marker_in_plugin_section : Text.contains marker plugin_section = true.
Proof. reflexivity. Qed.

Lemma plugin_section_decodes content :
  Text.decodes content = true -> Text.decodes (content +:+ plugin_section) = true.
Proof. intros H. rewrite decodes_app by exact H. reflexivity. Qed.

Lemma upp_missing w :
  fs w !! project_path = None ->
  update_project_plugins w =
    (inr false,
     log [Call f_update_project_plugins;
          Stdout "Updating project.godot plugin configuration...";
          Stdout "Error: project.godot not found"] w).
Proof.
  intros H. unfold update_project_plugins. unfold_m.
  cbv beta iota. cbn [fs ext trace]. unfold OS.exists_.
  change (Path.components project_file) with project_path.
  rewrite H. cbv beta iota. cbn [fs ext trace negb]. finish_log.
Qed.

Lemma upp_directory w :
  fs w !! project_path = Some Dir ->
  update_project_plugins w =
    (inl IsADirectoryError,
     log [Call f_update_project_plugins;
          Stdout "Updating project.godot plugin configuration..."] w).
Proof.
  intros H. unfold update_project_plugins. unfold_m.
  cbv beta iota. cbn [fs ext trace]. unfold OS.exists_, OS.read_text.
  change (Path.components project_file) with project_path.
  rewrite H. cbv beta iota. cbn [fs ext trace negb]. rewrite H. finish_log.
Qed.

Lemma upp_undecodable w content :
  fs w !! project_path = Some (File content) ->
  Text.decodes content = false ->
  update_project_plugins w =
    (inl UnicodeDecodeError,
     log [Call f_update_project_plugins;
          Stdout "Updating project.godot plugin configuration..."] w).
Proof.
  intros H Hd. unfold update_project_plugins. unfold_m.
  cbv beta iota. cbn [fs ext trace]. unfold OS.exists_, OS.read_text.
  change (Path.components project_file) with project_path.
  rewrite H. cbv beta iota. cbn [fs ext trace negb]. rewrite H, Hd. finish_log.
Qed.

Lemma upp_present w content :
  fs w !! project_path = Some (File content) ->
  Text.decodes content = true ->
  Text.contains marker content = true ->
  update_project_plugins w =
    (inr true,
     log [Call f_update_project_plugins;
          Stdout "Updating project.godot plugin configuration...";
          Stdout "Plugin configuration already exists"] w).
Proof.
  intros H Hd Hm. unfold update_project_plugins. unfold_m.
  cbv beta iota. cbn [fs ext trace]. unfold OS.exists_, OS.read_text.
  change (Path.components project_file) with project_path.
  rewrite H. cbv beta iota. cbn [fs ext trace negb]. rewrite H, Hd.
  rewrite marker_in_text, Hm. finish_log.
Qed.

Lemma upp_absent w content :
  fs w !! project_path = Some (File content) ->
  Text.decodes content = true ->
  Text.contains marker content = false ->
  update_project_plugins w =
    (inr true,
     {| fs := <[project_path := File (content +:+ plugin_section)]> (fs w);
        ext := ext w;
        trace := trace w ++
          [Call f_update_project_plugins;
           Stdout "Updating project.godot plugin configuration...";
           Stdout "Plugin configuration added"] |}).
Proof.
  intros H Hd Hm. unfold update_project_plugins. unfold_m.
  cbv beta iota. cbn [fs ext trace]. unfold OS.exists_, OS.read_text, OS.append_text.
  change (Path.components project_file) with project_path.
  rewrite H. cbv beta iota. cbn [fs ext trace negb]. rewrite H, Hd.
  rewrite marker_in_text, Hm. cbv beta iota. cbn [fs ext trace]. rewrite H.
  cbn [fs ext trace]. rewrite <- ?app_assoc. reflexivity.
Qed.
End Plugins.

Lemma commands_attempt cmd cwd : commands (attempt cmd cwd) = [cmd].
Proof. reflexivity. Qed.

Lemma phases_attempt cmd cwd : phases (attempt cmd cwd) = [].
Proof. reflexivity. Qed.

Lemma commands_echo cmd cwd r : commands (echo cmd cwd r) = [cmd].
Proof. unfold echo, attempt. now destruct (Text.truthy (stdout r)), (Text.truthy (stderr r)). Qed.

Lemma phases_echo cmd cwd r : phases (echo cmd cwd r) = [].
Proof. unfold echo, attempt. now destruct (Text.truthy (stdout r)), (Text.truthy (stderr r)). Qed.

(** The command lines of the script hold no null byte, so that the shell
    is always started on them. *)
Lemma script_commands_start (f : filesystem) cmd :
  cmd ∈ script_commands -> OS.spawn_error f cmd None = None.
Proof.
  unfold script_commands, submodules. cbn [map app fst snd].
  rewrite !elem_of_cons, elem_of_nil.
  intros [->|[->|[->|[]]]]; reflexivity.
Qed.

Lemma add_command_listed sd :
  sd ∈ submodules -> add_command (fst sd) (snd sd) ∈ script_commands.
Proof.
  intros H. unfold script_commands. apply elem_of_app. left.
  apply list_elem_of_fmap. eauto.
Qed.

Lemma update_command_listed : update_command ∈ script_commands.
Proof. unfold script_commands. apply elem_of_app. right. left. Qed.

Lemma verdict_raises r e :
  verdict r = inl e -> e = UnicodeDecodeError /\ decodable r = false.
Proof. unfold verdict. destruct (decodable r); intros [= <-]. now split. Qed.

Lemma verdict_returns r b :
  verdict r = inr b -> decodable r = true /\ b = (returncode r =? 0)%Z.
Proof. unfold verdict. destruct (decodable r); intros [= <-]. now split. Qed.

Lemma seen_raised cmd r : decodable r = false -> seen cmd r = attempt cmd None.
Proof. unfold seen. now intros ->. Qed.

Lemma seen_returned cmd r : decodable r = true -> seen cmd r = echo cmd None (as_text r).
Proof. unfold seen. now intros ->. Qed.

Section Submodules.
Context {Ext : Type}.
Variable shell : string -> option string -> filesystem -> Ext -> filesystem * Ext * CompletedProcess.
Implicit Types w : World Ext.

Lemma commands_seen cmd r : commands (seen cmd r) = [cmd].
Proof. unfold seen. destruct (decodable r); [apply commands_echo|reflexivity]. Qed.

Lemma phases_seen cmd r : phases (seen cmd r) = [].
Proof. unfold seen. destruct (decodable r); [apply phases_echo|reflexivity]. Qed.

Lemma run_command_spec cmd w f' x' r :
  cmd ∈ script_commands ->
  shell cmd None (fs w) (ext w) = (f', x', r) ->
  run_command shell cmd None w =
    (verdict r, {| fs := f'; ext := x'; trace := trace w ++ seen cmd r |}).
Proof.
  intros Hin H. unfold run_command, subprocess_run. unfold_m.
  cbv beta iota. cbn [fs ext trace].
  rewrite (script_commands_start _ _ Hin), H.
  unfold verdict, seen, echo, attempt.
  destruct (decodable r); cbn [fs ext trace as_text stdout stderr returncode];
    [|rewrite <- ?app_assoc; reflexivity].
  destruct (Text.truthy (Text.universal_newlines (stdout r))),
           (Text.truthy (Text.universal_newlines (stderr r)));
    cbn [fs ext trace]; rewrite <- ?app_assoc; reflexivity.
Qed.

Lemma add_missing_plan subs : forall w f' x' cmds o,
  (forall sd, sd ∈ subs -> sd ∈ submodules) ->
  add_plan shell subs (fs w) (ext w) = (f', x', cmds, o) ->
  exists evs,
    add_missing shell subs w =
      (o, {| fs := f'; ext := x'; trace := trace w ++ evs |}) /\
    commands evs = cmds /\ phases evs = [].
Proof.
  induction subs as [|[source dest] rest IH]; intros w f' x' cmds o Hsub Hplan.
  - cbn in Hplan. injection Hplan as <- <- <- <-.
    exists []. rewrite app_nil_r. destruct w; now cbn.
  - assert (Hrest : forall sd, sd ∈ rest -> sd ∈ submodules)
      by (intros sd Hsd; apply Hsub; now right).
    assert (Hcmd : add_command source dest ∈ script_commands)
      by (apply (add_command_listed (source, dest)), Hsub; left).
    cbn [add_plan] in Hplan. cbn [add_missing]. unfold_m. cbv beta iota.
    destruct (OS.exists_ (fs w) (Path.components dest)) eqn:Hd; cbn [negb].
    + now apply IH.
    + cbn [fs ext trace].
      destruct (shell (add_command source dest) None (fs w) (ext w))
        as [[f1 x1] r] eqn:Hsh.
      erewrite run_command_spec by (cbn [fs ext]; eassumption).
      destruct (verdict r) as [e|[|]] eqn:Hv; cbn [negb]; cbv beta iota; cbn [fs ext trace].
      * injection Hplan as <- <- <- <-.
        eexists. split; [rewrite <- !app_assoc; reflexivity|].
        rewrite !commands_app, !phases_app, commands_seen, phases_seen. now cbn.
      * destruct (add_plan shell rest f1 x1) as [[[f2 x2] cs] o2] eqn:Hrest'.
        injection Hplan as <- <- <- <-.
        edestruct (IH {| fs := f1; ext := x1;
                         trace := (trace w ++ [Stdout ("Adding submodule: " +:+ source +:+ " -> " +:+ dest)])
                                    ++ seen (add_command source dest) r |})
          as (evs & Hrun & Hc & Hp); [exact Hrest|exact Hrest'|].
        rewrite Hrun. cbn [trace]. eexists. split.
        -- rewrite <- !app_assoc. reflexivity.
        -- rewrite !commands_app, !phases_app, commands_seen, phases_seen, Hc, Hp.
           now cbn.
      * injection Hplan as <- <- <- <-.
        cbn [fs ext trace]. eexists. split.
        -- rewrite <- !app_assoc. reflexivity.
        -- rewrite !commands_app, !phases_app, commands_seen, phases_seen. now cbn.
Qed.

Lemma setup_submodules_not_a_repository w :
  fs w !! [".git"] = None ->
  setup_submodules shell w =
    (inr false,
     log [Call f_setup_submodules;
          Stdout "Setting up git submodules...";
          Stdout "Warning: Not a git repository. Submodules may not work correctly."] w).
Proof.
  intros H. unfold setup_submodules. unfold_m. cbv beta iota. cbn [fs ext trace].
  unfold OS.exists_. change (Path.components ".git") with [".git"]. rewrite H.
  cbn [negb fs ext trace]. unfold log. cbn [fs ext trace]. now rewrite <- !app_assoc.
Qed.

Lemma setup_submodules_plan w f' x' cmds o :
  setup_plan shell (fs w) (ext w) = (f', x', cmds, o) ->
  exists evs,
    setup_submodules shell w =
      (o, {| fs := f'; ext := x'; trace := trace w ++ evs |}) /\
    commands evs = cmds /\ phases evs = [f_setup_submodules].
Proof.
  unfold setup_plan. intros Hplan.
  unfold setup_submodules. unfold_m. cbv beta iota. cbn [fs ext trace].
  change (Path.components ".git") with [".git"].
  destruct (OS.exists_ (fs w) [".git"]) eqn:Hgit; cbn [negb fs ext trace].
  - destruct (add_plan shell submodules (fs w) (ext w)) as [[[f1 x1] cs] looped] eqn:Hadd.
    edestruct (add_missing_plan submodules
                 {| fs := fs w; ext := ext w;
                    trace := (trace w ++ [Call f_setup_submodules])
                               ++ [Stdout "Setting up git submodules..."] |})
      as (evs & Hrun & Hc & Hp); [exact (fun _ H => H)|exact Hadd|].
    rewrite Hrun. cbn [trace].
    destruct looped as [e|[|]]; cbn [negb]; cbv beta iota; cbn [fs ext trace].
    + injection Hplan as <- <- <- <-.
      eexists; split; [rewrite <- !app_assoc; reflexivity|].
      rewrite !commands_app, !phases_app, Hc, Hp. now cbn.
    + destruct (shell update_command None f1 x1) as [[f2 x2] r] eqn:Hsh.
      erewrite run_command_spec by (cbn [fs ext]; first [exact update_command_listed|exact Hsh]).
      injection Hplan as <- <- <- <-.
      destruct (verdict r) as [e|[|]]; cbn [negb fs ext trace];
        (eexists; split; [rewrite <- !app_assoc; reflexivity|]);
        rewrite !commands_app, !phases_app, commands_seen, phases_seen, Hc, Hp;
        cbn; now rewrite ?app_nil_r.
    + injection Hplan as <- <- <- <-.
      eexists; split; [rewrite <- !app_assoc; reflexivity|].
      rewrite !commands_app, !phases_app, Hc, Hp. now cbn.
  - injection Hplan as <- <- <- <-.
    eexists; split; [rewrite <- !app_assoc; reflexivity|]. now cbn.
Qed.
End Submodules.

Module MakedirsFacts.
Import OS.

Lemma grows_refl ps f : grows ps f f.
Proof. intros p. now left. Qed.

Lemma grows_trans ps f g h : grows ps f g -> grows ps g h -> grows ps f h.
Proof.
  intros H1 H2 p. destruct (H1 p) as [E1|(N1 & D1 & I1)], (H2 p) as [E2|(N2 & D2 & I2)].
  - left. congruence.
  - right. repeat split; congruence || assumption.
  - right. repeat split; congruence || assumption.
  - congruence.
Qed.

Lemma grows_weaken ps qs f f' :
  (forall p, p ∈ ps -> p ∈ qs) -> grows ps f f' -> grows qs f f'.
Proof. intros Hsub H p. destruct (H p) as [?|(? & ? & ?)]; [now left|right; auto]. Qed.

Lemma grows_keeps ps f f' p n : grows ps f f' -> f !! p = Some n -> f' !! p = Some n.
Proof. intros H Hp. destruct (H p) as [E|(N & _)]; congruence. Qed.

Lemma grows_no_file ps f f' p :
  grows ps f f' -> (forall c, f !! p <> Some (File c)) <-> (forall c, f' !! p <> Some (File c)).
Proof.
  intros H. destruct (H p) as [E|(N & D & _)].
  - now rewrite E.
  - rewrite N, D. split; intros _ c; discriminate.
Qed.

Lemma grows_insert ps f p : f !! p = None -> p ∈ ps -> grows ps f (<[p := Dir]> f).
Proof.
  intros Hn Hin q. destruct (decide (p = q)) as [<-|Hne].
  - right. now rewrite lookup_insert_eq.
  - left. now rewrite lookup_insert_ne.
Qed.

Lemma makedirs_from_ok rest : forall pre f,
  (forall p, p ∈ walked pre rest -> forall c, f !! p <> Some (File c)) ->
  exists f', makedirs_from true pre rest f = (inr tt, f') /\
    grows (walked pre rest) f f' /\
    (forall p, p ∈ walked pre rest -> f' !! p = Some Dir).
Proof.
  induction rest as [|c rest IH]; intros pre f Hclear.
  - exists f. split; [reflexivity|]. split; [apply grows_refl|]. intros p Hp. inversion Hp.
  - cbn [makedirs_from walked] in *.
    assert (Hhead : forall c0, f !! (pre ++ [c]) <> Some (File c0)).
    { apply Hclear. left. }
    destruct (f !! (pre ++ [c])) as [[c0|]|] eqn:Hl.
    + now destruct (Hhead c0).
    + destruct rest as [|c' rest].
      * exists f. split; [reflexivity|]. split; [apply grows_refl|].
        intros p Hp. apply list_elem_of_singleton in Hp. now subst.
      * destruct (IH (pre ++ [c]) f) as (f' & Hrun & Hg & Hd).
        { intros p Hp. apply Hclear. now right. }
        exists f'. split; [exact Hrun|]. split.
        -- eapply grows_weaken; [|exact Hg]. intros p Hp. now right.
        -- intros p Hp. apply elem_of_cons in Hp as [->|Hp]; [|now apply Hd].
           eapply grows_keeps; eassumption.
    + destruct (IH (pre ++ [c]) (<[pre ++ [c] := Dir]> f)) as (f' & Hrun & Hg & Hd).
      { intros p Hp c0. destruct (decide (pre ++ [c] = p)) as [<-|Hne].
        - now rewrite lookup_insert_eq.
        - rewrite lookup_insert_ne by exact Hne. apply Hclear. now right. }
      exists f'. split; [exact Hrun|]. split.
      * eapply grows_trans.
        -- apply grows_insert; [exact Hl|left].
        -- eapply grows_weaken; [|exact Hg]. intros p Hp. now right.
      * intros p Hp. apply elem_of_cons in Hp as [->|Hp]; [|now apply Hd].
        eapply grows_keeps; [exact Hg|]. apply lookup_insert_eq.
Qed.

Lemma makedirs_from_returns rest : forall pre f f',
  makedirs_from true pre rest f = (inr tt, f') ->
  forall p, p ∈ walked pre rest -> forall c, f !! p <> Some (File c).
Proof.
  induction rest as [|c rest IH]; intros pre f f' Hrun p Hp c0.
  - inversion Hp.
  - cbn [makedirs_from walked] in *.
    apply elem_of_cons in Hp as [->|Hp].
    + destruct (f !! (pre ++ [c])) as [[c1|]|] eqn:Hl; try discriminate.
      destruct rest; discriminate.
    + destruct (f !! (pre ++ [c])) as [[c1|]|] eqn:Hl.
      * destruct rest; discriminate.
      * destruct rest as [|c' rest]; [inversion Hp|].
        eapply IH; eassumption.
      * specialize (IH _ _ _ Hrun p Hp c0).
        destruct (decide (pre ++ [c] = p)) as [<-|Hne]; [now rewrite Hl|].
        now rewrite lookup_insert_ne in IH.
Qed.

Lemma makedirs_from_there rest : forall pre f,
  (forall p, p ∈ walked pre rest -> f !! p = Some Dir) ->
  makedirs_from true pre rest f = (inr tt, f).
Proof.
  induction rest as [|c rest IH]; intros pre f Hd; [reflexivity|].
  cbn [makedirs_from walked] in *.
  rewrite (Hd (pre ++ [c])) by left.
  destruct rest as [|c' rest]; [reflexivity|].
  apply IH. intros p Hp. apply Hd. now right.
Qed.

Lemma makedirs_from_grows b rest : forall pre f,
  grows (walked pre rest) f (snd (makedirs_from b pre rest f)).
Proof.
  induction rest as [|c rest IH]; intros pre f; [apply grows_refl|].
  cbn [makedirs_from walked].
  destruct (f !! (pre ++ [c])) as [[c0|]|] eqn:Hl.
  - destruct rest; apply grows_refl.
  - destruct rest as [|c' rest]; [destruct b; apply grows_refl|].
    eapply grows_weaken; [|apply IH]. intros p Hp. now right.
  - eapply grows_trans.
    + apply grows_insert; [exact Hl|left].
    + eapply grows_weaken; [|apply IH]. intros p Hp. now right.
Qed.
End MakedirsFacts.

Section CreateDirectories.
Context {Ext : Type}.
Implicit Types w : World Ext.
Import MakedirsFacts.

Lemma make_each_ok ds : forall w,
  clear_way (fs w) ds ->
  exists f',
    make_each ds w =
      (inr tt, {| fs := f'; ext := ext w; trace := trace w ++ created_lines ds |}) /\
    f' = make_all ds (fs w) /\
    grows (ways ds) (fs w) f' /\
    (forall p, p ∈ ways ds -> f' !! p = Some Dir).
Proof.
  induction ds as [|d ds IH]; intros w Hclear.
  - exists (fs w). cbn. unfold mret, M_ret. rewrite app_nil_r.
    split; [now destruct w|]. split; [reflexivity|].
    split; [apply grows_refl|]. intros p Hp. inversion Hp.
  - unfold clear_way, ways in *. cbn [map concat] in *.
    destruct (makedirs_from_ok (Path.components d) [] (fs w)) as (f1 & Hrun & Hg & Hd).
    { intros p Hp. apply Hclear. apply elem_of_app. now left. }
    cbn [make_each]. unfold_m. unfold OS.makedirs. cbv beta iota. rewrite Hrun.
    cbn [fs ext trace].
    destruct (IH {| fs := f1; ext := ext w;
                    trace := trace w ++ [Stdout ("Created: " +:+ d)] |})
      as (f' & Hrest & Hall & Hg' & Hd').
    { cbn [fs]. intros p Hp. apply (grows_no_file _ _ _ p Hg).
      apply Hclear. apply elem_of_app. now right. }
    cbn [fs ext trace] in *. rewrite Hrest. exists f'. split.
    + unfold created_lines. cbn [map]. now rewrite <- app_assoc.
    + split.
      { rewrite Hall. unfold make_all, OS.makedirs. cbn [fold_left]. now rewrite Hrun. }
      split.
      * eapply grows_trans; eapply grows_weaken; try eassumption;
          intros p Hp; apply elem_of_app; auto.
      * intros p Hp. apply elem_of_app in Hp as [Hp|Hp]; [|now apply Hd'].
        eapply grows_keeps; [exact Hg'|]. now apply Hd.
Qed.

Lemma make_each_returns ds : forall w w',
  make_each ds w = (inr tt, w') -> clear_way (fs w) ds.
Proof.
  induction ds as [|d ds IH]; intros w w' Hrun p Hp; [inversion Hp|].
  unfold ways in Hp. cbn [map concat] in Hp.
  cbn [make_each] in Hrun. unfold_m_in Hrun. unfold OS.makedirs in Hrun.
  cbv beta iota in Hrun.
  destruct (OS.makedirs_from true [] (Path.components d) (fs w)) as [[e|[]] f1] eqn:Hmk;
    [discriminate|].
  cbn [fs ext trace] in Hrun.
  apply elem_of_app in Hp as [Hp|Hp].
  - eapply makedirs_from_returns; eassumption.
  - destruct (makedirs_from_ok (Path.components d) [] (fs w)) as (f1' & Hrun' & Hg & _).
    { eapply makedirs_from_returns; eassumption. }
    rewrite Hmk in Hrun'. injection Hrun' as <-.
    apply (grows_no_file _ _ _ p Hg).
    apply (IH _ _ Hrun). exact Hp.
Qed.

Lemma make_each_there ds : forall w,
  (forall p, p ∈ ways ds -> fs w !! p = Some Dir) ->
  make_each ds w = (inr tt, log (created_lines ds) w).
Proof.
  induction ds as [|d ds IH]; intros w Hd.
  - cbn. unfold mret, M_ret, log. rewrite app_nil_r. now destruct w.
  - unfold ways in Hd. cbn [map concat] in Hd.
    cbn [make_each]. unfold_m. unfold OS.makedirs. cbv beta iota.
    rewrite makedirs_from_there by (intros p Hp; apply Hd, elem_of_app; now left).
    cbn [fs ext trace]. rewrite IH.
    + unfold log, created_lines. cbn [fs ext trace map]. now rewrite <- app_assoc.
    + cbn [fs]. intros p Hp. apply Hd, elem_of_app. now right.
Qed.

Lemma ways_dirs p : p ∈ ways dirs <-> p ∈ project_dirs.
Proof.
  change (ways dirs) with
    [ ["src"]; ["scenes"]; ["test"]; ["test"; "unit"]; ["test"]; ["test"; "integration"] ].
  unfold project_dirs. rewrite !elem_of_cons, !elem_of_nil. tauto.
Qed.

Lemma clear_way_dirs (f : filesystem) : clear_way f dirs <-> creatable f.
Proof.
  unfold clear_way, creatable.
  split; intros H p Hp; apply H; now apply ways_dirs.
Qed.

Lemma create_directories_ok w :
  creatable (fs w) ->
  exists f',
    create_directories w =
      (inr tt, {| fs := f'; ext := ext w;
                  trace := trace w ++ Call f_create_directories :: created_lines dirs |}) /\
    f' = make_all dirs (fs w) /\
    grows project_dirs (fs w) f' /\
    (forall p, p ∈ project_dirs -> f' !! p = Some Dir).
Proof.
  intros Hc. apply clear_way_dirs in Hc.
  unfold create_directories. unfold_m. cbv beta iota.
  destruct (make_each_ok dirs {| fs := fs w; ext := ext w;
                                 trace := trace w ++ [Call f_create_directories] |})
    as (f' & Hrun & Hall & Hg & Hd); [exact Hc|].
  cbn [fs ext trace] in *. rewrite Hrun. exists f'. split.
  - now rewrite <- app_assoc.
  - split; [exact Hall|]. split.
    + eapply grows_weaken; [|exact Hg]. intros p. apply ways_dirs.
    + intros p Hp. apply Hd. now apply ways_dirs.
Qed.

Lemma create_directories_returns w w' :
  create_directories w = (inr tt, w') -> creatable (fs w).
Proof.
  unfold create_directories. intros Hrun. unfold_m_in Hrun. cbv beta iota in Hrun.
  apply clear_way_dirs.
  apply (make_each_returns dirs _ _ Hrun).
Qed.

Lemma create_directories_there w :
  (forall p, p ∈ project_dirs -> fs w !! p = Some Dir) ->
  create_directories w =
    (inr tt, log (Call f_create_directories :: created_lines dirs) w).
Proof.
  intros Hd. unfold create_directories. unfold_m. cbv beta iota.
  rewrite make_each_there.
  - unfold log. cbn [fs ext trace]. now rewrite <- app_assoc.
  - cbn [fs]. intros p Hp. apply Hd. now apply ways_dirs.
Qed.
End CreateDirectories.
Section Main.
Context {Ext : Type}.
Variable shell : string -> option string -> filesystem -> Ext -> filesystem * Ext * CompletedProcess.
Implicit Types w : World Ext.
Import MakedirsFacts.

(** The submodule phase changes the filesystem and the outside world
    through the commands of the script only. *)
Lemma add_plan_invariant (I : filesystem -> Ext -> Prop) (subs : list (string * string)) :
  (forall cmd f x, cmd ∈ script_commands -> I f x ->
     I (fst (fst (shell cmd None f x))) (snd (fst (shell cmd None f x)))) ->
  (forall sd, sd ∈ subs -> sd ∈ submodules) ->
  forall f x f' x' cmds o,
    add_plan shell subs f x = (f', x', cmds, o) -> I f x -> I f' x'.
Proof.
  intros Hstep. induction subs as [|[source dest] rest IH];
    intros Hsub f x f' x' cmds o Hplan HI.
  - cbn in Hplan. now injection Hplan as <- <- _ _.
  - assert (Hrest : forall sd, sd ∈ rest -> sd ∈ submodules)
      by (intros sd Hsd; apply Hsub; now right).
    assert (Hcmd : add_command source dest ∈ script_commands)
      by (apply (add_command_listed (source, dest)), Hsub; left).
    cbn [add_plan] in Hplan.
    destruct (OS.exists_ f (Path.components dest)); [eapply IH; eassumption|].
    pose proof (Hstep (add_command source dest) f x Hcmd HI) as HI1.
    destruct (shell (add_command source dest) None f x) as [[f1 x1] r].
    cbn [fst snd] in HI1.
    destruct (verdict r) as [e|[|]].
    + now injection Hplan as <- <- _ _.
    + destruct (add_plan shell rest f1 x1) as [[[f2 x2] cs] o2] eqn:Hrest'.
      injection Hplan as <- <- _ _. eapply IH; eassumption.
    + now injection Hplan as <- <- _ _.
Qed.

Lemma setup_plan_invariant (I : filesystem -> Ext -> Prop) :
  (forall cmd f x, cmd ∈ script_commands -> I f x ->
     I (fst (fst (shell cmd None f x))) (snd (fst (shell cmd None f x)))) ->
  forall f x f' x' cmds o,
    setup_plan shell f x = (f', x', cmds, o) -> I f x -> I f' x'.
Proof.
  intros Hstep f x f' x' cmds o Hplan HI. unfold setup_plan in Hplan.
  destruct (OS.exists_ f [".git"]); [|now injection Hplan as <- <- _ _].
  destruct (add_plan shell submodules f x) as [[[f1 x1] cs] looped] eqn:Hadd.
  pose proof (add_plan_invariant I submodules Hstep (fun _ H => H) _ _ _ _ _ _ Hadd HI) as HI1.
  destruct looped as [e|[|]]; try (now injection Hplan as <- <- _ _).
  pose proof (Hstep update_command f1 x1 update_command_listed HI1) as HI2.
  destruct (shell update_command None f1 x1) as [[f2 x2] r].
  now injection Hplan as <- <- _ _.
Qed.

Lemma setup_plan_keeps keep f x f' x' cmds o p :
  keeps_dirs shell keep ->
  setup_plan shell f x = (f', x', cmds, o) ->
  p ∈ keep -> f !! p = Some Dir -> f' !! p = Some Dir.
Proof.
  intros Hk Hplan Hin Hd.
  apply (setup_plan_invariant (fun g _ => g !! p = Some Dir)) with (3 := Hd) in Hplan;
    [exact Hplan|].
  intros cmd g y Hcmd Hg. now apply Hk.
Qed.

(** With commands whose output decodes, the submodule phase returns. *)
Lemma add_plan_legible (subs : list (string * string)) :
  legible shell ->
  (forall sd, sd ∈ subs -> sd ∈ submodules) ->
  forall f x, exists ok : bool, snd (add_plan shell subs f x) = inr ok.
Proof.
  intros Hleg. induction subs as [|[source dest] rest IH]; intros Hsub f x.
  - exists true. reflexivity.
  - assert (Hrest : forall sd, sd ∈ rest -> sd ∈ submodules)
      by (intros sd Hsd; apply Hsub; now right).
    assert (Hcmd : add_command source dest ∈ script_commands)
      by (apply (add_command_listed (source, dest)), Hsub; left).
    cbn [add_plan].
    destruct (OS.exists_ f (Path.components dest)); [now apply IH|].
    pose proof (Hleg (add_command source dest) f x Hcmd) as Hdec.
    destruct (shell (add_command source dest) None f x) as [[f1 x1] r].
    cbn [snd] in Hdec. unfold verdict. rewrite Hdec.
    destruct (returncode r =? 0)%Z; [|now exists false].
    destruct (IH Hrest f1 x1) as [ok Hok].
    destruct (add_plan shell rest f1 x1) as [[[f2 x2] cs] o2]. cbn [snd] in *. eauto.
Qed.

Lemma setup_plan_legible (f : filesystem) (x : Ext) :
  legible shell -> exists ok : bool, snd (setup_plan shell f x) = inr ok.
Proof.
  intros Hleg. unfold setup_plan.
  destruct (OS.exists_ f [".git"]); [|now exists false].
  destruct (add_plan_legible submodules Hleg (fun _ H => H) f x) as [ok Hok].
  destruct (add_plan shell submodules f x) as [[[f1 x1] cs] o]. cbn [snd] in Hok. subst o.
  destruct ok; [|now exists false].
  pose proof (Hleg update_command f1 x1 update_command_listed) as Hdec.
  destruct (shell update_command None f1 x1) as [[f2 x2] r].
  cbn [snd] in *. unfold verdict. rewrite Hdec. eauto.
Qed.

(** The plugin phase depends on the filesystem only, not on what has been
    printed before; and this is all it can do. *)
Lemma upp_any w :
  exists r f' evs,
    (forall w3 : World Ext, fs w3 = fs w -> ext w3 = ext w ->
       update_project_plugins w3 =
         (r, {| fs := f'; ext := ext w; trace := trace w3 ++ evs |})) /\
    phases evs = [f_update_project_plugins] /\
    executions evs = [] /\ err_lines evs = [] /\
    (forall e, r = inl e ->
       evs = [Call f_update_project_plugins;
              Stdout "Updating project.godot plugin configuration..."]) /\
    (r = inr false -> Stdout "Error: project.godot not found" ∈ evs) /\
    (forall p, p <> project_path -> f' !! p = fs w !! p) /\
    (f' !! project_path = Some Dir <-> fs w !! project_path = Some Dir) /\
    (r = inl IsADirectoryError <-> fs w !! project_path = Some Dir) /\
    (r = inl UnicodeDecodeError
       <-> exists c, fs w !! project_path = Some (File c) /\ Text.decodes c = false) /\
    ((exists c, f' !! project_path = Some (File c) /\ Text.decodes c = false)
       <-> exists c, fs w !! project_path = Some (File c) /\ Text.decodes c = false) /\
    (r = inl IsADirectoryError \/ r = inl UnicodeDecodeError \/ exists b, r = inr b).
Proof.
  destruct (fs w !! project_path) as [[content|]|] eqn:Hl.
  - destruct (Text.decodes content) eqn:Hdec.
    + destruct (Text.contains marker content) eqn:Hm.
      * do 3 eexists. split.
        { intros w3 Hf Hx. rewrite <- Hf in Hl. rewrite (upp_present w3 content Hl Hdec Hm).
          unfold log. rewrite Hf, Hx. reflexivity. }
        rewrite Hl. settle.
      * do 3 eexists. split.
        { intros w3 Hf Hx. rewrite <- Hf in Hl. rewrite (upp_absent w3 content Hl Hdec Hm).
          rewrite Hf, Hx. reflexivity. }
        rewrite lookup_insert_eq.
        pose proof (plugin_section_decodes content Hdec) as Hdec'.
        settle.
        intros p Hp. now rewrite lookup_insert_ne.
    + do 3 eexists. split.
      { intros w3 Hf Hx. rewrite <- Hf in Hl. rewrite (upp_undecodable w3 content Hl Hdec).
        unfold log. rewrite Hf, Hx. reflexivity. }
      rewrite Hl. settle.
  - do 3 eexists. split.
    { intros w3 Hf Hx. rewrite <- Hf in Hl. rewrite (upp_directory w3 Hl).
      unfold log. rewrite Hf, Hx. reflexivity. }
    rewrite Hl. settle.
  - do 3 eexists. split.
    { intros w3 Hf Hx. rewrite <- Hf in Hl. rewrite (upp_missing w3 Hl).
      unfold log. rewrite Hf, Hx. reflexivity. }
    rewrite Hl. settle.
    intros _. rewrite !elem_of_cons. tauto.
Qed.

Lemma upp_summary w :
  exists r evs f',
    update_project_plugins w = (r, {| fs := f'; ext := ext w; trace := trace w ++ evs |}) /\
    phases evs = [f_update_project_plugins] /\
    commands evs = [] /\
    (forall p, p <> project_path -> f' !! p = fs w !! p) /\
    (f' !! project_path = Some Dir <-> fs w !! project_path = Some Dir) /\
    (r = inl IsADirectoryError <-> fs w !! project_path = Some Dir) /\
    (r = inl UnicodeDecodeError
       <-> exists c, fs w !! project_path = Some (File c) /\ Text.decodes c = false) /\
    (r = inl IsADirectoryError \/ r = inl UnicodeDecodeError \/ exists b, r = inr b).
Proof.
  destruct (upp_any w)
    as (r & f' & evs & Hrun & Hp & He & _ & _ & _ & Hframe & Hdir & Hraise & Hdec & _ & Hor).
  exists r, evs, f'. rewrite (Hrun w eq_refl eq_refl).
  rewrite commands_executions, He. auto 10.
Qed.

Lemma phases_created ds : phases (created_lines ds) = [].
Proof. induction ds; [reflexivity|exact IHds]. Qed.

Lemma commands_created ds : commands (created_lines ds) = [].
Proof. induction ds; [reflexivity|exact IHds]. Qed.

Lemma phases_reports (f : filesystem) ps : phases (map (report f) ps) = [].
Proof. induction ps; [reflexivity|exact IHps]. Qed.

Lemma commands_reports (f : filesystem) ps : commands (map (report f) ps) = [].
Proof. induction ps; [reflexivity|exact IHps]. Qed.
End Main.
Section CreatePhases.
Context {Ext : Type}.
Implicit Types w : World Ext.

Lemma make_each_phases ds : forall w,
  exists evs, trace (snd (make_each ds w)) = trace w ++ evs /\ phases evs = [].
Proof.
  induction ds as [|d ds IH]; intros w.
  - exists []. cbn. now rewrite app_nil_r.
  - cbn [make_each]. unfold_m. unfold OS.makedirs. cbv beta iota.
    destruct (OS.makedirs_from true [] (Path.components d) (fs w)) as [[e|[]] f1];
      cbn [fst snd fs ext trace].
    + exists []. now rewrite app_nil_r.
    + match goal with |- context [make_each ds ?W] =>
        destruct (IH W) as (evs & Ht & Hp) end.
      rewrite Ht. cbn [trace].
      exists (Stdout ("Created: " +:+ d) :: evs). now rewrite <- app_assoc.
Qed.

Lemma create_directories_phases w :
  exists evs,
    trace (snd (create_directories w)) = trace w ++ evs /\
    phases evs = [f_create_directories].
Proof.
  unfold create_directories. unfold_m. cbv beta iota.
  match goal with |- context [make_each dirs ?W] =>
    destruct (make_each_phases dirs W) as (evs & Ht & Hp) end.
  rewrite Ht. cbn [trace].
  exists (Call f_create_directories :: evs). rewrite <- app_assoc.
  split; [reflexivity|]. cbn [phases is_phase]. now rewrite Hp.
Qed.
End CreatePhases.

Section Traces.
Context {Ext : Type}.
Variable shell : string -> option string -> filesystem -> Ext -> filesystem * Ext * CompletedProcess.
Implicit Types w : World Ext.

Lemma silent_disciplined evs :
  executions evs = [] -> err_lines evs = [] -> Forall (disciplined shell) evs.
Proof.
  induction evs as [|[f|s|s|c cwd] evs IH]; cbn; intros He Hs;
    try discriminate; constructor; cbn; auto.
Qed.

Lemma disciplined_executions evs :
  Forall (disciplined shell) evs ->
  executions evs = map (fun c => (c, None)) (commands evs).
Proof.
  induction 1 as [|[f|s|s|c cwd] evs He _ IH]; cbn; try assumption; [reflexivity|].
  destruct He as [-> _]. now rewrite IH.
Qed.

Lemma disciplined_err_lines evs s :
  Forall (disciplined shell) evs -> s ∈ err_lines evs ->
  Text.truthy s = true /\
  exists c f x, c ∈ script_commands /\ stderr (as_text (snd (shell c None f x))) = s.
Proof.
  induction 1 as [|[f|s'|s'|c cwd] evs He _ IH]; cbn; intros Hin; auto.
  - inversion Hin.
  - apply elem_of_cons in Hin as [->|Hin]; [exact He|auto].
Qed.

Lemma attempt_disciplined cmd :
  cmd ∈ script_commands -> Forall (disciplined shell) (attempt cmd None).
Proof.
  intros Hin. unfold attempt.
  constructor; [exact I|]. constructor; [exact I|].
  constructor; [now split|constructor].
Qed.

Lemma seen_disciplined cmd f x :
  cmd ∈ script_commands ->
  Forall (disciplined shell) (seen cmd (snd (shell cmd None f x))).
Proof.
  intros Hin. unfold seen. set (r := snd (shell cmd None f x)).
  destruct (decodable r); [|now apply attempt_disciplined].
  unfold echo.
  apply Forall_app; split; [now apply attempt_disciplined|].
  apply Forall_app; split.
  - destruct (Text.truthy (stdout (as_text r))); repeat constructor.
  - destruct (Text.truthy (stderr (as_text r))) eqn:Ht; repeat constructor; cbn; eauto 10.
Qed.

Lemma add_missing_disciplined subs :
  (forall sd, sd ∈ subs -> sd ∈ submodules) ->
  forall w, exists evs,
    trace (snd (add_missing shell subs w)) = trace w ++ evs /\
    Forall (disciplined shell) evs.
Proof.
  induction subs as [|[source dest] rest IH]; intros Hsub w.
  - exists []. cbn. now rewrite app_nil_r.
  - assert (Hrest : forall sd, sd ∈ rest -> sd ∈ submodules)
      by (intros sd Hsd; apply Hsub; now right).
    assert (Hcmd : add_command source dest ∈ script_commands)
      by (apply (add_command_listed (source, dest)), Hsub; left).
    specialize (IH Hrest).
    cbn [add_missing]. unfold_m. cbv beta iota.
    destruct (OS.exists_ (fs w) (Path.components dest)); cbn [negb]; [apply IH|].
    cbn [fs ext trace].
    destruct (shell (add_command source dest) None (fs w) (ext w))
      as [[f1 x1] r] eqn:Hsh.
    erewrite run_command_spec by (cbn [fs ext]; eassumption).
    assert (Hseen : Forall (disciplined shell) (seen (add_command source dest) r)).
    { replace r with (snd (shell (add_command source dest) None (fs w) (ext w)))
        by now rewrite Hsh.
      now apply seen_disciplined. }
    destruct (verdict r) as [e|[|]]; cbn [negb]; cbv beta iota; cbn [fs ext trace snd].
    + eexists. split; [rewrite <- !app_assoc; reflexivity|].
      apply Forall_app; split; [repeat constructor|assumption].
    + match goal with |- context [add_missing shell rest ?W] =>
        destruct (IH W) as (evs & Ht & Hd) end.
      rewrite Ht. cbn [trace]. eexists. split; [rewrite <- !app_assoc; reflexivity|].
      apply Forall_app; split; [repeat constructor|].
      apply Forall_app; split; assumption.
    + eexists. split; [rewrite <- !app_assoc; reflexivity|].
      apply Forall_app; split; [repeat constructor|].
      apply Forall_app; split; [assumption|repeat constructor].
Qed.

Lemma setup_submodules_disciplined w :
  exists evs,
    trace (snd (setup_submodules shell w)) = trace w ++ evs /\
    Forall (disciplined shell) evs.
Proof.
  unfold setup_submodules. unfold_m. cbv beta iota. cbn [fs ext trace].
  destruct (OS.exists_ (fs w) (Path.components ".git")); cbn [negb fs ext trace snd].
  - match goal with |- context [add_missing shell submodules ?W] =>
      destruct (add_missing_disciplined submodules (fun _ H => H) W) as (evs & Ht & Hd);
      destruct (add_missing shell submodules W) as [[e|looped] w1] eqn:Hadd end.
    + cbn [snd trace] in *. rewrite Ht. eexists. split; [rewrite <- !app_assoc; reflexivity|].
      apply Forall_app; split; [repeat constructor|].
      apply Forall_app; split; [repeat constructor|assumption].
    + cbn [snd trace] in Ht.
      destruct looped; cbn [negb]; cbv beta iota; cbn [snd].
      * destruct (shell update_command None (fs w1) (ext w1)) as [[f2 x2] r] eqn:Hsh.
        erewrite run_command_spec by first [exact update_command_listed|exact Hsh].
        assert (Hseen : Forall (disciplined shell) (seen update_command r)).
        { replace r with (snd (shell update_command None (fs w1) (ext w1)))
            by now rewrite Hsh.
          apply seen_disciplined, update_command_listed. }
        destruct (verdict r) as [e|[|]]; cbn [negb fs ext trace snd]; rewrite Ht;
          (eexists; split; [rewrite <- !app_assoc; reflexivity|]);
          (apply Forall_app; split; [repeat constructor|]);
          (apply Forall_app; split; [repeat constructor|]);
          (apply Forall_app; split; [assumption|]);
          first [assumption | apply Forall_app; split; [assumption|repeat constructor]].
      * rewrite Ht. eexists. split; [rewrite <- !app_assoc; reflexivity|].
        apply Forall_app; split; [repeat constructor|].
        apply Forall_app; split; [repeat constructor|assumption].
  - eexists. split; [rewrite <- !app_assoc; reflexivity|]. repeat constructor.
Qed.

Lemma add_plan_sublist subs : forall f x f' x' cmds o,
  add_plan shell subs f x = (f', x', cmds, o) ->
  cmds `sublist_of` map (fun sd => add_command (fst sd) (snd sd)) subs.
Proof.
  induction subs as [|[source dest] rest IH]; intros f x f' x' cmds o Hplan.
  - cbn in Hplan. injection Hplan as _ _ <- _. constructor.
  - cbn [add_plan] in Hplan. cbn [map fst snd].
    destruct (OS.exists_ f (Path.components dest)).
    + apply sublist_cons. eapply IH; eassumption.
    + destruct (shell (add_command source dest) None f x) as [[f1 x1] r].
      destruct (verdict r) as [e|[|]].
      * injection Hplan as _ _ <- _. apply sublist_skip, sublist_nil_l.
      * destruct (add_plan shell rest f1 x1) as [[[f2 x2] cs] o2] eqn:Hrest.
        injection Hplan as _ _ <- _. apply sublist_skip. eapply IH; eassumption.
      * injection Hplan as _ _ <- _. apply sublist_skip, sublist_nil_l.
Qed.

Lemma setup_plan_sublist f x f' x' cmds o :
  setup_plan shell f x = (f', x', cmds, o) -> cmds `sublist_of` script_commands.
Proof.
  unfold setup_plan, script_commands. intros Hplan.
  destruct (OS.exists_ f [".git"]); [|injection Hplan as _ _ <- _; apply sublist_nil_l].
  destruct (add_plan shell submodules f x) as [[[f1 x1] cs] looped] eqn:Hadd.
  pose proof (add_plan_sublist _ _ _ _ _ _ _ Hadd) as Hsub.
  destruct looped as [e|[|]].
  - injection Hplan as _ _ <- _. now apply sublist_inserts_r.
  - destruct (shell update_command None f1 x1) as [[f2 x2] r].
    injection Hplan as _ _ <- _. now apply sublist_app.
  - injection Hplan as _ _ <- _. now apply sublist_inserts_r.
Qed.

(** A run of [main] that gets past [create_directories], in its parts. *)
Lemma main_decompose w :
  creatable (fs w) ->
  exists f2 x2 cmds o2 evs2 r4 f3 evs4,
    setup_plan shell (make_all dirs (fs w)) (ext w) = (f2, x2, cmds, o2) /\
    grows project_dirs (fs w) (make_all dirs (fs w)) /\
    (forall p, p ∈ project_dirs -> make_all dirs (fs w) !! p = Some Dir) /\
    commands evs2 = cmds /\
    phases evs2 = [f_setup_submodules] /\
    Forall (disciplined shell) evs2 /\
    (exists w1 : World Ext,
       fs w1 = make_all dirs (fs w) /\ ext w1 = ext w /\
       setup_submodules shell w1 =
         (o2, {| fs := f2; ext := x2; trace := trace w1 ++ evs2 |})) /\
    (forall w3 : World Ext, fs w3 = f2 -> ext w3 = x2 ->
       update_project_plugins w3 =
         (r4, {| fs := f3; ext := x2; trace := trace w3 ++ evs4 |})) /\
    phases evs4 = [f_update_project_plugins] /\
    executions evs4 = [] /\ err_lines evs4 = [] /\
    (forall e, r4 = inl e ->
       evs4 = [Call f_update_project_plugins;
               Stdout "Updating project.godot plugin configuration..."]) /\
    (r4 = inr false -> Stdout "Error: project.godot not found" ∈ evs4) /\
    main shell w =
      (main_outcome o2 r4,
       {| fs := match o2 with inl _ => f2 | inr _ => f3 end; ext := x2;
          trace := trace w ++ main_events f2 o2 evs2 evs4 r4 |}).
Proof.
  intros Hc. unfold main. unfold_m. cbv beta iota. cbn [fs ext trace].
  match goal with |- context [create_directories ?W] =>
    destruct (create_directories_ok W Hc) as (f1 & Hrun1 & Hall & Hg & Hd) end.
  rewrite Hrun1. cbn [fs ext trace] in *. clear Hrun1. subst f1.
  destruct (setup_plan shell (make_all dirs (fs w)) (ext w))
    as [[[f2 x2] cmds] o2] eqn:Hplan.
  match goal with |- context [setup_submodules shell ?W] =>
    destruct (setup_submodules_plan shell W f2 x2 cmds o2 Hplan)
      as (evs2 & Hrun2 & Hc2 & Hp2);
    destruct (setup_submodules_disciplined W) as (evs2' & Ht2 & Hd2) end.
  rewrite Hrun2 in Ht2. cbn [snd trace] in Ht2. apply app_inv_head in Ht2. subst evs2'.
  match type of Hrun2 with setup_submodules shell ?W = _ =>
    assert (Hw1 : exists w1 : World Ext,
               fs w1 = make_all dirs (fs w) /\ ext w1 = ext w /\
               setup_submodules shell w1 =
                 (o2, {| fs := f2; ext := x2; trace := trace w1 ++ evs2 |}))
      by (exists W; auto) end.
  rewrite Hrun2. cbn [fs ext trace]. clear Hrun2.
  destruct (upp_any {| fs := f2; ext := x2; trace := [] |})
    as (r4 & f3 & evs4 & Hupp & Hp4 & He4 & Hs4 & Hraise & Herr & _).
  cbn [fs ext] in Hupp.
  exists f2, x2, cmds, o2, evs2, r4, f3, evs4.
  split; [reflexivity|]. split; [exact Hg|]. split; [exact Hd|]. split; [exact Hc2|].
  split; [exact Hp2|]. split; [exact Hd2|]. split; [exact Hw1|]. split; [exact Hupp|].
  split; [exact Hp4|]. split; [exact He4|]. split; [exact Hs4|].
  split; [exact Hraise|]. split; [exact Herr|].
  unfold main_events, late_events, main_outcome.
  destruct o2 as [e2|[|]]; cbn [negb]; cbv beta iota; cbn [fs ext trace].
  - rewrite <- ?app_assoc. cbn [app]. now rewrite ?app_nil_r.
  - rewrite verify_structure_spec; unfold log; cbn [fs ext trace];
      (rewrite Hupp by reflexivity); cbn [fs ext trace];
      destruct r4 as [e|b]; cbn [fs ext trace];
      rewrite <- ?app_assoc; cbn [app]; rewrite ?app_nil_r; reflexivity.
  - rewrite verify_structure_spec; unfold log; cbn [fs ext trace];
      (rewrite Hupp by reflexivity); cbn [fs ext trace];
      destruct r4 as [e|b]; cbn [fs ext trace];
      rewrite <- ?app_assoc; cbn [app]; rewrite ?app_nil_r; reflexivity.
Qed.

Lemma main_blocked w e w1 :
  create_directories
    {| fs := fs w; ext := ext w;
       trace := (trace w ++ [Call f_main])
                  ++ [Stdout ("=== AeroBeat Assembly Setup ===" +:+ Text.nl)] |}
    = (inl e, w1) ->
  main shell w = (inl e, w1).
Proof.
  intros H. unfold main. unfold_m. cbv beta iota. cbn [fs ext trace]. now rewrite H.
Qed.

Lemma main_returns_creatable w w' :
  main shell w = (inr tt, w') -> creatable (fs w).
Proof.
  unfold main. intros Hrun. unfold_m_in Hrun. cbv beta iota in Hrun.
  cbn [fs ext trace] in Hrun.
  match type of Hrun with context [create_directories ?W] =>
    destruct (create_directories W) as [[e|[]] w1] eqn:Hc end; [discriminate|].
  apply (create_directories_returns _ _ Hc).
Qed.

Lemma late_events_disciplined (A : Type) (f2 : filesystem) (ok : bool)
    (evs4 : list event) (r4 : exn + A) :
  executions evs4 = [] -> err_lines evs4 = [] ->
  Forall (disciplined shell) (late_events f2 ok evs4 r4).
Proof.
  intros He4 Hs4. unfold late_events.
  apply Forall_app; split; [destruct ok; repeat constructor|].
  apply Forall_app; split.
  { apply silent_disciplined; reflexivity. }
  apply Forall_app; split; [now apply silent_disciplined|].
  destruct r4; repeat constructor.
Qed.

Lemma main_events_disciplined (A : Type) (f2 : filesystem) (o2 : exn + bool)
    (evs2 evs4 : list event) (r4 : exn + A) :
  Forall (disciplined shell) evs2 ->
  executions evs4 = [] -> err_lines evs4 = [] ->
  Forall (disciplined shell) (main_events f2 o2 evs2 evs4 r4).
Proof.
  intros H2 He4 Hs4. unfold main_events.
  apply Forall_app; split; [repeat constructor|].
  apply Forall_app; split.
  { apply silent_disciplined; reflexivity. }
  apply Forall_app; split; [exact H2|].
  destruct o2 as [e|ok]; [constructor|now apply late_events_disciplined].
Qed.

Lemma late_events_executions (A : Type) (f2 : filesystem) (ok : bool)
    (evs4 : list event) (r4 : exn + A) :
  executions evs4 = [] -> executions (late_events f2 ok evs4 r4) = [].
Proof.
  intros He4. unfold late_events. rewrite !executions_app, He4.
  change (executions (Call f_verify_structure :: Stdout "Verifying directory structure..."
                        :: map (report f2) required_paths)) with (@nil (string * option string)).
  destruct ok, r4; reflexivity.
Qed.

Lemma late_events_err_lines (A : Type) (f2 : filesystem) (ok : bool)
    (evs4 : list event) (r4 : exn + A) :
  err_lines evs4 = [] -> err_lines (late_events f2 ok evs4 r4) = [].
Proof.
  intros Hs4. unfold late_events. rewrite !err_lines_app, Hs4.
  change (err_lines (Call f_verify_structure :: Stdout "Verifying directory structure..."
                       :: map (report f2) required_paths)) with (@nil string).
  destruct ok, r4; reflexivity.
Qed.

Lemma main_events_executions (A : Type) (f2 : filesystem) (o2 : exn + bool)
    (evs2 evs4 : list event) (r4 : exn + A) :
  executions evs4 = [] ->
  executions (main_events f2 o2 evs2 evs4 r4) = executions evs2.
Proof.
  intros He4. unfold main_events. rewrite !executions_app.
  change (executions (Call f_create_directories :: created_lines dirs))
    with (@nil (string * option string)).
  destruct o2 as [e|ok]; [|rewrite late_events_executions by exact He4];
    cbn; now rewrite ?app_nil_r.
Qed.

Lemma main_events_err_lines (A : Type) (f2 : filesystem) (o2 : exn + bool)
    (evs2 evs4 : list event) (r4 : exn + A) :
  err_lines evs4 = [] ->
  err_lines (main_events f2 o2 evs2 evs4 r4) = err_lines evs2.
Proof.
  intros Hs4. unfold main_events. rewrite !err_lines_app.
  change (err_lines (Call f_create_directories :: created_lines dirs)) with (@nil string).
  destruct o2 as [e|ok]; [|rewrite late_events_err_lines by exact Hs4];
    cbn; now rewrite ?app_nil_r.
Qed.

Lemma main_events_commands (A : Type) (f2 : filesystem) (o2 : exn + bool)
    (evs2 evs4 : list event) (r4 : exn + A) :
  executions evs4 = [] ->
  commands (main_events f2 o2 evs2 evs4 r4) = commands evs2.
Proof.
  intros He4. rewrite !commands_executions. now rewrite main_events_executions.
Qed.

Lemma late_events_phases (A : Type) (f2 : filesystem) (ok : bool)
    (evs4 : list event) (r4 : exn + A) :
  phases evs4 = [f_update_project_plugins] ->
  phases (late_events f2 ok evs4 r4) = [f_verify_structure; f_update_project_plugins].
Proof.
  intros Hp4. unfold late_events. rewrite !phases_app, Hp4.
  cbn [phases is_phase]. rewrite phases_reports.
  destruct ok, r4; reflexivity.
Qed.

Lemma main_events_phases (A : Type) (f2 : filesystem) (ok : bool)
    (evs2 evs4 : list event) (r4 : exn + A) :
  phases evs2 = [f_setup_submodules] ->
  phases evs4 = [f_update_project_plugins] ->
  phases (main_events f2 (inr ok) evs2 evs4 r4) = the_phases.
Proof.
  intros Hp2 Hp4. unfold main_events.
  rewrite !phases_app, Hp2, late_events_phases by exact Hp4.
  cbn [phases is_phase]. now rewrite phases_created.
Qed.

Lemma main_events_phases_raised (A : Type) (f2 : filesystem) (e : exn)
    (evs2 evs4 : list event) (r4 : exn + A) :
  phases evs2 = [f_setup_submodules] ->
  phases (main_events f2 (inl e) evs2 evs4 r4) = [f_create_directories; f_setup_submodules].
Proof.
  intros Hp2. unfold main_events.
  rewrite !phases_app, Hp2. cbn [phases is_phase]. now rewrite phases_created.
Qed.

(** Every run of [main], however it ends, enters the phases in their
    order: those entered are the first ones of the four. *)
Lemma main_phases w :
  exists evs,
    trace (snd (main shell w)) = trace w ++ evs /\
    phases evs `prefix_of` the_phases.
Proof.
  destruct (create_directories
              {| fs := fs w; ext := ext w;
                 trace := (trace w ++ [Call f_main])
                            ++ [Stdout ("=== AeroBeat Assembly Setup ===" +:+ Text.nl)] |})
    as [[e|[]] w1] eqn:Hcreate.
  - rewrite (main_blocked w e w1 Hcreate). cbn [snd].
    match type of Hcreate with create_directories ?W = _ =>
      destruct (create_directories_phases W) as (evs & Ht & Hp) end.
    rewrite Hcreate in Ht. cbn [snd trace] in Ht. rewrite Ht.
    exists ([Call f_main; Stdout ("=== AeroBeat Assembly Setup ===" +:+ Text.nl)] ++ evs).
    split; [now rewrite <- !app_assoc|].
    rewrite phases_app, Hp. cbn. now eexists.
  - pose proof (create_directories_returns _ _ Hcreate) as Hc. cbn [fs] in Hc.
    destruct (main_decompose w Hc)
      as (f2 & x2 & cmds & o2 & evs2 & r4 & f3 & evs4 & _ & _ & _ & _ & Hp2 & _ & _ &
          _ & Hp4 & _ & _ & _ & _ & Hrun).
    rewrite Hrun. cbn [snd trace]. eexists. split; [reflexivity|].
    destruct o2 as [e|ok].
    + rewrite main_events_phases_raised by exact Hp2. now eexists.
    + now rewrite main_events_phases.
Qed.
End Traces.

Section Rerun.
Context {Ext : Type}.
Variable shell : string -> option string -> filesystem -> Ext -> filesystem * Ext * CompletedProcess.
Implicit Types w : World Ext.
Import MakedirsFacts.

Lemma upp_rerun w w' :
  update_project_plugins w = (inr true, w') ->
  update_project_plugins w' =
    (inr true,
     log [Call f_update_project_plugins;
          Stdout "Updating project.godot plugin configuration...";
          Stdout "Plugin configuration already exists"] w').
Proof.
  intros Hrun.
  destruct (fs w !! project_path) as [[content|]|] eqn:Hl.
  - destruct (Text.decodes content) eqn:Hdec;
      [|rewrite (upp_undecodable w content Hl Hdec) in Hrun; discriminate].
    destruct (Text.contains marker content) eqn:Hm.
    + rewrite (upp_present w content Hl Hdec Hm) in Hrun. injection Hrun as <-.
      now apply upp_present with (content := content).
    + rewrite (upp_absent w content Hl Hdec Hm) in Hrun. injection Hrun as <-.
      apply upp_present with (content := content +:+ plugin_section).
      * cbn [fs]. apply lookup_insert_eq.
      * now apply plugin_section_decodes.
      * apply contains_app_r, marker_in_plugin_section.
  - rewrite (upp_directory w Hl) in Hrun. discriminate.
  - rewrite (upp_missing w Hl) in Hrun. discriminate.
Qed.

Lemma create_directories_rerun w w' :
  create_directories w = (inr tt, w') ->
  create_directories w' =
    (inr tt, log (Call f_create_directories :: created_lines dirs) w').
Proof.
  intros Hrun.
  pose proof (create_directories_returns _ _ Hrun) as Hc.
  destruct (create_directories_ok w Hc) as (f' & Hrun' & _ & _ & Hd).
  rewrite Hrun in Hrun'. injection Hrun' as ->.
  now apply create_directories_there.
Qed.

Lemma add_plan_all_there (subs : list (string * string)) (f : filesystem) (x : Ext) :
  (forall d, d ∈ map snd subs -> OS.exists_ f (Path.components d) = true) ->
  add_plan shell subs f x = (f, x, [], inr true).
Proof.
  induction subs as [|[source dest] rest IH]; intros Hd; [reflexivity|].
  cbn [add_plan]. rewrite Hd by (cbn; left).
  apply IH. intros d Hin. apply Hd. cbn. now right.
Qed.

Lemma setup_plan_all_there (f : filesystem) (x : Ext) :
  OS.exists_ f [".git"] = true ->
  (forall d, d ∈ map snd submodules -> OS.exists_ f (Path.components d) = true) ->
  setup_plan shell f x =
    let '(f', x', r) := shell update_command None f x in
    (f', x', [update_command], verdict r).
Proof.
  intros Hgit Hd. unfold setup_plan. rewrite Hgit.
  now rewrite add_plan_all_there.
Qed.
End Rerun.

(** ** The properties of the script *)

Section Claims.
Context {Ext : Type}.
Variable shell : string -> option string -> filesystem -> Ext -> filesystem * Ext * CompletedProcess.
Implicit Types w : World Ext.
Import MakedirsFacts.

(** C1 (as amended): whatever bytes [project.godot] holds, if they
    decode as text then [update_project_plugins] returns [True], and it
    appends the plugin block to the file if and only if the marker
    [[editor_plugins]] occurs nowhere in it; when the marker occurs,
    wherever it stands, the filesystem is left as it was.  If the bytes
    do not decode, the function raises [UnicodeDecodeError] and leaves
    the filesystem as it was, whether or not the marker occurs. *)
Theorem update_project_plugins_appends_iff_marker_absent w content :
  fs w !! project_path = Some (File content) ->
  let w' := snd (update_project_plugins w) in
  (Text.decodes content = true ->
     fst (update_project_plugins w) = inr true /\
     (fs w' !! project_path = Some (File (content +:+ plugin_section))
        <-> Text.contains marker content = false) /\
     (Text.contains marker content = false ->
        fs w' = <[project_path := File (content +:+ plugin_section)]> (fs w)) /\
     (Text.contains marker content = true -> fs w' = fs w)) /\
  (Text.decodes content = false ->
     fst (update_project_plugins w) = inl UnicodeDecodeError /\
     fs w' = fs w).
Proof.
  intros H w'. subst w'. split; intros Hdec.
  - destruct (Text.contains marker content) eqn:Hm.
    + rewrite (upp_present w content H Hdec Hm). cbn [fst snd log fs].
      repeat split; try done.
      rewrite H. intros [= Heq]. exfalso.
      symmetry in Heq. revert Heq. now apply append_truthy_neq.
    + rewrite (upp_absent w content H Hdec Hm). cbn [fst snd fs].
      repeat split; try done.
      intros _. apply lookup_insert_eq.
  - now rewrite (upp_undecodable w content H Hdec).
Qed.

(** C4: [verify_structure] looks at five fixed paths, prints for each
    the line with the checkmark when it exists and the line with the
    cross when it does not, changes nothing on the filesystem, and
    returns [True] exactly when all five exist. *)
Theorem verify_structure_checks_five_paths w :
  length required_paths = 5 /\
  exists all_exist : bool,
    verify_structure w =
      (inr all_exist,
       log (Call f_verify_structure :: Stdout "Verifying directory structure..."
              :: map (report (fs w)) required_paths) w) /\
    fs (snd (verify_structure w)) = fs w /\
    ext (snd (verify_structure w)) = ext w /\
    (all_exist = true <->
       forall p, p ∈ required_paths -> OS.exists_ (fs w) (Path.components p) = true).
Proof.
  split; [reflexivity|].
  eexists. split; [apply verify_structure_spec|].
  rewrite verify_structure_spec. cbn [snd log fs ext].
  split; [reflexivity|]. split; [reflexivity|].
  rewrite forallb_forall.
  split; intros H p Hp; apply H; now apply list_elem_of_In.
Qed.

(** C5 (as amended): in a repository, [setup_submodules] does what the
    plan says: for each of the two submodules, at [addons/aerobeat-core]
    and [addons/aerobeat-input-mediapipe], the add command is run only
    when the destination is not there; then one recursive update is run;
    the first command that fails ends the phase with [False], and a
    command whose output does not decode ends it with
    [UnicodeDecodeError].  So the commands run are, in this order and
    each at most once, some of the two adds and the update; a run that
    returns [True] ends with the update; the first add is run exactly
    when its destination is missing at the start; the second add is run
    only when its destination is missing from the filesystem the phase
    has reached by then, which is the initial one or the one the first
    add left; and the phase ends with the last command it runs, whose
    verdict is its outcome. *)
Theorem setup_submodules_adds_then_updates w :
  OS.exists_ (fs w) [".git"] = true ->
  let add1 := add_command "../aerobeat-core" "addons/aerobeat-core" in
  let add2 := add_command "../aerobeat-input-mediapipe-python"
                "addons/aerobeat-input-mediapipe" in
  map snd submodules = ["addons/aerobeat-core"; "addons/aerobeat-input-mediapipe"] /\
  exists f' x' cmds o evs,
    setup_plan shell (fs w) (ext w) = (f', x', cmds, o) /\
    setup_submodules shell w =
      (o, {| fs := f'; ext := x'; trace := trace w ++ evs |}) /\
    commands evs = cmds /\
    cmds `sublist_of` [add1; add2; update_command] /\
    (o = inr true -> last cmds = Some update_command) /\
    (add1 ∈ cmds
       <-> OS.exists_ (fs w) (Path.components "addons/aerobeat-core") = false) /\
    (add2 ∈ cmds ->
       exists f1,
         (f1 = fs w \/ f1 = fst (fst (shell add1 None (fs w) (ext w)))) /\
         OS.exists_ f1 (Path.components "addons/aerobeat-input-mediapipe") = false) /\
    (exists cmd f1 x1,
       last cmds = Some cmd /\
       shell cmd None f1 x1 = (f', x', snd (shell cmd None f1 x1)) /\
       o = verdict (snd (shell cmd None f1 x1)) /\
       (o = inr false <->
          decodable (snd (shell cmd None f1 x1)) = true /\
          returncode (snd (shell cmd None f1 x1)) <> 0%Z) /\
       (o = inl UnicodeDecodeError <->
          decodable (snd (shell cmd None f1 x1)) = false)).
Proof.
  intros Hgit add1 add2. split; [reflexivity|].
  destruct (setup_plan shell (fs w) (ext w)) as [[[f' x'] cmds] o] eqn:Hplan.
  destruct (setup_submodules_plan shell w f' x' cmds o Hplan) as (evs & Hrun & Hc & _).
  exists f', x', cmds, o, evs.
  split; [reflexivity|]. split; [exact Hrun|]. split; [exact Hc|].
  clear Hrun Hc evs.
  unfold setup_plan in Hplan. rewrite Hgit in Hplan.
  unfold submodules in Hplan. cbn [add_plan] in Hplan.
  fold add1 add2 in Hplan.
  assert (H12 : add1 <> add2) by discriminate.
  assert (H1u : add1 <> update_command) by discriminate.
  assert (H2u : add2 <> update_command) by discriminate.
  assert (Hverdict : forall r : CompletedProcess,
            (verdict r = inr false <-> decodable r = true /\ returncode r <> 0%Z) /\
            (verdict r = inl UnicodeDecodeError <-> decodable r = false)).
  { intros r. unfold verdict. destruct (decodable r).
    - destruct (returncode r =? 0)%Z eqn:Hrc.
      + apply Z.eqb_eq in Hrc. split; split; try discriminate; intros [_ ?]; congruence.
      + apply Z.eqb_neq in Hrc. split; split; try discriminate; auto.
    - split; split; try discriminate; auto. intros [? _]; discriminate. }
  destruct (OS.exists_ (fs w) (Path.components "addons/aerobeat-core")) eqn:E1.
  - destruct (OS.exists_ (fs w) (Path.components "addons/aerobeat-input-mediapipe")) eqn:E2.
    + destruct (shell update_command None (fs w) (ext w)) as [[f2 x2] r] eqn:Hsh.
      injection Hplan as <- <- <- <-. cbn [app last].
      split; [repeat first [apply sublist_skip|apply sublist_cons|apply sublist_nil]|].
      split; [reflexivity|].
      rewrite !elem_of_cons, !elem_of_nil.
      split; [split; [intros [?|[]]; congruence|discriminate]|].
      split; [intros [?|[]]; congruence|].
      ends.
    + destruct (shell add2 None (fs w) (ext w)) as [[f1 x1] r1] eqn:Hsh1.
      destruct (verdict r1) as [e|[|]] eqn:Hv1.
      * injection Hplan as <- <- <- <-.
        split; [repeat first [apply sublist_skip|apply sublist_cons|apply sublist_nil]|].
        split; [discriminate|].
        rewrite !elem_of_cons, !elem_of_nil.
        split; [split; [intros [?|[]]; congruence|discriminate]|].
        split; [intros _; exists (fs w); split; [now left|exact E2]|].
        ends.
      * destruct (shell update_command None f1 x1) as [[f2 x2] r] eqn:Hsh.
        injection Hplan as <- <- <- <-. cbn [app last].
        split; [repeat first [apply sublist_skip|apply sublist_cons|apply sublist_nil]|].
        split; [reflexivity|].
        rewrite !elem_of_cons, !elem_of_nil.
        split; [split; [intros [?|[?|[]]]; congruence|discriminate]|].
        split; [intros _; exists (fs w); split; [now left|exact E2]|].
        ends.
      * injection Hplan as <- <- <- <-.
        split; [repeat first [apply sublist_skip|apply sublist_cons|apply sublist_nil]|].
        split; [discriminate|].
        rewrite !elem_of_cons, !elem_of_nil.
        split; [split; [intros [?|[]]; congruence|discriminate]|].
        split; [intros _; exists (fs w); split; [now left|exact E2]|].
        ends.
  - destruct (shell add1 None (fs w) (ext w)) as [[f1 x1] r1] eqn:Hsh1. cbn [fst].
    destruct (verdict r1) as [e|[|]] eqn:Hv1.
    + injection Hplan as <- <- <- <-.
      split; [repeat first [apply sublist_skip|apply sublist_cons|apply sublist_nil]|].
      split; [discriminate|].
      rewrite !elem_of_cons, !elem_of_nil.
      split; [split; [reflexivity|intros _; now left]|].
      split; [intros [?|[]]; congruence|].
      ends.
    + destruct (OS.exists_ f1 (Path.components "addons/aerobeat-input-mediapipe")) eqn:E2.
      * destruct (shell update_command None f1 x1) as [[f2 x2] r] eqn:Hsh.
        injection Hplan as <- <- <- <-. cbn [app last].
        split; [repeat first [apply sublist_skip|apply sublist_cons|apply sublist_nil]|].
        split; [reflexivity|].
        rewrite !elem_of_cons, !elem_of_nil.
        split; [split; [reflexivity|intros _; now left]|].
        split; [intros [?|[?|[]]]; congruence|].
        ends.
      * destruct (shell add2 None f1 x1) as [[f2 x2] r2] eqn:Hsh2.
        destruct (verdict r2) as [e|[|]] eqn:Hv2.
        -- injection Hplan as <- <- <- <-.
           split; [repeat first [apply sublist_skip|apply sublist_cons|apply sublist_nil]|].
           split; [discriminate|].
           split; [split; [reflexivity|intros _; left]|].
           split; [intros _; exists f1; split; [now right|exact E2]|].
           ends.
        -- destruct (shell update_command None f2 x2) as [[f3 x3] r] eqn:Hsh.
           injection Hplan as <- <- <- <-. cbn [app last].
           split; [repeat first [apply sublist_skip|apply sublist_cons|apply sublist_nil]|].
           split; [reflexivity|].
           split; [split; [reflexivity|intros _; left]|].
           split; [intros _; exists f1; split; [now right|exact E2]|].
           ends.
        -- injection Hplan as <- <- <- <-.
           split; [repeat first [apply sublist_skip|apply sublist_cons|apply sublist_nil]|].
           split; [discriminate|].
           split; [split; [reflexivity|intros _; left]|].
           split; [intros _; exists f1; split; [now right|exact E2]|].
           ends.
    + injection Hplan as <- <- <- <-.
      split; [repeat first [apply sublist_skip|apply sublist_cons|apply sublist_nil]|].
      split; [discriminate|].
      rewrite !elem_of_cons, !elem_of_nil.
      split; [split; [reflexivity|intros _; now left]|].
      split; [intros [?|[]]; congruence|].
      ends.
Qed.

(** C6: [create_directories] makes [src], [scenes], [test/unit] and
    [test/integration].  It returns exactly when no regular file stands
    where one of them, or [test], goes; after it has returned the four
    are directories, everything that was on the filesystem is still
    there unchanged, whatever lay below one of the four that was already
    a directory is as it was, and the only new entries are directories
    among the four and [test]. *)
Theorem create_directories_makes_the_four w :
  map Path.components dirs = [ ["src"]; ["scenes"]; ["test"; "unit"]; ["test"; "integration"] ] /\
  (creatable (fs w) <-> exists w', create_directories w = (inr tt, w')) /\
  forall w', create_directories w = (inr tt, w') ->
    (forall d, d ∈ dirs -> fs w' !! Path.components d = Some Dir) /\
    (forall p n, fs w !! p = Some n -> fs w' !! p = Some n) /\
    (forall d p, d ∈ dirs -> fs w !! Path.components d = Some Dir ->
       Path.components d `prefix_of` p -> fs w' !! p = fs w !! p) /\
    grows project_dirs (fs w) (fs w') /\
    ext w' = ext w.
Proof.
  split; [reflexivity|]. split.
  - split.
    + intros Hc. destruct (create_directories_ok w Hc) as (f' & Hrun & _). eauto.
    + intros [w' Hrun]. eapply create_directories_returns; eassumption.
  - intros w' Hrun.
    pose proof (create_directories_returns _ _ Hrun) as Hc.
    destruct (create_directories_ok w Hc) as (f' & Hrun' & _ & Hg & Hd).
    rewrite Hrun in Hrun'. injection Hrun' as ->. cbn [fs ext].
    split; [|split; [|split; [|split]]].
    + intros d Hin. apply Hd.
      unfold dirs in Hin. unfold project_dirs.
      rewrite !elem_of_cons, elem_of_nil in Hin.
      rewrite !elem_of_cons, elem_of_nil.
      destruct Hin as [->|[->|[->|[->|[]]]]]; cbn; tauto.
    + intros p n. now apply grows_keeps with (ps := project_dirs).
    + intros d p Hin Hdir Hpre.
      destruct (Hg p) as [E|(Hn & _ & Hp)]; [exact E|exfalso].
      unfold dirs in Hin. unfold project_dirs in Hp.
      rewrite !elem_of_cons, elem_of_nil in Hin.
      rewrite !elem_of_cons, elem_of_nil in Hp.
      destruct Hpre as [k ->].
      destruct Hin as [->|[->|[->|[->|[]]]]];
        destruct Hp as [Hp|[Hp|[Hp|[Hp|[Hp|[]]]]]];
        cbn in Hp; try discriminate;
        injection Hp as ->; cbn in Hdir, Hn; congruence.
    + exact Hg.
    + reflexivity.
Qed.

(** C7: when [update_project_plugins] appends, that is when
    [project.godot] holds text without the marker, the file holds
    afterwards its old text followed by the plugin block, so the old
    text is a prefix of the new; the block names two plugins, the
    [plugin.cfg] of [aerobeat-core] and of [aerobeat-input-mediapipe];
    no other path of the filesystem changes, nothing outside it does,
    and no command is run. *)
Theorem update_project_plugins_append_frame w content :
  fs w !! project_path = Some (File content) ->
  Text.decodes content = true ->
  Text.contains marker content = false ->
  let w' := snd (update_project_plugins w) in
  fs w' !! project_path = Some (File (content +:+ plugin_section)) /\
  Text.startswith content (content +:+ plugin_section) = true /\
  plugin_section = section_of marker enabled_plugins /\
  quoted plugin_section =
    [ "res://addons/aerobeat-core/plugin.cfg";
      "res://addons/aerobeat-input-mediapipe/plugin.cfg" ] /\
  (forall p, p <> project_path -> fs w' !! p = fs w !! p) /\
  ext w' = ext w /\
  commands (trace w') = commands (trace w).
Proof.
  intros H Hdec Hm w'. subst w'. rewrite (upp_absent w content H Hdec Hm). cbn [snd fs ext trace].
  split; [apply lookup_insert_eq|].
  split; [apply startswith_app|].
  split; [reflexivity|]. split; [reflexivity|].
  split; [intros p Hp; now rewrite lookup_insert_ne|].
  split; [reflexivity|].
  rewrite commands_app. cbn. now rewrite app_nil_r.
Qed.

(** C8: when [project.godot] does not exist, [update_project_plugins]
    prints the error line and returns [False], and nothing is created or
    changed: the world differs from the one before by the printed lines
    only. *)
Theorem update_project_plugins_missing_file w :
  OS.exists_ (fs w) (Path.components project_file) = false ->
  update_project_plugins w =
    (inr false,
     log [Call f_update_project_plugins;
          Stdout "Updating project.godot plugin configuration...";
          Stdout "Error: project.godot not found"] w) /\
  fs (snd (update_project_plugins w)) = fs w /\
  ext (snd (update_project_plugins w)) = ext w.
Proof.
  intros H. unfold OS.exists_ in H.
  change (Path.components project_file) with project_path in H.
  destruct (fs w !! project_path) eqn:Hl; [discriminate|].
  now rewrite (upp_missing w Hl).
Qed.

(** C9: when [.git] does not exist, [setup_submodules] prints the
    warning and returns [False] without handing any command to the
    shell; the filesystem and the world outside are as before. *)
Theorem setup_submodules_outside_repository w :
  OS.exists_ (fs w) (Path.components ".git") = false ->
  setup_submodules shell w =
    (inr false,
     log [Call f_setup_submodules;
          Stdout "Setting up git submodules...";
          Stdout "Warning: Not a git repository. Submodules may not work correctly."] w) /\
  commands (trace (snd (setup_submodules shell w))) = commands (trace w) /\
  fs (snd (setup_submodules shell w)) = fs w /\
  ext (snd (setup_submodules shell w)) = ext w.
Proof.
  intros H. unfold OS.exists_ in H.
  change (Path.components ".git") with [".git"] in H.
  destruct (fs w !! [".git"]) eqn:Hl; [discriminate|].
  rewrite (setup_submodules_not_a_repository shell w Hl). cbn [snd log fs ext trace].
  split; [reflexivity|]. split; [|now split].
  rewrite commands_app. cbn. now rewrite app_nil_r.
Qed.

(** C10 (as amended): provided none of the commands of the script
    removes or replaces a project directory, whenever [main] runs to its
    end the five paths [src], [scenes], [test], [test/unit] and
    [test/integration] are directories, [test] among them although
    [create_directories] does not list it. *)
Theorem main_leaves_project_dirs w w' :
  keeps_dirs shell project_dirs ->
  main shell w = (inr tt, w') ->
  (["test"] ∉ map Path.components dirs) /\
  forall p, p ∈ [ ["src"]; ["scenes"]; ["test"]; ["test"; "unit"]; ["test"; "integration"] ] ->
    fs w' !! p = Some Dir /\ OS.exists_ (fs w') p = true.
Proof.
  intros Hk Hrun.
  split.
  { cbn. rewrite !elem_of_cons, elem_of_nil. intros [?|[?|[?|[?|[]]]]]; discriminate. }
  intros p Hp. change (p ∈ project_dirs) in Hp.
  destruct (main_decompose shell w (main_returns_creatable shell _ _ Hrun))
    as (f2 & x2 & cmds & o2 & evs2 & r4 & f3 & evs4 & Hplan & _ & Hd & _ & _ & _ & _ &
        Hupp & _ & _ & _ & _ & _ & Hrun').
  rewrite Hrun in Hrun'. injection Hrun' as Hres ->. cbn [fs].
  destruct o2 as [e|ok]; [discriminate Hres|].
  destruct (upp_any {| fs := f2; ext := x2; trace := [] |})
    as (r & f' & evs & Hrun4 & _ & _ & _ & _ & _ & Hframe & _).
  specialize (Hrun4 {| fs := f2; ext := x2; trace := [] |} eq_refl eq_refl).
  rewrite (Hupp {| fs := f2; ext := x2; trace := [] |} eq_refl eq_refl) in Hrun4.
  injection Hrun4 as _ <- _. cbn [fs] in Hframe.
  assert (Hdir : f3 !! p = Some Dir).
  { rewrite Hframe.
    - eapply setup_plan_keeps; eauto.
    - intros ->. unfold project_dirs in Hp.
      rewrite !elem_of_cons, elem_of_nil in Hp.
      destruct Hp as [?|[?|[?|[?|[?|[]]]]]]; discriminate. }
  split; [exact Hdir|]. unfold OS.exists_. now rewrite Hdir.
Qed.

(** C3 (as amended): on every filesystem and whatever the commands do,
    [main] enters the phases in the fixed order [create_directories],
    [setup_submodules], [verify_structure], [update_project_plugins],
    each at most once: those it enters are the first ones of the four.
    It enters all four, each once, when no regular file stands where a
    project directory goes and what the commands write decodes.  A phase
    that reports failure through its result stops nothing: when
    [setup_submodules] returns [False] on the filesystem that
    [create_directories] left, the warning is printed and the run goes
    on.  [main] then returns, unless [project.godot] is a directory, in
    which case the last phase raises [IsADirectoryError], or holds bytes
    that do not decode, in which case it raises [UnicodeDecodeError]. *)
Theorem main_runs_four_phases w :
  exists evs,
    trace (snd (main shell w)) = trace w ++ evs /\
    phases evs `prefix_of`
      [f_create_directories; f_setup_submodules; f_verify_structure;
       f_update_project_plugins] /\
    (creatable (fs w) -> legible shell ->
     phases evs =
       [f_create_directories; f_setup_submodules; f_verify_structure;
        f_update_project_plugins] /\
     (fst (main shell w) = inr tt \/ fst (main shell w) = inl IsADirectoryError \/
      fst (main shell w) = inl UnicodeDecodeError) /\
     (fst (main shell w) = inl IsADirectoryError
        <-> fs (snd (main shell w)) !! project_path = Some Dir) /\
     (fst (main shell w) = inl UnicodeDecodeError
        <-> exists c, fs (snd (main shell w)) !! project_path = Some (File c) /\
              Text.decodes c = false) /\
     (forall w1, fs w1 = make_all dirs (fs w) -> ext w1 = ext w ->
        fst (setup_submodules shell w1) = inr false -> Stdout setup_warning ∈ evs)).
Proof.
  destruct (main_phases shell w) as (evs0 & Ht0 & Hprefix).
  exists evs0. split; [exact Ht0|]. split; [exact Hprefix|].
  intros Hc Hleg.
  destruct (main_decompose shell w Hc)
    as (f2 & x2 & cmds & o2 & evs2 & r4 & f3 & evs4 & Hplan & _ & _ & _ & Hp2 & _ & _ &
        Hupp & Hp4 & _ & _ & _ & _ & Hrun).
  destruct (setup_plan_legible shell (make_all dirs (fs w)) (ext w) Hleg) as [ok Hok].
  rewrite Hplan in Hok. cbn [snd] in Hok. subst o2.
  destruct (upp_any {| fs := f2; ext := x2; trace := [] |})
    as (r & f' & evs & Hrun4 & _ & _ & _ & _ & _ & _ & Hdir & Hraise & Hdec & Hdec' & Hor).
  specialize (Hrun4 {| fs := f2; ext := x2; trace := [] |} eq_refl eq_refl).
  rewrite (Hupp {| fs := f2; ext := x2; trace := [] |} eq_refl eq_refl) in Hrun4.
  injection Hrun4 as <- <- _. cbn [fs] in *.
  rewrite Hrun in Ht0 |- *. cbn [fst snd fs trace main_outcome] in Ht0 |- *.
  apply app_inv_head in Ht0. subst evs0.
  split; [now apply main_events_phases|].
  rewrite Hdir, Hdec'. rewrite <- Hraise, <- Hdec.
  split; [destruct Hor as [->|[->|[b ->]]]; auto|].
  split; [destruct r4 as [e|b]; split; intros H; congruence|].
  split; [destruct r4 as [e|b]; split; intros H; congruence|].
  intros w1 Hfs Hext Hfalse.
  destruct (setup_submodules_plan shell w1 f2 x2 cmds (inr ok)) as (evs1 & Hrun1 & _).
  { now rewrite Hfs, Hext. }
  rewrite Hrun1 in Hfalse. injection Hfalse as ->.
  unfold main_events, late_events. rewrite !elem_of_app, !elem_of_cons. tauto.
Qed.

(** C2 (as amended): a second run of [update_project_plugins] after one
    that returned [True] finds the marker and leaves the filesystem as
    it is; a second run of [create_directories] after one that returned
    finds the directories and leaves the filesystem as it is; a run of
    [setup_submodules] in a repository in which both destinations exist
    runs no add command but still runs the update command, once, and
    leaves what that command leaves, so it changes nothing exactly when
    the update changes nothing. *)
Theorem rerun_skips_what_is_there w :
  (forall w', update_project_plugins w = (inr true, w') ->
     fst (update_project_plugins w') = inr true /\
     fs (snd (update_project_plugins w')) = fs w' /\
     ext (snd (update_project_plugins w')) = ext w') /\
  (forall w', create_directories w = (inr tt, w') ->
     fst (create_directories w') = inr tt /\
     fs (snd (create_directories w')) = fs w' /\
     ext (snd (create_directories w')) = ext w') /\
  (OS.exists_ (fs w) [".git"] = true ->
   (forall d, d ∈ map snd submodules -> OS.exists_ (fs w) (Path.components d) = true) ->
   exists evs,
     trace (snd (setup_submodules shell w)) = trace w ++ evs /\
     commands evs = [update_command] /\
     fs (snd (setup_submodules shell w)) = fst (fst (shell update_command None (fs w) (ext w))) /\
     ext (snd (setup_submodules shell w)) = snd (fst (shell update_command None (fs w) (ext w))) /\
     fst (setup_submodules shell w) =
       if decodable (snd (shell update_command None (fs w) (ext w)))
       then inr (returncode (snd (shell update_command None (fs w) (ext w))) =? 0)%Z
       else inl UnicodeDecodeError).
Proof.
  split; [|split].
  - intros w' Hrun. now rewrite (upp_rerun _ _ Hrun).
  - intros w' Hrun. now rewrite (create_directories_rerun _ _ Hrun).
  - intros Hgit Hd.
    pose proof (setup_plan_all_there shell (fs w) (ext w) Hgit Hd) as Hplan.
    destruct (shell update_command None (fs w) (ext w)) as [[f2 x2] r].
    destruct (setup_submodules_plan shell w _ _ _ _ Hplan) as (evs & Hrun & Hc & _).
    exists evs. rewrite Hrun. now cbn.
Qed.
End Claims.

(** ** The script on concrete checkouts *)

(** The mock tool only ever adds directories. *)
Lemma mock_git_keeps_dirs keep : keeps_dirs mock_git keep.
Proof.
  intros cmd f x p _ _ Hd. unfold mock_git.
  destruct (added_dest cmd) as [dest|].
  - cbn [fst]. eapply MakedirsFacts.grows_keeps; [|exact Hd].
    apply MakedirsFacts.makedirs_from_grows.
  - now destruct (String.eqb cmd update_command).
Qed.

(** What the machine without the tool reports decodes. *)
Lemma no_git_legible : legible no_git.
Proof. intros cmd f x _. reflexivity. Qed.

(** Nothing stands in the way of the project directories in a fresh
    clone. *)
Lemma fresh_clone_creatable : creatable (fs (start fresh_clone)).
Proof.
  intros p Hp c. unfold project_dirs in Hp.
  rewrite !elem_of_cons, elem_of_nil in Hp.
  destruct Hp as [->|[->|[->|[->|[->|[]]]]]]; vm_compute; discriminate.
Qed.

(** C1 on a fresh clone: the project file has no plugin section, and the
    block is appended to it. *)
Lemma update_project_plugins_appends_iff_marker_absent_witness :
  fs (start fresh_clone) !! project_path = Some (File ("config_version=5" +:+ Text.nl)) /\
  fs (snd (update_project_plugins (start fresh_clone))) !! project_path
    = Some (File (("config_version=5" +:+ Text.nl) +:+ plugin_section)).
Proof.
  assert (H : fs (start fresh_clone) !! project_path
              = Some (File ("config_version=5" +:+ Text.nl))) by reflexivity.
  split; [exact H|].
  destruct (update_project_plugins_appends_iff_marker_absent (start fresh_clone) _ H)
    as (Htext & _).
  destruct Htext as (_ & Hiff & _); [reflexivity|].
  apply Hiff. reflexivity.
Defined.

(** C1, refuted as stated: a project file saved in Latin-1 holds no
    marker, and yet nothing is appended to it: reading it raises, and
    the file is left as it was. *)
Lemma update_project_plugins_raises_on_latin1_project :
  fs (start latin1_project) !! project_path
    = Some (File ("config/name=" +:+ latin1_name +:+ Text.nl)) /\
  Text.contains marker ("config/name=" +:+ latin1_name +:+ Text.nl) = false /\
  fst (update_project_plugins (start latin1_project)) = inl UnicodeDecodeError /\
  fs (snd (update_project_plugins (start latin1_project))) = latin1_project.
Proof. repeat split; vm_compute; reflexivity. Qed.

(** C2, refuted as stated: in a checkout with both submodules in place, a
    first run of [setup_submodules] succeeds, and a second run right after
    it runs the update command again and leaves another filesystem. *)
Lemma rerun_of_setup_submodules_runs_update_again :
  let first := setup_submodules noisy_git (start configured) in
  let second := setup_submodules noisy_git (snd first) in
  fst first = inr true /\
  commands (trace (snd second)) = [update_command; update_command] /\
  fs (snd second) <> fs (snd first).
Proof.
  split; [vm_compute; reflexivity|]. split; [vm_compute; reflexivity|].
  intros H. apply (f_equal (fun f => f !! update_journal)) in H.
  vm_compute in H. discriminate H.
Qed.

(** C2 with a tool whose update changes nothing: in a checkout with both
    submodules in place a run leaves the filesystem as it found it. *)
Lemma rerun_skips_what_is_there_witness :
  fs (snd (setup_submodules mock_git (start configured))) = configured.
Proof.
  destruct (rerun_skips_what_is_there mock_git (start configured)) as (_ & _ & Hsetup).
  destruct Hsetup as (evs & _ & _ & Hfs & _).
  - reflexivity.
  - intros d Hd. cbn in Hd. rewrite !elem_of_cons, elem_of_nil in Hd.
    destruct Hd as [->|[->|[]]]; reflexivity.
  - rewrite Hfs. reflexivity.
Defined.

(** C3, refuted as stated: where a regular file is called [src],
    [create_directories] raises, [main] ends there, and none of the three
    later phases is entered. *)
Lemma main_stops_when_src_is_a_file :
  fst (main mock_git (start src_is_a_file)) = inl FileExistsError /\
  phases (trace (snd (main mock_git (start src_is_a_file)))) = [f_create_directories] /\
  fs (snd (main mock_git (start src_is_a_file))) = src_is_a_file.
Proof. split; [|split]; vm_compute; reflexivity. Qed.

(** C3 on a fresh clone, on a machine without the version-control tool:
    [setup_submodules] returns [False], the warning is printed, and the
    four phases are entered all the same. *)
Lemma main_runs_four_phases_witness :
  creatable (fs (start fresh_clone)) /\
  fst (setup_submodules no_git (start (make_all dirs fresh_clone))) = inr false /\
  phases (trace (snd (main no_git (start fresh_clone)))) =
    [f_create_directories; f_setup_submodules; f_verify_structure; f_update_project_plugins] /\
  Stdout setup_warning ∈ trace (snd (main no_git (start fresh_clone))).
Proof.
  assert (Hfalse : fst (setup_submodules no_git (start (make_all dirs fresh_clone))) = inr false)
    by (vm_compute; reflexivity).
  split; [exact fresh_clone_creatable|]. split; [exact Hfalse|].
  destruct (main_runs_four_phases no_git (start fresh_clone)) as (evs & Htrace & _ & Hall).
  destruct (Hall fresh_clone_creatable no_git_legible) as (Hph & _ & _ & _ & Hwarn).
  rewrite Htrace. split; [exact Hph|].
  apply (Hwarn (start (make_all dirs fresh_clone)) eq_refl eq_refl Hfalse).
Defined.

(** C5 on a fresh clone: the commands run are among the two adds and the
    update, in this order. *)
Lemma setup_submodules_adds_then_updates_witness :
  OS.exists_ (fs (start fresh_clone)) [".git"] = true /\
  commands (trace (snd (setup_submodules mock_git (start fresh_clone))))
    `sublist_of`
      [ add_command "../aerobeat-core" "addons/aerobeat-core";
        add_command "../aerobeat-input-mediapipe-python" "addons/aerobeat-input-mediapipe";
        update_command ].
Proof.
  assert (H : OS.exists_ (fs (start fresh_clone)) [".git"] = true) by reflexivity.
  split; [exact H|].
  destruct (setup_submodules_adds_then_updates mock_git (start fresh_clone) H)
    as (_ & f' & x' & cmds & ok & evs & _ & Hrun & Hc & Hsub & _).
  rewrite Hrun. cbn [snd trace start app]. now rewrite Hc.
Defined.

(** C5, refuted as stated: on a fresh clone, with a tool whose complaint
    does not decode, the first add fails with exit status 128, and
    [setup_submodules] does not return [False]: it raises. *)
Lemma setup_submodules_raises_on_undecodable_complaint :
  let add1 := add_command "../aerobeat-core" "addons/aerobeat-core" in
  returncode (snd (latin1_git add1 None fresh_clone tt)) = 128%Z /\
  commands (trace (snd (setup_submodules latin1_git (start fresh_clone)))) = [add1] /\
  fst (setup_submodules latin1_git (start fresh_clone)) = inl UnicodeDecodeError.
Proof. repeat split; vm_compute; reflexivity. Qed.

(** C6 on a fresh clone: [create_directories] returns, and [test/unit] is
    a directory afterwards. *)
Lemma create_directories_makes_the_four_witness :
  create_directories (start fresh_clone)
    = (inr tt, snd (create_directories (start fresh_clone))) /\
  fs (snd (create_directories (start fresh_clone))) !! ["test"; "unit"] = Some Dir.
Proof.
  assert (H : create_directories (start fresh_clone)
              = (inr tt, snd (create_directories (start fresh_clone))))
    by (vm_compute; reflexivity).
  split; [exact H|].
  destruct (create_directories_makes_the_four (start fresh_clone)) as (_ & _ & Hpost).
  destruct (Hpost _ H) as (Hdirs & _).
  apply (Hdirs "test/unit"). unfold dirs. rewrite !elem_of_cons. tauto.
Defined.

(** C7 on a fresh clone: the append leaves [.git] alone. *)
Lemma update_project_plugins_append_frame_witness :
  fs (start fresh_clone) !! project_path = Some (File ("config_version=5" +:+ Text.nl)) /\
  Text.decodes ("config_version=5" +:+ Text.nl) = true /\
  Text.contains marker ("config_version=5" +:+ Text.nl) = false /\
  fs (snd (update_project_plugins (start fresh_clone))) !! [".git"] = Some Dir.
Proof.
  assert (H : fs (start fresh_clone) !! project_path
              = Some (File ("config_version=5" +:+ Text.nl))) by reflexivity.
  assert (Hd : Text.decodes ("config_version=5" +:+ Text.nl) = true) by reflexivity.
  assert (Hm : Text.contains marker ("config_version=5" +:+ Text.nl) = false) by reflexivity.
  split; [exact H|]. split; [exact Hd|]. split; [exact Hm|].
  destruct (update_project_plugins_append_frame (start fresh_clone) _ H Hd Hm)
    as (_ & _ & _ & _ & Hframe & _).
  rewrite Hframe; [reflexivity|discriminate].
Defined.

(** C8 in an empty directory: nothing is created. *)
Lemma update_project_plugins_missing_file_witness :
  OS.exists_ (fs (start empty_directory)) (Path.components project_file) = false /\
  fs (snd (update_project_plugins (start empty_directory))) = empty_directory.
Proof.
  assert (H : OS.exists_ (fs (start empty_directory)) (Path.components project_file) = false)
    by reflexivity.
  split; [exact H|].
  destruct (update_project_plugins_missing_file (start empty_directory) H) as (_ & Hfs & _).
  exact Hfs.
Defined.

(** C9 in an empty directory: no command is run. *)
Lemma setup_submodules_outside_repository_witness :
  OS.exists_ (fs (start empty_directory)) (Path.components ".git") = false /\
  commands (trace (snd (setup_submodules mock_git (start empty_directory)))) = [].
Proof.
  assert (H : OS.exists_ (fs (start empty_directory)) (Path.components ".git") = false)
    by reflexivity.
  split; [exact H|].
  destruct (setup_submodules_outside_repository mock_git (start empty_directory) H)
    as (_ & Hc & _).
  exact Hc.
Defined.

(** C10 on a fresh clone: [main] runs to its end and [test] is a
    directory. *)
Lemma main_leaves_project_dirs_witness :
  main mock_git (start fresh_clone) = (inr tt, snd (main mock_git (start fresh_clone))) /\
  fs (snd (main mock_git (start fresh_clone))) !! ["test"] = Some Dir.
Proof.
  assert (H : main mock_git (start fresh_clone)
              = (inr tt, snd (main mock_git (start fresh_clone))))
    by (vm_compute; reflexivity).
  split; [exact H|].
  destruct (main_leaves_project_dirs mock_git _ _ (mock_git_keeps_dirs project_dirs) H)
    as (_ & Hd).
  apply Hd. rewrite !elem_of_cons. tauto.
Defined.

(** C10, refuted as stated: on a fresh clone, with a tool whose update
    step cleans the work tree, [main] runs to its end, and [test] and
    the two directories below it are gone. *)
Lemma main_returns_without_test :
  fst (main sweeping_git (start fresh_clone)) = inr tt /\
  commands (trace (snd (main sweeping_git (start fresh_clone)))) =
    [ add_command "../aerobeat-core" "addons/aerobeat-core";
      add_command "../aerobeat-input-mediapipe-python" "addons/aerobeat-input-mediapipe";
      update_command ] /\
  fs (snd (main sweeping_git (start fresh_clone))) !! ["test"] = None /\
  OS.exists_ (fs (snd (main sweeping_git (start fresh_clone))))
    (Path.components "test/unit") = false /\
  OS.exists_ (fs (snd (main sweeping_git (start fresh_clone))))
    (Path.components "test/integration") = false.
Proof. repeat split; vm_compute; reflexivity. Qed.

(** ** Further properties of the script *)

Import MakedirsFacts.

Section RunCommand.
Context {Ext : Type}.
Variable shell : string -> option string -> filesystem -> Ext -> filesystem * Ext * CompletedProcess.
Implicit Types w : World Ext.

(** X1: on each of the commands of the script, run as the script runs
    them, [run_command] echoes the command on standard output and hands
    exactly that one command to the shell, in the working directory of
    the script; the filesystem and the outside world are as the command
    left them.  When what the command wrote decodes, the text written to
    standard output and to standard error, line ends translated, is
    printed on the same stream, nothing being printed for a stream left
    empty, and the result is [True] exactly when the exit status is 0.
    When it does not decode, [run_command] raises [UnicodeDecodeError],
    after the command has run, and prints nothing of what was
    written. *)
Theorem run_command_reports cmd w :
  cmd ∈ script_commands ->
  let done := shell cmd None (fs w) (ext w) in
  let r := snd done in
  exists evs,
    snd (run_command shell cmd None w) =
      {| fs := fst (fst done); ext := snd (fst done); trace := trace w ++ evs |} /\
    take 3 evs = [Call f_run_command; Stdout (">>> " +:+ cmd); Exec cmd None] /\
    executions evs = [(cmd, None)] /\
    (decodable r = true ->
       fst (run_command shell cmd None w) = inr (returncode r =? 0)%Z /\
       out_lines evs = (">>> " +:+ cmd) :: nonempty (Text.universal_newlines (stdout r)) /\
       err_lines evs = nonempty (Text.universal_newlines (stderr r))) /\
    (decodable r = false ->
       fst (run_command shell cmd None w) = inl UnicodeDecodeError /\
       length evs = 3).
Proof.
  intros Hin done r. subst done r.
  destruct (shell cmd None (fs w) (ext w)) as [[f' x'] r] eqn:Hsh.
  exists (seen cmd r). rewrite (run_command_spec shell cmd w f' x' r Hin Hsh).
  cbn [fst snd]. split; [reflexivity|].
  unfold seen, verdict, echo, attempt, nonempty.
  destruct (decodable r); cbn [as_text stdout stderr].
  - destruct (Text.truthy (Text.universal_newlines (stdout r))),
             (Text.truthy (Text.universal_newlines (stderr r)));
      cbn; repeat split; discriminate.
  - cbn. repeat split; discriminate.
Qed.

Lemma add_plan_outcome (subs : list (string * string)) : forall (f : filesystem) (x : Ext),
  (exists b : bool, snd (add_plan shell subs f x) = inr b) \/
  snd (add_plan shell subs f x) = inl UnicodeDecodeError.
Proof.
  induction subs as [|[source dest] rest IH]; intros f x; [left; now exists true|].
  cbn [add_plan].
  destruct (OS.exists_ f (Path.components dest)); [apply IH|].
  destruct (shell (add_command source dest) None f x) as [[f1 x1] r].
  destruct (verdict r) as [e|[|]] eqn:Hv.
  - apply verdict_raises in Hv as [-> _]. now right.
  - specialize (IH f1 x1).
    destruct (add_plan shell rest f1 x1) as [[[f2 x2] cs] o2]. exact IH.
  - left. now exists false.
Qed.

Lemma setup_plan_outcome (f : filesystem) (x : Ext) :
  (exists b : bool, snd (setup_plan shell f x) = inr b) \/
  snd (setup_plan shell f x) = inl UnicodeDecodeError.
Proof.
  unfold setup_plan.
  destruct (OS.exists_ f [".git"]); [|left; now exists false].
  pose proof (add_plan_outcome submodules f x) as Hadd.
  destruct (add_plan shell submodules f x) as [[[f1 x1] cs] o]. cbn [snd] in Hadd.
  destruct o as [e|[|]]; try exact Hadd.
  destruct (shell update_command None f1 x1) as [[f2 x2] r]. cbn [snd].
  destruct (verdict r) as [e|b] eqn:Hv; [|left; now exists b].
  apply verdict_raises in Hv as [-> _]. now right.
Qed.

(** X2: [setup_submodules] touches the filesystem and the outside world
    through the commands of the script only: whatever holds of them
    before and is kept by each of these commands holds after the phase,
    however it ends.  And it ends by returning, or by raising
    [UnicodeDecodeError]; with commands whose output decodes it
    returns. *)
Theorem setup_submodules_keeps_invariants (I : filesystem -> Ext -> Prop) w :
  (forall cmd f x, cmd ∈ script_commands -> I f x ->
     I (fst (fst (shell cmd None f x))) (snd (fst (shell cmd None f x)))) ->
  I (fs w) (ext w) ->
  I (fs (snd (setup_submodules shell w))) (ext (snd (setup_submodules shell w))) /\
  ((exists b, fst (setup_submodules shell w) = inr b) \/
   fst (setup_submodules shell w) = inl UnicodeDecodeError) /\
  (legible shell -> exists b, fst (setup_submodules shell w) = inr b).
Proof.
  intros Hstep HI.
  pose proof (setup_plan_outcome (fs w) (ext w)) as Hout.
  pose proof (setup_plan_legible shell (fs w) (ext w)) as Hleg.
  destruct (setup_plan shell (fs w) (ext w)) as [[[f' x'] cmds] o] eqn:Hplan.
  destruct (setup_submodules_plan shell w f' x' cmds o Hplan) as (evs & Hrun & _).
  rewrite Hrun. cbn [fst snd fs ext] in *.
  split; [eapply setup_plan_invariant; eassumption|].
  split; [exact Hout|exact Hleg].
Qed.

(** X3: in a repository where every command of the script fails,
    [setup_submodules] runs exactly one command: the add of the first
    submodule whose destination is missing, or the update when both are
    there.  Nothing is tried after the first failure.  The phase does
    not return [True]: it returns [False] when what that command wrote
    decodes, and raises [UnicodeDecodeError] when it does not. *)
Theorem setup_submodules_stops_at_first_failure w :
  failing shell ->
  OS.exists_ (fs w) [".git"] = true ->
  let first :=
    if negb (OS.exists_ (fs w) (Path.components "addons/aerobeat-core"))
    then add_command "../aerobeat-core" "addons/aerobeat-core"
    else if negb (OS.exists_ (fs w) (Path.components "addons/aerobeat-input-mediapipe"))
    then add_command "../aerobeat-input-mediapipe-python" "addons/aerobeat-input-mediapipe"
    else update_command in
  exists evs,
    trace (snd (setup_submodules shell w)) = trace w ++ evs /\
    commands evs = [first] /\
    fst (setup_submodules shell w) =
      if decodable (snd (shell first None (fs w) (ext w)))
      then inr false else inl UnicodeDecodeError.
Proof.
  intros Hfail Hgit first. subst first.
  destruct (setup_plan shell (fs w) (ext w)) as [[[f' x'] cmds] o] eqn:Hplan.
  destruct (setup_submodules_plan shell w f' x' cmds o Hplan) as (evs & Hrun & Hc & _).
  exists evs. rewrite Hrun. cbn [fst snd trace]. split; [reflexivity|].
  rewrite Hc. clear Hrun Hc evs.
  unfold setup_plan in Hplan. rewrite Hgit in Hplan.
  unfold submodules in Hplan. cbn [add_plan] in Hplan.
  assert (Hv : forall cmd f x, cmd ∈ script_commands ->
            verdict (snd (shell cmd None f x)) =
              if decodable (snd (shell cmd None f x)) then inr false
              else inl UnicodeDecodeError).
  { intros cmd f x Hin. unfold verdict.
    destruct (decodable (snd (shell cmd None f x))); [|reflexivity].
    f_equal. apply Z.eqb_neq. now apply Hfail. }
  destruct (OS.exists_ (fs w) (Path.components "addons/aerobeat-core")); cbn [negb].
  - destruct (OS.exists_ (fs w) (Path.components "addons/aerobeat-input-mediapipe")); cbn [negb].
    + pose proof (Hv update_command (fs w) (ext w) update_command_listed) as H.
      destruct (shell update_command None (fs w) (ext w)) as [[f2 x2] r].
      cbn [snd] in H |- *. rewrite H in Hplan. now injection Hplan as _ _ <- <-.
    + match type of Hplan with context [shell ?c None ?f ?x] =>
        pose proof (Hv c f x) as H; destruct (shell c None f x) as [[f1 x1] r1] end.
      cbn [snd] in H |- *. rewrite H in Hplan.
      2: { unfold script_commands, submodules. cbn. rewrite !elem_of_cons. tauto. }
      destruct (decodable r1); now injection Hplan as _ _ <- <-.
  - match type of Hplan with context [shell ?c None ?f ?x] =>
      pose proof (Hv c f x) as H; destruct (shell c None f x) as [[f1 x1] r1] end.
    cbn [snd] in H |- *. rewrite H in Hplan.
    2: { unfold script_commands, submodules. cbn. rewrite !elem_of_cons. tauto. }
    destruct (decodable r1); now injection Hplan as _ _ <- <-.
Qed.
End RunCommand.

Lemma grows_file_before (ps : list path) (f f' : filesystem) (p : path) (c : string) :
  grows ps f f' -> f' !! p = Some (File c) -> f !! p = Some (File c).
Proof. intros H Hp. destruct (H p) as [E|(_ & D & _)]; congruence. Qed.

Lemma makedirs_from_raises rest : forall pre f e f',
  OS.makedirs_from true pre rest f = (inl e, f') ->
  exists c,
    (e = FileExistsError /\ f !! (pre ++ rest) = Some (File c)) \/
    (e = NotADirectoryError /\
     exists p k, k <> [] /\ pre ++ rest = p ++ k /\ p <> [] /\ f !! p = Some (File c)).
Proof.
  induction rest as [|c rest IH]; intros pre f e f' Hrun; [discriminate|].
  cbn [OS.makedirs_from] in Hrun.
  destruct (f !! (pre ++ [c])) as [[c0|]|] eqn:Hl.
  - exists c0. destruct rest as [|c' rest]; injection Hrun as <- _.
    + now left.
    + right. split; [reflexivity|]. exists (pre ++ [c]), (c' :: rest).
      split; [discriminate|]. split; [now rewrite <- app_assoc|].
      split; [now destruct pre|exact Hl].
  - destruct rest as [|c' rest]; [discriminate|].
    destruct (IH _ _ _ _ Hrun) as (c0 & H). exists c0.
    rewrite <- app_assoc in H. exact H.
  - destruct (IH _ _ _ _ Hrun) as (c0 & [(-> & H)|(-> & p & k & Hk & Heq & Hp & H)]);
      exists c0; [left|right]; (split; [reflexivity|]).
    + rewrite <- app_assoc in H. cbn in H.
      destruct (decide (pre ++ [c] = pre ++ c :: rest)) as [E|Hne].
      * rewrite <- E, lookup_insert_eq in H. discriminate.
      * now rewrite lookup_insert_ne in H.
    + exists p, k. rewrite <- app_assoc in Heq. cbn in Heq.
      repeat (split; [assumption|]).
      destruct (decide (pre ++ [c] = p)) as [E|Hne].
      * rewrite <- E, lookup_insert_eq in H. discriminate.
      * now rewrite lookup_insert_ne in H.
Qed.

Section CreateMore.
Context {Ext : Type}.
Implicit Types w : World Ext.

(** What one run of the loop of [create_directories] can do, whatever its
    outcome. *)
Lemma make_each_any ds : forall w,
  grows (ways ds) (fs w) (fs (snd (make_each ds w))) /\
  ext (snd (make_each ds w)) = ext w /\
  (exists evs, trace (snd (make_each ds w)) = trace w ++ evs /\
     executions evs = [] /\ err_lines evs = []) /\
  (fst (make_each ds w) = inr tt \/
   exists d c, d ∈ ds /\
     ((fst (make_each ds w) = inl FileExistsError /\
       fs w !! Path.components d = Some (File c)) \/
      (fst (make_each ds w) = inl NotADirectoryError /\
       exists p k, k <> [] /\ Path.components d = p ++ k /\ p <> [] /\
         fs w !! p = Some (File c)))).
Proof.
  induction ds as [|d ds IH]; intros w.
  - cbn. split; [apply grows_refl|]. split; [reflexivity|].
    split; [exists []; now rewrite app_nil_r|now left].
  - cbn [make_each]. unfold_m. unfold OS.makedirs. cbv beta iota.
    pose proof (makedirs_from_grows true (Path.components d) [] (fs w)) as Hg.
    destruct (OS.makedirs_from true [] (Path.components d) (fs w)) as [[e|[]] f1] eqn:Hmk;
      cbn [fst snd fs ext trace] in *.
    + split; [eapply grows_weaken; [|exact Hg]; intros p Hp;
              unfold ways; cbn; apply elem_of_app; now left|].
      split; [reflexivity|].
      split; [exists []; now rewrite app_nil_r|].
      right. destruct (makedirs_from_raises _ _ _ _ _ Hmk)
        as (c & [(-> & H)|(-> & p & k & Hk & Heq & Hp & H)]);
        exists d, c; (split; [left|]); [left|right]; (split; [reflexivity|]).
      * exact H.
      * exists p, k. cbn in Heq. auto.
    + destruct (IH {| fs := f1; ext := ext w;
                      trace := trace w ++ [Stdout ("Created: " +:+ d)] |})
        as (Hg' & Hx & (evs & Ht & He & Hs) & Hout).
      cbn [fs ext trace] in *.
      split.
      { eapply grows_trans; eapply grows_weaken; try eassumption;
          intros p Hp; unfold ways; cbn; apply elem_of_app; auto. }
      split; [exact Hx|].
      split.
      { exists (Stdout ("Created: " +:+ d) :: evs). rewrite Ht, <- app_assoc.
        split; [reflexivity|]. cbn. auto. }
      destruct Hout as [Hok|(d' & c & Hin & H)]; [now left|right].
      exists d', c. split; [now right|].
      destruct H as [(He' & H)|(He' & p & k & Hk & Heq & Hp & H)]; [left|right];
        (split; [exact He'|]).
      * eapply grows_file_before; eassumption.
      * exists p, k. repeat (split; [assumption|]).
        eapply grows_file_before; eassumption.
Qed.

Lemma create_directories_quiet w :
  grows project_dirs (fs w) (fs (snd (create_directories w))) /\
  ext (snd (create_directories w)) = ext w /\
  exists evs, trace (snd (create_directories w)) = trace w ++ evs /\
    executions evs = [] /\ err_lines evs = [].
Proof.
  unfold create_directories. unfold_m. cbv beta iota.
  match goal with |- context [make_each dirs ?W] =>
    destruct (make_each_any dirs W) as (Hg & Hx & (evs & Ht & He & Hs) & _);
    destruct (make_each dirs W) as [[e|[]] w'] end.
  all: cbn [fst snd fs ext trace] in *.
  all: split; [eapply grows_weaken; [|exact Hg]; intros p; apply ways_dirs|].
  all: split; [exact Hx|].
  all: exists (Call f_create_directories :: evs); rewrite Ht, <- app_assoc.
  all: split; [reflexivity|]; cbn; auto.
Qed.

(** X4: whatever its outcome, [create_directories] destroys nothing: the
    filesystem it leaves is the one it found plus new directories among
    [src], [scenes], [test], [test/unit] and [test/integration], also
    when it raises half way; it runs no command, writes nothing to
    standard error and leaves the outside world alone.  When it raises,
    it is with [FileExistsError], a regular file standing where one of
    the four directories goes, or with [NotADirectoryError], [test] being
    a regular file. *)
Theorem create_directories_never_destroys w :
  let r := fst (create_directories w) in
  let w' := snd (create_directories w) in
  grows project_dirs (fs w) (fs w') /\
  ext w' = ext w /\
  (exists evs, trace w' = trace w ++ evs /\ executions evs = [] /\ err_lines evs = []) /\
  (r = inr tt \/
   (r = inl FileExistsError /\
    exists d c, d ∈ dirs /\ fs w !! Path.components d = Some (File c)) \/
   (r = inl NotADirectoryError /\ exists c, fs w !! ["test"] = Some (File c))).
Proof.
  intros r w'. subst r w'.
  unfold create_directories. unfold_m. cbv beta iota.
  match goal with |- context [make_each dirs ?W] =>
    destruct (make_each_any dirs W) as (Hg & Hx & (evs & Ht & He & Hs) & Hout);
    destruct (make_each dirs W) as [[e|[]] w'] end.
  all: cbn [fst snd fs ext trace] in *.
  all: split; [eapply grows_weaken; [|exact Hg]; intros p; apply ways_dirs|].
  all: split; [exact Hx|].
  all: split;
    [exists (Call f_create_directories :: evs); rewrite Ht, <- app_assoc;
     split; [reflexivity|]; cbn; auto|].
  2: now left.
  destruct Hout as [Hok|(d & c & Hin & [(He' & H)|(He' & p & k & Hk & Heq & Hp & H)])].
  - now left.
  - right; left. split; [exact He'|]. eauto.
  - right; right. split; [exact He'|]. exists c.
    unfold dirs in Hin. rewrite !elem_of_cons, !elem_of_nil in Hin.
    destruct Hin as [->|[->|[->|[->|[]]]]]; cbn in Heq;
      destruct p as [|a [|b p]]; try done; cbn in Heq;
      try (injection Heq as <- <-; exact H);
      try (injection Heq as _ Hk'; now destruct k);
      try (injection Heq as _ _ Hk'; symmetry in Hk'; apply app_eq_nil in Hk' as [_ ?]; done).
Qed.
End CreateMore.

Lemma grows_nothing (ps : list path) (f f' : filesystem) :
  grows ps f f' -> (forall p, p ∈ ps -> f !! p = Some Dir) -> f' = f.
Proof.
  intros Hg Hd. apply map_eq. intros p.
  destruct (Hg p) as [E|(Hn & _ & Hin)]; [exact E|].
  rewrite (Hd p Hin) in Hn. discriminate.
Qed.

Lemma out_lines_created ds : out_lines (created_lines ds) = map (fun d => "Created: " +:+ d) ds.
Proof.
  unfold created_lines. induction ds as [|d ds IH]; [reflexivity|].
  cbn [map out_lines]. now rewrite IH.
Qed.

Section More.
Context {Ext : Type}.
Implicit Types w : World Ext.

(** X5: whenever [create_directories] returns it has printed the four
    lines [Created: ...], one for each directory, whether or not it made
    any of them: where all the project directories exist, the filesystem
    is unchanged and the lines are printed all the same. *)
Theorem create_directories_says_created_regardless w w' :
  create_directories w = (inr tt, w') ->
  exists evs,
    trace w' = trace w ++ evs /\
    out_lines evs =
      ["Created: src"; "Created: scenes"; "Created: test/unit"; "Created: test/integration"] /\
    ((forall p, p ∈ project_dirs -> fs w !! p = Some Dir) -> fs w' = fs w).
Proof.
  intros Hrun.
  pose proof (create_directories_returns _ _ Hrun) as Hc.
  destruct (create_directories_ok w Hc) as (f' & Hrun' & _ & Hg & _).
  rewrite Hrun in Hrun'. injection Hrun' as ->. cbn [fs trace].
  eexists. split; [reflexivity|]. split; [reflexivity|].
  intros Hd. eapply grows_nothing; eassumption.
Qed.

(** X6: right after [create_directories] has returned,
    [verify_structure] prints the checkmark for [src], [scenes] and
    [test], and its result is [True] exactly when the two files of the
    submodules exist. *)
Theorem verify_structure_after_create_directories w w1 :
  create_directories w = (inr tt, w1) ->
  exists evs,
    trace (snd (verify_structure w1)) = trace w1 ++ evs /\
    drop 3 (out_lines evs) = ["  ✓ src"; "  ✓ scenes"; "  ✓ test"] /\
    fst (verify_structure w1) =
      inr (forallb (fun p => OS.exists_ (fs w1) (Path.components p)) addon_files).
Proof.
  intros Hrun.
  pose proof (create_directories_returns _ _ Hrun) as Hc.
  destruct (create_directories_ok w Hc) as (f' & Hrun' & _ & _ & Hd).
  rewrite Hrun in Hrun'. injection Hrun' as ->.
  rewrite verify_structure_spec. cbn [fst snd log fs trace].
  assert (Hsrc : OS.exists_ f' (Path.components "src") = true).
  { unfold OS.exists_. change (Path.components "src") with ["src"].
    rewrite (Hd ["src"]); [reflexivity|]. unfold project_dirs.
    rewrite !elem_of_cons. tauto. }
  assert (Hscenes : OS.exists_ f' (Path.components "scenes") = true).
  { unfold OS.exists_. change (Path.components "scenes") with ["scenes"].
    rewrite (Hd ["scenes"]); [reflexivity|]. unfold project_dirs.
    rewrite !elem_of_cons. tauto. }
  assert (Htest : OS.exists_ f' (Path.components "test") = true).
  { unfold OS.exists_. change (Path.components "test") with ["test"].
    rewrite (Hd ["test"]); [reflexivity|]. unfold project_dirs.
    rewrite !elem_of_cons. tauto. }
  eexists. split; [reflexivity|].
  unfold required_paths, addon_files, report. cbn [map out_lines drop forallb].
  rewrite Hsrc, Hscenes, Htest. split; [reflexivity|].
  now rewrite !andb_true_r.
Qed.

Lemma upp_settled w : settled (fs (snd (update_project_plugins w))).
Proof.
  unfold settled.
  destruct (fs w !! project_path) as [[content|]|] eqn:Hl.
  - right; right. destruct (Text.decodes content) eqn:Hdec.
    + right. destruct (Text.contains marker content) eqn:Hm.
      * rewrite (upp_present w content Hl Hdec Hm). cbn [snd log fs]. eauto.
      * rewrite (upp_absent w content Hl Hdec Hm). cbn [snd fs]. rewrite lookup_insert_eq.
        eexists. split; [reflexivity|].
        split; [now apply plugin_section_decodes|].
        apply contains_app_r, marker_in_plugin_section.
    + left. rewrite (upp_undecodable w content Hl Hdec). cbn [snd log fs]. eauto.
  - right; left. now rewrite (upp_directory w Hl).
  - left. now rewrite (upp_missing w Hl).
Qed.

Lemma upp_stable w :
  settled (fs w) ->
  fs (snd (update_project_plugins w)) = fs w /\
  ext (snd (update_project_plugins w)) = ext w.
Proof.
  intros [Hl|[Hl|[(c & Hl & Hdec)|(c & Hl & Hdec & Hm)]]].
  - now rewrite (upp_missing w Hl).
  - now rewrite (upp_directory w Hl).
  - now rewrite (upp_undecodable w c Hl Hdec).
  - now rewrite (upp_present w c Hl Hdec Hm).
Qed.

(** X7: [update_project_plugins] returns [False] exactly when
    [project.godot] is missing, raises [IsADirectoryError] exactly when
    it is a directory, raises [UnicodeDecodeError] exactly when it is a
    regular file whose bytes do not decode, and returns [True] exactly
    when it is a regular file whose bytes decode.  Unless it returns
    [True] the filesystem is unchanged.  When the project file is a
    regular file that decodes, it still is one afterwards, its old text
    is a prefix of the new, the new text decodes and holds the marker,
    and, if the old text did not, the new text holds the section header
    on a line of its own. *)
Theorem update_project_plugins_outcome w :
  let r := fst (update_project_plugins w) in
  let w' := snd (update_project_plugins w) in
  (r = inr false <-> fs w !! project_path = None) /\
  (r = inl IsADirectoryError <-> fs w !! project_path = Some Dir) /\
  (r = inl UnicodeDecodeError
     <-> exists old, fs w !! project_path = Some (File old) /\ Text.decodes old = false) /\
  (r = inr true
     <-> exists old, fs w !! project_path = Some (File old) /\ Text.decodes old = true) /\
  (r <> inr true -> fs w' = fs w) /\
  (forall old, fs w !! project_path = Some (File old) -> Text.decodes old = true ->
     exists new,
       fs w' !! project_path = Some (File new) /\
       Text.startswith old new = true /\
       Text.decodes new = true /\
       Text.contains marker new = true /\
       (Text.contains marker old = false -> Text.contains header_line new = true)).
Proof.
  intros r w'. subst r w'.
  destruct (fs w !! project_path) as [[content|]|] eqn:Hl.
  - destruct (Text.decodes content) eqn:Hdec.
    + destruct (Text.contains marker content) eqn:Hm.
      * rewrite (upp_present w content Hl Hdec Hm). cbn [fst snd log fs].
        split; [split; intros H; discriminate H|].
        split; [split; intros H; discriminate H|].
        split; [split; [intros H; discriminate H|intros (old & [= <-] & H); congruence]|].
        split; [split; [eauto|reflexivity]|].
        split; [reflexivity|].
        intros old [= <-] _. exists content. rewrite Hl.
        split; [reflexivity|]. split; [apply startswith_refl|].
        split; [exact Hdec|]. split; [exact Hm|intros Hq; congruence].
      * rewrite (upp_absent w content Hl Hdec Hm). cbn [fst snd fs].
        split; [split; intros H; discriminate H|].
        split; [split; intros H; discriminate H|].
        split; [split; [intros H; discriminate H|intros (old & [= <-] & H); congruence]|].
        split; [split; [eauto|reflexivity]|].
        split; [intros H; now destruct H|].
        intros old [= <-] _. exists (content +:+ plugin_section). rewrite lookup_insert_eq.
        split; [reflexivity|]. split; [apply startswith_app|].
        split; [now apply plugin_section_decodes|].
        split; [apply contains_app_r, marker_in_plugin_section|].
        intros _. apply contains_app_r. reflexivity.
    + rewrite (upp_undecodable w content Hl Hdec). cbn [fst snd log fs].
      split; [split; intros H; discriminate H|].
      split; [split; intros H; discriminate H|].
      split; [split; [eauto|reflexivity]|].
      split; [split; [intros H; discriminate H|intros (old & [= <-] & H); congruence]|].
      split; [reflexivity|].
      intros old [= <-] H. congruence.
  - rewrite (upp_directory w Hl). cbn [fst snd log fs].
    split; [split; intros H; discriminate H|].
    split; [split; reflexivity|].
    split; [split; [intros H; discriminate H|intros (old & H & _); discriminate H]|].
    split; [split; [intros H; discriminate H|intros (old & H & _); discriminate H]|].
    split; [reflexivity|]. intros old Hq; discriminate Hq.
  - rewrite (upp_missing w Hl). cbn [fst snd log fs].
    split; [split; reflexivity|].
    split; [split; intros H; discriminate H|].
    split; [split; [intros H; discriminate H|intros (old & H & _); discriminate H]|].
    split; [split; [intros H; discriminate H|intros (old & H & _); discriminate H]|].
    split; [reflexivity|]. intros old Hq; discriminate Hq.
Qed.

Lemma rerun_settled n : forall w1,
  settled (fs w1) ->
  fs (rerun update_project_plugins n w1) = fs w1 /\
  ext (rerun update_project_plugins n w1) = ext w1.
Proof.
  induction n as [|n IH]; intros w1 Hs; [now split|].
  cbn [rerun].
  destruct (upp_stable w1 Hs) as [Hf He].
  rewrite <- Hf, <- He. apply IH. now rewrite Hf.
Qed.

Lemma upp_outside w : ext (snd (update_project_plugins w)) = ext w.
Proof.
  destruct (upp_summary w) as (r & evs & f' & Hrun & _). now rewrite Hrun.
Qed.

(** X8: any number of runs of [update_project_plugins] in a row, at
    least one, leave the filesystem that one run leaves, and the outside
    world untouched: the plugin block is never written twice. *)
Theorem update_project_plugins_repeated w n :
  fs (rerun update_project_plugins (S n) w) = fs (rerun update_project_plugins 1 w) /\
  ext (rerun update_project_plugins (S n) w) = ext w.
Proof.
  cbn [rerun]. rewrite <- (upp_outside w).
  apply rerun_settled, upp_settled.
Qed.
End More.

Section MainExtras.
Context {Ext : Type}.
Variable shell : string -> option string -> filesystem -> Ext -> filesystem * Ext * CompletedProcess.
Implicit Types w : World Ext.

(** Every run of [main], however it ends. *)
Lemma main_any w :
  exists evs,
    trace (snd (main shell w)) = trace w ++ evs /\
    Forall (disciplined shell) evs /\
    commands evs `sublist_of` script_commands.
Proof.
  destruct (create_directories
              {| fs := fs w; ext := ext w;
                 trace := (trace w ++ [Call f_main])
                            ++ [Stdout ("=== AeroBeat Assembly Setup ===" +:+ Text.nl)] |})
    as [[e|[]] w1] eqn:Hcreate.
  - rewrite (main_blocked shell w e w1 Hcreate). cbn [snd].
    match type of Hcreate with create_directories ?W = _ =>
      destruct (create_directories_quiet W) as (_ & _ & evs & Ht & He & Hs) end.
    rewrite Hcreate in Ht. cbn [snd trace] in Ht. rewrite Ht.
    eexists. split; [rewrite <- !app_assoc; reflexivity|]. split.
    + apply Forall_app; split; [repeat constructor|].
      apply Forall_app; split; [repeat constructor|now apply silent_disciplined].
    + rewrite !commands_app, (commands_executions evs), He. cbn. apply sublist_nil_l.
  - pose proof (create_directories_returns _ _ Hcreate) as Hc. cbn [fs] in Hc.
    destruct (main_decompose shell w Hc)
      as (f2 & x2 & cmds & o2 & evs2 & r4 & f3 & evs4 & Hplan & _ & _ & Hc2 & _ & Hd2 & _ &
          _ & _ & He4 & Hs4 & _ & _ & Hrun).
    rewrite Hrun. cbn [snd trace]. eexists. split; [reflexivity|]. split.
    + now apply main_events_disciplined.
    + rewrite main_events_commands by exact He4. rewrite Hc2.
      eapply setup_plan_sublist; eassumption.
Qed.

(** X9: a run of [main], however it ends, hands to the shell nothing but
    the add command of the first submodule, the add command of the
    second and the update command, in this order, each at most once, and
    always in the working directory of the script. *)
Theorem main_runs_only_its_commands w :
  exists evs,
    trace (snd (main shell w)) = trace w ++ evs /\
    executions evs `sublist_of`
      [ (add_command "../aerobeat-core" "addons/aerobeat-core", None);
        (add_command "../aerobeat-input-mediapipe-python" "addons/aerobeat-input-mediapipe",
         None);
        (update_command, None) ].
Proof.
  destruct (main_any w) as (evs & Ht & Hd & Hsub).
  exists evs. split; [exact Ht|].
  rewrite (disciplined_executions shell evs Hd).
  change [ (add_command "../aerobeat-core" "addons/aerobeat-core", None);
           (add_command "../aerobeat-input-mediapipe-python"
              "addons/aerobeat-input-mediapipe", None);
           (update_command, None) ]
    with (map (fun c : string => (c, @None string)) script_commands).
  now apply (fmap_sublist (fun c : string => (c, @None string))).
Qed.

(** X10: a run of [main], however it ends, writes to standard error
    nothing of its own: every line there is not empty and is the text,
    line ends translated, of what one of the three commands of the
    script wrote to its standard error.  The warnings and errors of the
    script go to standard output. *)
Theorem main_stderr_is_the_commands w :
  exists evs,
    trace (snd (main shell w)) = trace w ++ evs /\
    forall s, s ∈ err_lines evs ->
      s <> "" /\
      exists c f x, c ∈ script_commands /\
        Text.universal_newlines (stderr (snd (shell c None f x))) = s.
Proof.
  destruct (main_any w) as (evs & Ht & Hd & _).
  exists evs. split; [exact Ht|].
  intros s Hs. destruct (disciplined_err_lines shell evs s Hd Hs) as (Hne & Hfrom).
  split; [|exact Hfrom]. intros ->. discriminate Hne.
Qed.
End MainExtras.

Section MainEdges.
Context {Ext : Type}.
Variable shell : string -> option string -> filesystem -> Ext -> filesystem * Ext * CompletedProcess.
Implicit Types w : World Ext.

(** Past [create_directories], where there is no [.git]: the submodule
    phase does nothing but warn. *)
Lemma main_decompose_no_git w :
  creatable (fs w) ->
  OS.exists_ (fs w) [".git"] = false ->
  exists r4 f3 evs4,
    (forall w3 : World Ext, fs w3 = make_all dirs (fs w) -> ext w3 = ext w ->
       update_project_plugins w3 =
         (r4, {| fs := f3; ext := ext w; trace := trace w3 ++ evs4 |})) /\
    executions evs4 = [] /\ err_lines evs4 = [] /\
    grows project_dirs (fs w) (make_all dirs (fs w)) /\
    main shell w =
      (match r4 with inl e => inl e | inr _ => inr tt end,
       {| fs := f3; ext := ext w;
          trace := trace w ++
            main_events (make_all dirs (fs w)) (inr false)
              [Call f_setup_submodules;
               Stdout "Setting up git submodules...";
               Stdout "Warning: Not a git repository. Submodules may not work correctly."]
              evs4 r4 |}).
Proof.
  intros Hc Hgit.
  destruct (main_decompose shell w Hc)
    as (f2 & x2 & cmds & o2 & evs2 & r4 & f3 & evs4 & Hplan & Hg & _ & _ & _ & _ &
        (w1 & Hf1 & Hx1 & Hrun1) & Hupp & _ & He4 & Hs4 & _ & _ & Hrun).
  assert (Hnone : make_all dirs (fs w) !! [".git"] = None).
  { unfold OS.exists_ in Hgit.
    destruct (Hg [".git"]) as [E|(_ & _ & Hin)].
    - rewrite E. now destruct (fs w !! [".git"]).
    - unfold project_dirs in Hin. rewrite !elem_of_cons, !elem_of_nil in Hin.
      destruct Hin as [?|[?|[?|[?|[?|[]]]]]]; discriminate. }
  unfold setup_plan, OS.exists_ in Hplan. rewrite Hnone in Hplan.
  injection Hplan as <- <- <- <-.
  rewrite <- Hf1 in Hnone.
  rewrite (setup_submodules_not_a_repository shell w1 Hnone) in Hrun1.
  unfold log in Hrun1. injection Hrun1 as _ _ Hev. apply app_inv_head in Hev. subst evs2.
  exists r4, f3, evs4. auto.
Qed.

(** X11: where there is no [.git], [main] runs no command, writes
    nothing to standard error and leaves the outside world alone; on the
    filesystem it changes nothing but the project directories and
    [project.godot]; and if [create_directories] gets through, the
    warning about the submodule phase is printed. *)
Theorem main_outside_repository w :
  OS.exists_ (fs w) (Path.components ".git") = false ->
  exists evs,
    trace (snd (main shell w)) = trace w ++ evs /\
    executions evs = [] /\
    err_lines evs = [] /\
    ext (snd (main shell w)) = ext w /\
    (forall p, p ∉ project_dirs -> p <> project_path ->
       fs (snd (main shell w)) !! p = fs w !! p) /\
    (creatable (fs w) -> Stdout setup_warning ∈ evs).
Proof.
  intros Hgit. change (Path.components ".git") with [".git"] in Hgit.
  destruct (create_directories
              {| fs := fs w; ext := ext w;
                 trace := (trace w ++ [Call f_main])
                            ++ [Stdout ("=== AeroBeat Assembly Setup ===" +:+ Text.nl)] |})
    as [[e|[]] w1] eqn:Hcreate.
  - rewrite (main_blocked shell w e w1 Hcreate). cbn [snd].
    match type of Hcreate with create_directories ?W = _ =>
      destruct (create_directories_quiet W) as (Hg & Hx & evs & Ht & He & Hs);
      pose proof (create_directories_ok W) as Hok end.
    rewrite Hcreate in Hg, Hx, Ht. cbn [snd fs ext trace] in *. rewrite Ht.
    eexists. split; [rewrite <- !app_assoc; reflexivity|].
    rewrite !executions_app, !err_lines_app, He, Hs.
    split; [reflexivity|]. split; [reflexivity|]. split; [exact Hx|]. split.
    + intros p Hp _. destruct (Hg p) as [E|(_ & _ & Hin)]; [exact E|contradiction].
    + intros Hc. destruct (Hok Hc) as (f' & Hrun & _). rewrite Hcreate in Hrun. discriminate.
  - pose proof (create_directories_returns _ _ Hcreate) as Hc. cbn [fs] in Hc.
    destruct (main_decompose_no_git w Hc Hgit)
      as (r4 & f3 & evs4 & Hupp & He4 & Hs4 & Hg & Hrun).
    rewrite Hrun. cbn [snd fs ext trace].
    eexists. split; [reflexivity|].
    rewrite main_events_executions, main_events_err_lines by assumption.
    split; [reflexivity|]. split; [reflexivity|]. split; [reflexivity|]. split.
    + intros p Hp Hpp.
      destruct (upp_summary {| fs := make_all dirs (fs w); ext := ext w; trace := [] |})
        as (r & evs & f' & Hrun' & _ & _ & Hframe & _).
      rewrite (Hupp {| fs := make_all dirs (fs w); ext := ext w; trace := [] |}
                 eq_refl eq_refl) in Hrun'.
      injection Hrun' as _ <- _.
      cbn [fs] in Hframe. rewrite (Hframe p Hpp).
      destruct (Hg p) as [E|(_ & _ & Hin)]; [exact E|contradiction].
    + intros _. unfold main_events, late_events. rewrite !elem_of_app, !elem_of_cons. tauto.
Qed.

(** X13: in a directory that is neither a repository nor a project,
    [main] still returns: it makes the directories and nothing else,
    prints the warning about the submodules and the error about the
    missing [project.godot], and ends with the closing lines. *)
Theorem main_with_nothing_to_set_up w :
  creatable (fs w) ->
  OS.exists_ (fs w) (Path.components ".git") = false ->
  OS.exists_ (fs w) (Path.components project_file) = false ->
  fst (main shell w) = inr tt /\
  fs (snd (main shell w)) = make_all dirs (fs w) /\
  exists evs,
    trace (snd (main shell w)) = trace w ++ evs /\
    Stdout setup_warning ∈ evs /\
    Stdout "Error: project.godot not found" ∈ evs /\
    closing_lines `suffix_of` evs.
Proof.
  intros Hc Hgit Hproj.
  change (Path.components ".git") with [".git"] in Hgit.
  change (Path.components project_file) with project_path in Hproj.
  destruct (main_decompose_no_git w Hc Hgit)
    as (r4 & f3 & evs4 & Hupp & He4 & Hs4 & Hg & Hrun).
  assert (Hnone : make_all dirs (fs w) !! project_path = None).
  { unfold OS.exists_ in Hproj.
    destruct (Hg project_path) as [E|(_ & _ & Hin)].
    - rewrite E. now destruct (fs w !! project_path).
    - unfold project_dirs in Hin. rewrite !elem_of_cons, !elem_of_nil in Hin.
      destruct Hin as [?|[?|[?|[?|[?|[]]]]]]; discriminate. }
  pose proof (Hupp {| fs := make_all dirs (fs w); ext := ext w; trace := [] |}
                eq_refl eq_refl) as Hrun4.
  rewrite upp_missing in Hrun4 by exact Hnone.
  unfold log in Hrun4. cbn [fs ext trace] in Hrun4.
  injection Hrun4 as <- <- <-.
  rewrite Hrun. cbn [fst snd fs trace].
  split; [reflexivity|]. split; [reflexivity|].
  eexists. split; [reflexivity|]. unfold main_events, late_events.
  split; [rewrite !elem_of_app, !elem_of_cons; tauto|].
  split; [rewrite !elem_of_app, !elem_of_cons; tauto|].
  rewrite !app_assoc. now eexists.
Qed.
End MainEdges.

Section SubmodulesMore.
Context {Ext : Type}.
Variable shell : string -> option string -> filesystem -> Ext -> filesystem * Ext * CompletedProcess.
Implicit Types w : World Ext.

Lemma last_attempt (evs : list event) cmd :
  last (evs ++ attempt cmd None) = Some (Exec cmd None).
Proof. now rewrite last_app. Qed.

(** How the loop over the submodules can end. *)
Lemma add_missing_last subs :
  (forall sd, sd ∈ subs -> sd ∈ submodules) ->
  forall w, exists evs (o : exn + bool),
    add_missing shell subs w =
      (o, {| fs := fs (snd (add_missing shell subs w));
             ext := ext (snd (add_missing shell subs w));
             trace := trace w ++ evs |}) /\
    (o = inr false ->
     exists sd, sd ∈ subs /\
       last evs = Some (Stdout ("Failed to add submodule " +:+ fst sd))) /\
    (forall e, o = inl e ->
     e = UnicodeDecodeError /\
     exists cmd pre, cmd ∈ script_commands /\ evs = pre ++ attempt cmd None).
Proof.
  induction subs as [|[source dest] rest IH]; intros Hsub w.
  - exists [], (inr true). cbn. unfold mret, M_ret. rewrite app_nil_r.
    split; [now destruct w|]. split; intros; discriminate.
  - assert (Hrest : forall sd, sd ∈ rest -> sd ∈ submodules)
      by (intros sd Hsd; apply Hsub; now right).
    assert (Hcmd : add_command source dest ∈ script_commands)
      by (apply (add_command_listed (source, dest)), Hsub; left).
    specialize (IH Hrest).
    cbn [add_missing]. unfold_m. cbv beta iota.
    destruct (OS.exists_ (fs w) (Path.components dest)); cbn [negb].
    + destruct (IH w) as (evs & o & Hrun & Hlast & Hraise).
      exists evs, o. split; [exact Hrun|]. split; [|exact Hraise].
      intros Hf. destruct (Hlast Hf) as (sd & Hin & Hl). exists sd. split; [now right|exact Hl].
    + cbn [fs ext trace].
      destruct (shell (add_command source dest) None (fs w) (ext w))
        as [[f1 x1] r] eqn:Hsh.
      erewrite run_command_spec by (cbn [fs ext]; eassumption).
      destruct (verdict r) as [e|[|]] eqn:Hv; cbn [negb]; cbv beta iota; cbn [fs ext trace snd].
      * apply verdict_raises in Hv as [-> Hdec]. rewrite (seen_raised _ _ Hdec).
        exists ([Stdout ("Adding submodule: " +:+ source +:+ " -> " +:+ dest)]
                  ++ attempt (add_command source dest) None), (inl UnicodeDecodeError).
        split; [rewrite <- !app_assoc; reflexivity|].
        split; [intros H; discriminate H|].
        intros e [= <-]. split; [reflexivity|].
        exists (add_command source dest),
          [Stdout ("Adding submodule: " +:+ source +:+ " -> " +:+ dest)].
        split; [exact Hcmd|reflexivity].
      * match goal with |- context [add_missing shell rest ?W] =>
          destruct (IH W) as (evs & o & Hrun & Hlast & Hraise) end.
        rewrite Hrun. cbn [fs ext trace snd].
        eexists. exists o. split; [rewrite <- !app_assoc; reflexivity|]. split.
        -- intros Hf. destruct (Hlast Hf) as (sd & Hin & Hl). exists sd. split; [now right|].
           rewrite !app_assoc, last_app, Hl. reflexivity.
        -- intros e He. destruct (Hraise e He) as (-> & cmd & pre & Hin & ->).
           split; [reflexivity|].
           exists cmd, ([Stdout ("Adding submodule: " +:+ source +:+ " -> " +:+ dest)]
                          ++ seen (add_command source dest) r ++ pre).
           split; [exact Hin|]. now rewrite <- !app_assoc.
      * eexists. exists (inr false). split; [rewrite <- !app_assoc; reflexivity|]. split.
        -- intros _. exists (source, dest). split; [left|].
           rewrite !app_assoc, last_app. reflexivity.
        -- intros e H; discriminate H.
Qed.

(** When the submodule phase raises, a command has just run. *)
Lemma setup_submodules_raised w e :
  fst (setup_submodules shell w) = inl e ->
  e = UnicodeDecodeError /\
  exists cmd pre, cmd ∈ script_commands /\
    trace (snd (setup_submodules shell w)) = (trace w ++ pre) ++ attempt cmd None.
Proof.
  unfold setup_submodules. unfold_m. cbv beta iota. cbn [fs ext trace].
  destruct (OS.exists_ (fs w) (Path.components ".git")); cbn [negb fs ext trace snd fst];
    [|intros H; discriminate H].
  match goal with |- context [add_missing shell submodules ?W] =>
    destruct (add_missing_last submodules (fun _ H => H) W) as (evs & o & Hrun & _ & Hraise) end.
  rewrite Hrun. cbn [fs ext trace snd]. clear Hrun.
  destruct o as [e'|[|]]; cbn [negb]; cbv beta iota; cbn [fst snd fs ext trace].
  - intros [= <-]. destruct (Hraise e' eq_refl) as (-> & cmd & pre & Hin & ->).
    split; [reflexivity|].
    exists cmd, ([Call f_setup_submodules; Stdout "Setting up git submodules..."] ++ pre).
    split; [exact Hin|]. now rewrite <- !app_assoc.
  - match goal with |- context [run_command shell update_command None ?W] =>
      destruct (shell update_command None (fs W) (ext W)) as [[f2 x2] r] eqn:Hsh;
      rewrite (run_command_spec shell update_command W f2 x2 r update_command_listed Hsh) end.
    destruct (verdict r) as [e'|[|]] eqn:Hv; cbn [negb fst snd fs ext trace];
      try (intros H; discriminate H).
    apply verdict_raises in Hv as [-> Hdec]. rewrite (seen_raised _ _ Hdec).
    intros [= <-]. split; [reflexivity|].
    exists update_command,
      ([Call f_setup_submodules; Stdout "Setting up git submodules..."] ++ evs).
    split; [exact update_command_listed|]. now rewrite <- !app_assoc.
  - intros H; discriminate H.
Qed.

(** X16: [setup_submodules] accounts for its result in the last line it
    prints: [Submodules configured successfully] when it returns [True];
    when it returns [False], the warning that this is no repository, or
    [Failed to add submodule] with the source of one of the two
    submodules, or [Failed to update submodules].  When it raises, no
    line accounts for it: the last thing that happened is that one of
    the commands of the script ran. *)
Theorem setup_submodules_accounts_for_its_result w :
  exists evs,
    trace (snd (setup_submodules shell w)) = trace w ++ evs /\
    (fst (setup_submodules shell w) = inr true ->
       last evs = Some (Stdout "Submodules configured successfully")) /\
    (fst (setup_submodules shell w) = inr false ->
       exists line, line ∈ failure_lines /\ last evs = Some (Stdout line)) /\
    (forall e, fst (setup_submodules shell w) = inl e ->
       exists cmd, cmd ∈ script_commands /\ last evs = Some (Exec cmd None)).
Proof.
  unfold setup_submodules. unfold_m. cbv beta iota. cbn [fs ext trace].
  destruct (OS.exists_ (fs w) (Path.components ".git")); cbn [negb fs ext trace snd fst].
  - match goal with |- context [add_missing shell submodules ?W] =>
      destruct (add_missing_last submodules (fun _ H => H) W)
        as (evs & o & Hrun & Hlast & Hraise) end.
    rewrite Hrun. cbn [fs ext trace snd]. clear Hrun.
    destruct o as [e'|[|]]; cbn [negb]; cbv beta iota; cbn [fst snd fs ext trace].
    + destruct (Hraise e' eq_refl) as (_ & cmd & pre & Hin & ->).
      eexists. split; [rewrite <- !app_assoc; reflexivity|].
      split; [intros H; discriminate H|]. split; [intros H; discriminate H|].
      intros e _. exists cmd. split; [exact Hin|].
      rewrite !app_assoc. apply last_attempt.
    + match goal with |- context [run_command shell update_command None ?W] =>
        destruct (shell update_command None (fs W) (ext W)) as [[f2 x2] r] eqn:Hsh;
        rewrite (run_command_spec shell update_command W f2 x2 r update_command_listed Hsh) end.
      destruct (verdict r) as [e'|[|]] eqn:Hv; cbn [negb fst snd fs ext trace].
      * apply verdict_raises in Hv as [-> Hdec]. rewrite (seen_raised _ _ Hdec).
        eexists. split; [rewrite <- !app_assoc; reflexivity|].
        split; [intros H; discriminate H|]. split; [intros H; discriminate H|].
        intros e _. exists update_command. split; [exact update_command_listed|].
        rewrite !app_assoc. apply last_attempt.
      * eexists. split; [rewrite <- !app_assoc; reflexivity|].
        split; [|split; [intros H; discriminate H|intros e H; discriminate H]].
        intros _. rewrite !app_assoc, last_app. reflexivity.
      * eexists. split; [rewrite <- !app_assoc; reflexivity|].
        split; [intros H; discriminate H|]. split; [|intros e H; discriminate H].
        intros _. exists "Failed to update submodules". split.
        -- unfold failure_lines. rewrite elem_of_cons, elem_of_app, !elem_of_cons. tauto.
        -- rewrite !app_assoc, last_app. reflexivity.
    + destruct (Hlast eq_refl) as (sd & Hin & Hl).
      eexists. split; [rewrite <- !app_assoc; reflexivity|].
      split; [intros H; discriminate H|]. split; [|intros e H; discriminate H].
      intros _. exists ("Failed to add submodule " +:+ fst sd). split.
      * unfold failure_lines. rewrite elem_of_cons, elem_of_app. right; left.
        apply list_elem_of_fmap. eauto.
      * rewrite !app_assoc, last_app, Hl. reflexivity.
  - eexists. split; [rewrite <- !app_assoc; reflexivity|].
    split; [intros H; discriminate H|]. split; [|intros e H; discriminate H].
    intros _. eexists. split; [left|]. reflexivity.
Qed.

Lemma add_plan_destinations subs : forall f x f' x' cmds,
  (forall sd, sd ∈ subs -> sd ∈ submodules) ->
  adds_create shell ->
  keeps_paths shell (map (fun sd => Path.components (snd sd)) submodules) ->
  add_plan shell subs f x = (f', x', cmds, inr true) ->
  (forall sd, sd ∈ subs -> OS.exists_ f' (Path.components (snd sd)) = true) /\
  (forall sd, sd ∈ submodules ->
     OS.exists_ f (Path.components (snd sd)) = true ->
     OS.exists_ f' (Path.components (snd sd)) = true).
Proof.
  induction subs as [|[source dest] rest IH]; intros f x f' x' cmds Hsub Hadd Hkeep Hplan.
  - cbn in Hplan. injection Hplan as <- _ _. split; [intros sd Hsd; inversion Hsd|auto].
  - assert (Hrest : forall sd, sd ∈ rest -> sd ∈ submodules)
      by (intros sd Hsd; apply Hsub; now right).
    assert (Hhere : (source, dest) ∈ submodules) by (apply Hsub; left).
    cbn [add_plan] in Hplan.
    destruct (OS.exists_ f (Path.components dest)) eqn:Hd.
    + destruct (IH _ _ _ _ _ Hrest Hadd Hkeep Hplan) as [Hall Hkept].
      split; [|exact Hkept].
      intros sd Hsd. apply elem_of_cons in Hsd as [->|Hsd]; [|now apply Hall].
      now apply (Hkept (source, dest)).
    + pose proof (Hadd source dest f x Hhere) as Hmade.
      assert (Hstep : forall sd, sd ∈ submodules ->
                OS.exists_ f (Path.components (snd sd)) = true ->
                OS.exists_ (fst (fst (shell (add_command source dest) None f x)))
                  (Path.components (snd sd)) = true).
      { intros sd Hsd. apply Hkeep.
        - apply (add_command_listed (source, dest) Hhere).
        - apply list_elem_of_fmap. eauto. }
      destruct (shell (add_command source dest) None f x) as [[f1 x1] r].
      cbn [fst snd] in *.
      destruct (verdict r) as [e|[|]] eqn:Hv; try discriminate.
      apply verdict_returns in Hv as [_ Hrc]. symmetry in Hrc.
      apply Z.eqb_eq in Hrc. specialize (Hmade Hrc).
      destruct (add_plan shell rest f1 x1) as [[[f2 x2] cs] o2] eqn:Hplan'.
      injection Hplan as <- _ _ ->.
      destruct (IH _ _ _ _ _ Hrest Hadd Hkeep Hplan') as [Hall Hkept].
      split.
      * intros sd Hsd. apply elem_of_cons in Hsd as [->|Hsd]; [|now apply Hall].
        now apply (Hkept (source, dest)).
      * intros sd Hsd Hex. apply Hkept; [exact Hsd|]. now apply Hstep.
Qed.

(** X17: with a tool whose successful add leaves the destination in
    place and whose commands remove neither destination, a
    [setup_submodules] that returns [True] leaves both
    [addons/aerobeat-core] and [addons/aerobeat-input-mediapipe] in
    place. *)
Theorem setup_submodules_success_means_destinations w :
  adds_create shell ->
  keeps_paths shell (map (fun sd => Path.components (snd sd)) submodules) ->
  fst (setup_submodules shell w) = inr true ->
  forall dest, dest ∈ ["addons/aerobeat-core"; "addons/aerobeat-input-mediapipe"] ->
    OS.exists_ (fs (snd (setup_submodules shell w))) (Path.components dest) = true.
Proof.
  intros Hadd Hkeep Htrue dest Hdest.
  destruct (setup_plan shell (fs w) (ext w)) as [[[f' x'] cmds] o] eqn:Hplan.
  destruct (setup_submodules_plan shell w f' x' cmds o Hplan) as (evs & Hrun & _).
  rewrite Hrun in Htrue |- *. cbn [fst snd fs] in *. subst o.
  unfold setup_plan in Hplan.
  destruct (OS.exists_ (fs w) [".git"]); [|discriminate].
  destruct (add_plan shell submodules (fs w) (ext w)) as [[[f1 x1] cs] looped] eqn:Hap.
  destruct looped as [e|[|]]; try discriminate.
  destruct (add_plan_destinations submodules _ _ _ _ _ (fun _ H => H) Hadd Hkeep Hap)
    as [Hall _].
  assert (Hsd : exists sd, sd ∈ submodules /\ snd sd = dest).
  { change (dest ∈ map snd submodules) in Hdest.
    apply list_elem_of_fmap in Hdest as (sd & Heq & Hin). eauto. }
  destruct Hsd as (sd & Hsd & <-).
  pose proof (Hkeep update_command f1 x1 (Path.components (snd sd)) update_command_listed)
    as Hk.
  destruct (shell update_command None f1 x1) as [[f2 x2] r].
  injection Hplan as <- _ _ _. cbn [fst] in Hk.
  apply Hk; [apply list_elem_of_fmap; eauto|now apply Hall].
Qed.
End SubmodulesMore.

Section MainEnds.
Context {Ext : Type}.
Variable shell : string -> option string -> filesystem -> Ext -> filesystem * Ext * CompletedProcess.
Implicit Types w : World Ext.

Lemma last_closing_lines (evs : list event) :
  closing_lines `suffix_of` evs -> last evs = Some (Stdout "3. Run the project!").
Proof. intros [k ->]. now rewrite last_app. Qed.

(** X12: when [create_directories] gets through, [main] returns exactly
    when its output ends with the five closing lines, [=== Setup
    complete ===] first.  When it does not return, either the last
    thing it has printed is the first line of the plugin phase, which
    raised, or the last thing that happened is that a command of the
    script was echoed and run, its output making the submodule phase
    raise. *)
Theorem main_ends_with_closing_lines w :
  creatable (fs w) ->
  exists evs,
    trace (snd (main shell w)) = trace w ++ evs /\
    (fst (main shell w) = inr tt <-> closing_lines `suffix_of` evs) /\
    (fst (main shell w) <> inr tt ->
       last evs = Some (Stdout "Updating project.godot plugin configuration...") \/
       exists cmd, cmd ∈ script_commands /\ attempt cmd None `suffix_of` evs).
Proof.
  intros Hc.
  destruct (main_decompose shell w Hc)
    as (f2 & x2 & cmds & o2 & evs2 & r4 & f3 & evs4 & _ & _ & _ & _ & _ & _ &
        (w1 & _ & _ & Hrun1) & _ & _ & _ & _ & Hraise & _ & Hrun).
  rewrite Hrun. cbn [fst snd trace]. eexists. split; [reflexivity|].
  destruct o2 as [e|ok]; cbn [main_outcome].
  - destruct (setup_submodules_raised shell w1 e) as (_ & cmd & pre & Hin & Ht);
      [now rewrite Hrun1|].
    rewrite Hrun1 in Ht. cbn [snd trace] in Ht.
    rewrite <- app_assoc in Ht. apply app_inv_head in Ht. subst evs2.
    assert (Hsuffix : attempt cmd None `suffix_of`
              main_events f2 (@inl exn bool e) (pre ++ attempt cmd None) evs4 r4).
    { unfold main_events. rewrite app_nil_r, !app_assoc. now eexists. }
    split; [split|].
    + intros H; discriminate H.
    + intros Hclose. apply last_closing_lines in Hclose.
      destruct Hsuffix as [k Hk]. rewrite Hk, last_app in Hclose. discriminate Hclose.
    + intros _. right. exists cmd. split; [exact Hin|exact Hsuffix].
  - destruct r4 as [e|b].
    + assert (Hlast : last (main_events f2 (@inr exn bool ok) evs2 evs4 (@inl exn bool e))
                      = Some (Stdout "Updating project.godot plugin configuration...")).
      { unfold main_events, late_events. rewrite (Hraise e eq_refl), app_nil_r, !app_assoc.
        now rewrite last_app. }
      split; [split|].
      * intros H; discriminate H.
      * intros Hclose. apply last_closing_lines in Hclose.
        rewrite Hlast in Hclose. discriminate Hclose.
      * intros _. now left.
    + split; [split|].
      * intros _. unfold main_events, late_events. rewrite !app_assoc. now eexists.
      * reflexivity.
      * intros H. now destruct H.
Qed.
End MainEnds.

Section MainInert.
Context {Ext : Type}.
Variable shell : string -> option string -> filesystem -> Ext -> filesystem * Ext * CompletedProcess.
Implicit Types w : World Ext.

Lemma setup_plan_inert (f : filesystem) (x : Ext) :
  inert shell -> fst (fst (fst (setup_plan shell f x))) = f.
Proof.
  intros Hin.
  destruct (setup_plan shell f x) as [[[f' x'] cmds] o] eqn:Hplan. cbn [fst].
  apply (setup_plan_invariant shell (fun g _ => g = f)) with (x := x) (x' := x')
    (cmds := cmds) (o := o) (f := f); [|exact Hplan|reflexivity].
  intros cmd g y Hcmd ->. now apply Hin.
Qed.

Lemma upp_extends w old :
  fs w !! project_path = Some (File old) ->
  exists new,
    fs (snd (update_project_plugins w)) !! project_path = Some (File new) /\
    Text.startswith old new = true.
Proof.
  intros Hl. destruct (Text.decodes old) eqn:Hdec.
  - destruct (Text.contains marker old) eqn:Hm.
    + rewrite (upp_present w old Hl Hdec Hm). cbn [snd log fs].
      exists old. split; [exact Hl|apply startswith_refl].
    + rewrite (upp_absent w old Hl Hdec Hm). cbn [snd fs].
      exists (old +:+ plugin_section). split; [apply lookup_insert_eq|apply startswith_app].
  - rewrite (upp_undecodable w old Hl Hdec). cbn [snd log fs].
    exists old. split; [exact Hl|apply startswith_refl].
Qed.

Lemma project_path_not_a_dir : project_path ∉ project_dirs.
Proof.
  unfold project_dirs. rewrite !elem_of_cons, !elem_of_nil.
  intros [?|[?|[?|[?|[?|[]]]]]]; discriminate.
Qed.

(** Past [create_directories], with commands that leave the filesystem
    alone: what [main] leaves is the filesystem with the directories
    made, or what the plugin phase makes of it when that phase is
    reached. *)
Lemma main_inert w :
  inert shell -> creatable (fs w) ->
  exists (o2 r4 : exn + bool) (x2 : Ext),
    fst (update_project_plugins {| fs := make_all dirs (fs w); ext := x2; trace := [] |})
      = r4 /\
    fs (snd (main shell w)) =
      match o2 with
      | inl _ => make_all dirs (fs w)
      | inr _ => fs (snd (update_project_plugins
                            {| fs := make_all dirs (fs w); ext := x2; trace := [] |}))
      end /\
    fst (main shell w) = main_outcome o2 r4 /\
    (forall e, o2 = inl e -> e = UnicodeDecodeError) /\
    (legible shell -> exists ok : bool, o2 = inr ok) /\
    grows project_dirs (fs w) (make_all dirs (fs w)) /\
    (forall p, p ∈ project_dirs -> make_all dirs (fs w) !! p = Some Dir).
Proof.
  intros Hin Hc.
  destruct (main_decompose shell w Hc)
    as (f2 & x2 & cmds & o2 & evs2 & r4 & f3 & evs4 & Hplan & Hg & Hd & _ & _ & _ & _ &
        Hupp & _ & _ & _ & _ & _ & Hrun).
  pose proof (setup_plan_inert (make_all dirs (fs w)) (ext w) Hin) as Hf2.
  pose proof (setup_plan_outcome shell (make_all dirs (fs w)) (ext w)) as Hout.
  pose proof (setup_plan_legible shell (make_all dirs (fs w)) (ext w)) as Hleg.
  rewrite Hplan in Hf2, Hout, Hleg. cbn [fst snd] in Hf2, Hout, Hleg. subst f2.
  exists o2, r4, x2.
  rewrite (Hupp {| fs := make_all dirs (fs w); ext := x2; trace := [] |} eq_refl eq_refl).
  rewrite Hrun. cbn [fst snd fs trace].
  split; [reflexivity|]. split; [reflexivity|]. split; [reflexivity|].
  split; [|split; [exact Hleg|split; [exact Hg|exact Hd]]].
  intros e ->. destruct Hout as [[b H]|H]; congruence.
Qed.

(** X14: with commands that leave the filesystem alone, a run of [main]
    after one that returned leaves the filesystem as it found it,
    however it ends: what [main] itself writes, it writes once.  The
    second run returns too, unless what a command writes this time does
    not decode, in which case it raises [UnicodeDecodeError]. *)
Theorem main_again_changes_nothing_of_its_own w w1 :
  inert shell ->
  main shell w = (inr tt, w1) ->
  fs (snd (main shell w1)) = fs w1 /\
  (fst (main shell w1) = inr tt \/ fst (main shell w1) = inl UnicodeDecodeError) /\
  (legible shell -> fst (main shell w1) = inr tt).
Proof.
  intros Hin Hrun.
  pose proof (main_returns_creatable shell _ _ Hrun) as Hc.
  destruct (main_inert w Hin Hc) as (o2 & r4 & x2 & Hr4 & Hfs & Hres & _ & _ & _ & Hd).
  rewrite Hrun in Hfs, Hres. cbn [fst snd] in Hfs, Hres.
  destruct o2 as [e|ok]; [discriminate Hres|]. cbn [main_outcome] in Hres.
  set (w3 := {| fs := make_all dirs (fs w); ext := x2; trace := [] |}) in *.
  (* what the first run left *)
  destruct (upp_any w3)
    as (r & f' & evs' & Hrun3 & _ & _ & _ & _ & _ & Hframe & Hdir & Hraise & Hdec & Hdec' & _).
  specialize (Hrun3 w3 eq_refl eq_refl).
  rewrite Hrun3 in Hr4, Hfs. cbn [fst snd fs] in Hr4, Hfs. subst r f'.
  assert (Hnodir : fs w1 !! project_path <> Some Dir).
  { intros H. apply Hdir, Hraise in H. subst r4. discriminate Hres. }
  assert (Hreads : ~ exists c, fs w1 !! project_path = Some (File c) /\ Text.decodes c = false).
  { intros H. apply Hdec', Hdec in H. subst r4. discriminate Hres. }
  assert (Hdirs : forall p, p ∈ project_dirs -> fs w1 !! p = Some Dir).
  { intros p Hp. rewrite Hframe; [now apply Hd|].
    intros ->. now apply project_path_not_a_dir. }
  assert (Hsettled : settled (fs w1)).
  { pose proof (upp_settled w3) as Hs. now rewrite Hrun3 in Hs. }
  clear Hrun3 Hframe Hdir Hraise Hdec Hdec' Hd Hres w3 evs' Hc.
  (* the second run *)
  assert (Hc1 : creatable (fs w1)).
  { intros p Hp c. rewrite (Hdirs p Hp). discriminate. }
  destruct (main_inert w1 Hin Hc1)
    as (o2' & r4' & x2' & Hr4 & Hfs & Hres & He & Hleg & Hg & _).
  assert (Hsame : make_all dirs (fs w1) = fs w1)
    by (eapply grows_nothing; eassumption).
  rewrite Hsame in Hr4, Hfs.
  set (w3 := {| fs := fs w1; ext := x2'; trace := [] |}) in *.
  destruct (upp_stable w3 Hsettled) as [Hstable _].
  rewrite Hstable in Hfs. cbn [fs] in Hfs.
  assert (Hreturns : exists b : bool, r4' = inr b).
  { destruct (upp_any w3)
      as (r & f' & evs' & Hrun3 & _ & _ & _ & _ & _ & _ & _ & Hraise & Hdec & _ & Hor).
    rewrite (Hrun3 w3 eq_refl eq_refl) in Hr4. cbn [fst] in Hr4. subst r.
    destruct Hor as [->|[->|[b ->]]]; [| |eauto].
    - exfalso. apply Hnodir. now apply Hraise.
    - exfalso. apply Hreads. now apply Hdec. }
  destruct Hreturns as [b ->].
  split; [now destruct o2'|]. rewrite Hres. split.
  - destruct o2' as [e|ok']; [right; now rewrite (He e eq_refl)|now left].
  - intros Hl. destruct (Hleg Hl) as [ok' ->]. reflexivity.
Qed.

(** X15: with commands that leave the filesystem alone, [main], however
    it ends, writes only what is its own: away from [project.godot] the
    filesystem it leaves is the one it found plus new directories among
    the project directories; a missing [project.godot] stays missing, a
    directory stays a directory, and the text of a regular file is a
    prefix of its text afterwards. *)
Theorem main_writes_only_its_own w :
  inert shell ->
  let f' := fs (snd (main shell w)) in
  (forall p, p <> project_path ->
     f' !! p = fs w !! p \/
     (fs w !! p = None /\ f' !! p = Some Dir /\ p ∈ project_dirs)) /\
  (fs w !! project_path = None -> f' !! project_path = None) /\
  (fs w !! project_path = Some Dir -> f' !! project_path = Some Dir) /\
  (forall old, fs w !! project_path = Some (File old) ->
     exists new, f' !! project_path = Some (File new) /\ Text.startswith old new = true).
Proof.
  intros Hin f'. subst f'.
  assert (Hgrown : forall g : filesystem,
            grows project_dirs (fs w) g ->
            (forall p, p <> project_path ->
               g !! p = fs w !! p \/
               (fs w !! p = None /\ g !! p = Some Dir /\ p ∈ project_dirs)) /\
            (fs w !! project_path = None -> g !! project_path = None) /\
            (fs w !! project_path = Some Dir -> g !! project_path = Some Dir) /\
            (forall old, fs w !! project_path = Some (File old) ->
               exists new, g !! project_path = Some (File new) /\
                 Text.startswith old new = true)).
  { intros g Hg.
    assert (Hpp : g !! project_path = fs w !! project_path).
    { destruct (Hg project_path) as [E|(_ & _ & Hp)]; [exact E|].
      now apply project_path_not_a_dir in Hp. }
    split; [intros p _; apply Hg|]. rewrite Hpp.
    split; [auto|]. split; [auto|].
    intros old Hold. exists old. split; [exact Hold|apply startswith_refl]. }
  destruct (create_directories
              {| fs := fs w; ext := ext w;
                 trace := (trace w ++ [Call f_main])
                            ++ [Stdout ("=== AeroBeat Assembly Setup ===" +:+ Text.nl)] |})
    as [[e|[]] w1] eqn:Hcreate.
  - rewrite (main_blocked shell w e w1 Hcreate). cbn [snd].
    match type of Hcreate with create_directories ?W = _ =>
      destruct (create_directories_quiet W) as (Hg & _) end.
    rewrite Hcreate in Hg. cbn [snd fs] in Hg. now apply Hgrown.
  - pose proof (create_directories_returns _ _ Hcreate) as Hc. cbn [fs] in Hc.
    destruct (main_inert w Hin Hc) as (o2 & r4 & x2 & _ & Hfs & _ & _ & _ & Hg & _).
    rewrite Hfs. destruct o2 as [e|ok]; [now apply Hgrown|].
    set (w3 := {| fs := make_all dirs (fs w); ext := x2; trace := [] |}).
    assert (Hpp : fs w3 !! project_path = fs w !! project_path).
    { cbn [fs w3]. destruct (Hg project_path) as [E|(_ & _ & Hp)]; [exact E|].
      now apply project_path_not_a_dir in Hp. }
    destruct (upp_summary w3) as (r & evs' & f' & Hrun3 & _ & _ & Hframe & Hdir & _).
    split; [|split; [|split]].
    + intros p Hp. rewrite Hrun3. cbn [snd fs]. rewrite (Hframe p Hp). apply Hg.
    + intros Hnone. rewrite <- Hpp in Hnone. now rewrite (upp_missing w3 Hnone).
    + intros Hd. rewrite <- Hpp in Hd. now rewrite (upp_directory w3 Hd).
    + intros old Hold. rewrite <- Hpp in Hold. now apply upp_extends.
Qed.
End MainInert.

Section LineEnds.
Context {Ext : Type}.
Implicit Types w : World Ext.

(** X18: [update_project_plugins] does not depend on the convention for
    line ends of [project.godot]: two project files whose bytes read the
    same once line ends are translated are treated alike.  The function
    ends in the same way on both, and either both are left unchanged or
    both get the plugin block appended. *)
Theorem update_project_plugins_ignores_line_ends w w' content content' :
  fs w !! project_path = Some (File content) ->
  fs w' !! project_path = Some (File content') ->
  Text.universal_newlines content = Text.universal_newlines content' ->
  fst (update_project_plugins w) = fst (update_project_plugins w') /\
  (fs (snd (update_project_plugins w)) = fs w
     <-> fs (snd (update_project_plugins w')) = fs w') /\
  (fs (snd (update_project_plugins w)) !! project_path
       = Some (File (content +:+ plugin_section))
     <-> fs (snd (update_project_plugins w')) !! project_path
       = Some (File (content' +:+ plugin_section))) /\
  (fs (snd (update_project_plugins w)) = fs w \/
   fs (snd (update_project_plugins w)) !! project_path
     = Some (File (content +:+ plugin_section))).
Proof.
  intros Hl Hl' Heq.
  assert (Hm : Text.contains marker content = Text.contains marker content').
  { rewrite <- (marker_in_text content), <- (marker_in_text content'). now rewrite Heq. }
  assert (Hd : Text.decodes content = Text.decodes content').
  { rewrite <- (decodes_universal_newlines content), <- (decodes_universal_newlines content').
    now rewrite Heq. }
  assert (Hgrow : forall c : string, c +:+ plugin_section <> c)
    by (intros c; now apply append_truthy_neq).
  destruct (Text.decodes content) eqn:Hdec; symmetry in Hd.
  - destruct (Text.contains marker content) eqn:Hc; symmetry in Hm.
    + rewrite (upp_present w content Hl Hdec Hc), (upp_present w' content' Hl' Hd Hm).
      cbn [fst snd log fs]. rewrite Hl, Hl'.
      split; [reflexivity|]. split; [tauto|]. split; [|now left].
      split; intros [= H]; symmetry in H; now apply Hgrow in H.
    + rewrite (upp_absent w content Hl Hdec Hc), (upp_absent w' content' Hl' Hd Hm).
      cbn [fst snd fs]. rewrite !lookup_insert_eq.
      split; [reflexivity|]. split; [|split; [tauto|now right]].
      split; intros H; exfalso.
      * apply (f_equal (fun f => f !! project_path)) in H.
        rewrite lookup_insert_eq, Hl in H. injection H as H. now apply Hgrow in H.
      * apply (f_equal (fun f => f !! project_path)) in H.
        rewrite lookup_insert_eq, Hl' in H. injection H as H. now apply Hgrow in H.
  - rewrite (upp_undecodable w content Hl Hdec), (upp_undecodable w' content' Hl' Hd).
    cbn [fst snd log fs]. rewrite Hl, Hl'.
    split; [reflexivity|]. split; [tauto|]. split; [|now left].
    split; intros [= H]; symmetry in H; now apply Hgrow in H.
Qed.
End LineEnds.

(** ** The further properties on concrete checkouts *)

Lemma no_git_inert : inert no_git.
Proof. intros cmd f x _. reflexivity. Qed.

Lemma no_git_failing : failing no_git.
Proof. intros cmd f x _. discriminate. Qed.

Lemma empty_directory_creatable : creatable (fs (start empty_directory)).
Proof.
  intros p _ c. unfold start, empty_directory. cbn [fs].
  rewrite lookup_empty. discriminate.
Qed.

Lemma careful_git_adds_create : adds_create careful_git.
Proof.
  intros source dest f x Hin. unfold submodules in Hin.
  rewrite !elem_of_cons, elem_of_nil in Hin.
  destruct Hin as [[= -> ->]|[[= -> ->]|[]]]; unfold careful_git.
  - change (added_dest (add_command "../aerobeat-core" "addons/aerobeat-core"))
      with (Some "addons/aerobeat-core").
    unfold OS.makedirs.
    destruct (OS.makedirs_from true [] (Path.components "addons/aerobeat-core") f)
      as [[e|[]] f'] eqn:Hmk; cbn [fst snd]; [discriminate|]. intros _.
    destruct (makedirs_from_ok (Path.components "addons/aerobeat-core") [] f)
      as (f'' & Hrun & _ & Hd); [eapply makedirs_from_returns; eassumption|].
    rewrite Hmk in Hrun. injection Hrun as <-.
    unfold OS.exists_. rewrite (Hd (Path.components "addons/aerobeat-core")); [reflexivity|].
    cbn. rewrite !elem_of_cons. tauto.
  - change (added_dest (add_command "../aerobeat-input-mediapipe-python"
                          "addons/aerobeat-input-mediapipe"))
      with (Some "addons/aerobeat-input-mediapipe").
    unfold OS.makedirs.
    destruct (OS.makedirs_from true [] (Path.components "addons/aerobeat-input-mediapipe") f)
      as [[e|[]] f'] eqn:Hmk; cbn [fst snd]; [discriminate|]. intros _.
    destruct (makedirs_from_ok (Path.components "addons/aerobeat-input-mediapipe") [] f)
      as (f'' & Hrun & _ & Hd); [eapply makedirs_from_returns; eassumption|].
    rewrite Hmk in Hrun. injection Hrun as <-.
    unfold OS.exists_.
    rewrite (Hd (Path.components "addons/aerobeat-input-mediapipe")); [reflexivity|].
    cbn. rewrite !elem_of_cons. tauto.
Qed.

Lemma careful_git_keeps_paths ps : keeps_paths careful_git ps.
Proof.
  intros cmd f x p _ _ Hex. unfold careful_git.
  destruct (added_dest cmd) as [dest|].
  - pose proof (makedirs_from_grows true (Path.components dest) [] f) as Hg.
    unfold OS.makedirs.
    destruct (OS.makedirs_from true [] (Path.components dest) f) as [[e|[]] f'];
      cbn [fst snd] in *; [exact Hex|].
    unfold OS.exists_ in *. destruct (f !! p) as [n|] eqn:Hl; [|discriminate].
    now rewrite (grows_keeps _ _ _ _ _ Hg Hl).
  - now destruct (String.eqb cmd update_command).
Qed.

(** X1 on the update command, on a machine without the tool: the
    command is run, and its complaint is all that goes to standard
    error. *)
Lemma run_command_reports_witness :
  update_command ∈ script_commands /\
  executions (trace (snd (run_command no_git update_command None (start fresh_clone))))
    = [(update_command, None)].
Proof.
  split; [exact update_command_listed|].
  destruct (run_command_reports no_git update_command (start fresh_clone)
              update_command_listed) as (evs & Hrun & _ & Hexec & _).
  rewrite Hrun. cbn [trace start app]. exact Hexec.
Defined.

(** X2 on a machine without the tool: the filesystem stays the fresh
    clone through the submodule phase. *)
Lemma setup_submodules_keeps_invariants_witness :
  fs (snd (setup_submodules no_git (start fresh_clone))) = fresh_clone.
Proof.
  destruct (setup_submodules_keeps_invariants no_git (fun f _ => f = fresh_clone)
              (start fresh_clone)) as (Hkept & _).
  - intros cmd f x _ H. exact H.
  - reflexivity.
  - exact Hkept.
Defined.

(** X3 on a machine without the tool: the first add is tried and nothing
    after it. *)
Lemma setup_submodules_stops_at_first_failure_witness :
  OS.exists_ (fs (start fresh_clone)) [".git"] = true /\
  commands (trace (snd (setup_submodules no_git (start fresh_clone))))
    = [add_command "../aerobeat-core" "addons/aerobeat-core"] /\
  fst (setup_submodules no_git (start fresh_clone)) = inr false.
Proof.
  assert (H : OS.exists_ (fs (start fresh_clone)) [".git"] = true) by reflexivity.
  split; [exact H|].
  destruct (setup_submodules_stops_at_first_failure no_git (start fresh_clone)
              no_git_failing H) as (evs & Ht & Hc & Hres).
  rewrite Ht, Hres. cbn [start trace app]. rewrite Hc. split; reflexivity.
Defined.

(** X5 on a checkout where the directories have been made: nothing
    changes, and the four lines are printed. *)
Lemma create_directories_says_created_regardless_witness :
  create_directories (start (make_all dirs fresh_clone))
    = (inr tt, snd (create_directories (start (make_all dirs fresh_clone)))) /\
  fs (snd (create_directories (start (make_all dirs fresh_clone))))
    = make_all dirs fresh_clone.
Proof.
  assert (H : create_directories (start (make_all dirs fresh_clone))
              = (inr tt, snd (create_directories (start (make_all dirs fresh_clone)))))
    by (vm_compute; reflexivity).
  split; [exact H|].
  destruct (create_directories_says_created_regardless _ _ H) as (evs & _ & _ & Hsame).
  apply Hsame. intros p Hp. unfold project_dirs in Hp.
  rewrite !elem_of_cons, elem_of_nil in Hp.
  destruct Hp as [->|[->|[->|[->|[->|[]]]]]]; vm_compute; reflexivity.
Defined.

(** X6 on a fresh clone: the two files of the submodules are missing, so
    the verification fails although the three directories are there. *)
Lemma verify_structure_after_create_directories_witness :
  create_directories (start fresh_clone)
    = (inr tt, snd (create_directories (start fresh_clone))) /\
  fst (verify_structure (snd (create_directories (start fresh_clone)))) = inr false.
Proof.
  assert (H : create_directories (start fresh_clone)
              = (inr tt, snd (create_directories (start fresh_clone))))
    by (vm_compute; reflexivity).
  split; [exact H|].
  destruct (verify_structure_after_create_directories _ _ H) as (evs & _ & _ & Hres).
  rewrite Hres. vm_compute. reflexivity.
Defined.

(** X11 in an empty directory. *)
Lemma main_outside_repository_witness :
  OS.exists_ (fs (start empty_directory)) (Path.components ".git") = false /\
  commands (trace (snd (main mock_git (start empty_directory)))) = [].
Proof.
  assert (H : OS.exists_ (fs (start empty_directory)) (Path.components ".git") = false)
    by reflexivity.
  split; [exact H|].
  destruct (main_outside_repository mock_git (start empty_directory) H)
    as (evs & Ht & He & _).
  rewrite Ht, commands_executions. cbn [start trace app]. now rewrite He.
Defined.

(** X12 on a fresh clone: [main] returns and the closing lines come
    last. *)
Lemma main_ends_with_closing_lines_witness :
  creatable (fs (start fresh_clone)) /\
  closing_lines `suffix_of` trace (snd (main mock_git (start fresh_clone))).
Proof.
  split; [exact fresh_clone_creatable|].
  destruct (main_ends_with_closing_lines mock_git (start fresh_clone) fresh_clone_creatable)
    as (evs & Ht & Hiff & _).
  rewrite Ht. cbn [start trace app]. apply Hiff. vm_compute. reflexivity.
Defined.

(** X13 in an empty directory. *)
Lemma main_with_nothing_to_set_up_witness :
  creatable (fs (start empty_directory)) /\
  OS.exists_ (fs (start empty_directory)) (Path.components ".git") = false /\
  OS.exists_ (fs (start empty_directory)) (Path.components project_file) = false /\
  fst (main mock_git (start empty_directory)) = inr tt.
Proof.
  assert (Hg : OS.exists_ (fs (start empty_directory)) (Path.components ".git") = false)
    by reflexivity.
  assert (Hp : OS.exists_ (fs (start empty_directory)) (Path.components project_file) = false)
    by reflexivity.
  split; [exact empty_directory_creatable|]. split; [exact Hg|]. split; [exact Hp|].
  destruct (main_with_nothing_to_set_up mock_git (start empty_directory)
              empty_directory_creatable Hg Hp) as (Hres & _).
  exact Hres.
Defined.

(** X14 on a fresh clone, on a machine without the tool. *)
Lemma main_again_changes_nothing_of_its_own_witness :
  main no_git (start fresh_clone) = (inr tt, snd (main no_git (start fresh_clone))) /\
  fs (snd (main no_git (snd (main no_git (start fresh_clone)))))
    = fs (snd (main no_git (start fresh_clone))).
Proof.
  assert (H : main no_git (start fresh_clone)
              = (inr tt, snd (main no_git (start fresh_clone))))
    by (vm_compute; reflexivity).
  split; [exact H|].
  destruct (main_again_changes_nothing_of_its_own no_git _ _ no_git_inert H) as (Hfs & _).
  exact Hfs.
Defined.

(** X15 on a fresh clone, on a machine without the tool: [.git] is as it
    was. *)
Lemma main_writes_only_its_own_witness :
  fs (snd (main no_git (start fresh_clone))) !! [".git"] = Some Dir.
Proof.
  destruct (main_writes_only_its_own no_git (start fresh_clone) no_git_inert)
    as (Hframe & _).
  destruct (Hframe [".git"]) as [E|(Hn & _)]; [discriminate|rewrite E; reflexivity|].
  discriminate Hn.
Defined.

(** X17 on a fresh clone with a tool that keeps the contract. *)
Lemma setup_submodules_success_means_destinations_witness :
  fst (setup_submodules careful_git (start fresh_clone)) = inr true /\
  OS.exists_ (fs (snd (setup_submodules careful_git (start fresh_clone))))
    (Path.components "addons/aerobeat-input-mediapipe") = true.
Proof.
  assert (H : fst (setup_submodules careful_git (start fresh_clone)) = inr true)
    by (vm_compute; reflexivity).
  split; [exact H|].
  apply (setup_submodules_success_means_destinations careful_git (start fresh_clone)
           careful_git_adds_create (careful_git_keeps_paths _) H).
  rewrite !elem_of_cons. tauto.
Defined.

(** X18 on the same project file with the two conventions for line
    ends. *)
Lemma update_project_plugins_ignores_line_ends_witness :
  Text.universal_newlines dos_text = Text.universal_newlines unix_text /\
  fs (snd (update_project_plugins (start (project_with dos_text)))) !! project_path
    = Some (File (dos_text +:+ plugin_section)).
Proof.
  assert (H : Text.universal_newlines dos_text = Text.universal_newlines unix_text)
    by (vm_compute; reflexivity).
  assert (Hd : fs (start (project_with dos_text)) !! project_path = Some (File dos_text))
    by (vm_compute; reflexivity).
  assert (Hu : fs (start (project_with unix_text)) !! project_path = Some (File unix_text))
    by (vm_compute; reflexivity).
  split; [exact H|].
  destruct (update_project_plugins_ignores_line_ends
              (start (project_with dos_text)) (start (project_with unix_text))
              dos_text unix_text Hd Hu H) as (_ & _ & Hiff & _).
  apply Hiff. vm_compute. reflexivity.
Defined.
